(** * edir.py: the eDir user life cycle (create / update / archive / delete)

    A shallow embedding of [edir.py] and [settings.py].  Python values are
    modelled as the script has them: byte strings as [string], the
    dictionaries returned by the directory client as association lists, the
    externally visible effects of the script (directory calls, HTTP requests,
    SMTP traffic, rows written to the CSV file) as a chronological trace, and
    Python exceptions as an explicit outcome of every computation. *)

From Stdlib Require Import String Ascii List ZArith Lia Bool Permutation.
From Stdlib Require Import DecimalString.
Import ListNotations.
Open Scope string_scope.

(* ================================================================== *)
(** ** Python string primitives used by the script *)

Module Py.

(** [a in b] on strings: [a] occurs in [b] as a contiguous substring. *)
Fixpoint str_in (pat s : string) : bool :=
  if String.prefix pat s then true
  else match s with
       | EmptyString => false
       | String _ rest => str_in pat rest
       end.

(** Python's normalisation of one slice bound against a sequence of
    length [len]: a negative bound counts from the end, and both ends are
    clamped into [0, len]. *)
Definition clamp_index (len i : Z) : Z :=
  let j := if (i <? 0)%Z then (i + len)%Z else i in
  if (j <? 0)%Z then 0%Z else if (len <? j)%Z then len else j.

Fixpoint take (n : nat) (s : string) : string :=
  match n, s with
  | O, _ => EmptyString
  | S _, EmptyString => EmptyString
  | S k, String c rest => String c (take k rest)
  end.

Fixpoint drop (n : nat) (s : string) : string :=
  match n, s with
  | O, _ => s
  | S _, EmptyString => EmptyString
  | S k, String _ rest => drop k rest
  end.

(** [s[lo:hi]]. *)
Definition slice (s : string) (lo hi : Z) : string :=
  let len := Z.of_nat (String.length s) in
  let a := clamp_index len lo in
  let b := clamp_index len hi in
  take (Z.to_nat (b - a)) (drop (Z.to_nat a) s).

(** [s[lo:]]. *)
Definition slice_from (s : string) (lo : Z) : string :=
  let len := Z.of_nat (String.length s) in
  drop (Z.to_nat (clamp_index len lo)) s.

(** Truth value of a string: only the empty string is false. *)
Definition truthy (s : string) : bool := negb (String.eqb s "").

(** [str(z)] for an integer. *)
Definition str_of_int (z : Z) : string := NilZero.string_of_int (Z.to_int z).

(** Whether every character is below 128, so that [str] accepts the
    [unicode] text. *)
Fixpoint is_ascii (s : string) : bool :=
  match s with
  | EmptyString => true
  | String (Ascii _ _ _ _ _ _ _ b7) rest => negb b7 && is_ascii rest
  end.

(** [d.get(k)] on a dictionary kept as an association list. *)
Fixpoint dict_get {V : Type} (d : list (string * V)) (k : string) : option V :=
  match d with
  | [] => None
  | (k', v) :: rest => if String.eqb k' k then Some v else dict_get rest k
  end.

End Py.

(* ================================================================== *)
(** ** settings.py *)

Record Settings := {
  LDAPSERVER : string;
  USER : string;
  PASSWORD : string;            (* after [base64.b64decode] in readConfig *)
  baseDN : string;
  MAILDOMAIN : string;
  STUPATTERN : string;
  GSTPATTERN : string;
  ARUBAPATTERN : string;
  STUSERVER : string;
  EMPSERVER : string;
  SHAREOU : string;
  STUDENTOU : string;
  GUESTOU : string;
  EMPOU : string;
  DEPGROUPOU : string;
  GeneralMacUsersOU : string;
  StuGeneralMacUsers : string;
  GuestGeneralMacUsers : string;
  EmpGeneralMacUsers : string;
  EmpGeneralWSUsers : string;
  FROM : string;
  TO : string;
  MAILSERVER : string
}.

(** The three values [getUserType] returns: "STU", "GST", "EMP". *)
Inductive UserType := STU | GST | EMP.

Definition UserType_eqb (a b : UserType) : bool :=
  match a, b with
  | STU, STU | GST, GST | EMP, EMP => true
  | _, _ => false
  end.

Section Identity.
Variable cfg : Settings.

(** edir.py:789 *)
Definition getUserType (username : string) : UserType :=
  if Py.str_in (STUPATTERN cfg) username then STU
  else if String.eqb (GSTPATTERN cfg) (Py.slice username 0 (-4)) then GST
  else EMP.

(** edir.py:892 *)
Definition buildDN (username : string) : string :=
  match getUserType username with
  | STU => "cn=" ++ username ++ STUDENTOU cfg
  | GST => "cn=" ++ username ++ GUESTOU cfg
  | EMP => "cn=" ++ username ++ EMPOU cfg
  end.

(** The [deptGroups] dictionary of [lookupGroup], edir.py:806-815. *)
Definition deptGroups : list (string * string) :=
  [ ("Art", "Art");
    ("History", "History");
    ("Art History", "ArtHistory");
    ("Chemistry", "Chemistry");
    ("Cinema", "Cinema");
    ("Classical Studies", "Classics");
    ("Human Resources", "HumanResources");
    ("Information Technology Services", "ITS");
    ("Theatre", "Theatre") ].

(** edir.py:801.  [None] is Python's [None], the default of [.get]. *)
Definition lookupGroup (ou : string) : option string :=
  match Py.dict_get deptGroups ou with
  | Some depGroup =>
      if Py.truthy depGroup then Some ("cn=" ++ depGroup ++ DEPGROUPOU cfg)
      else Some depGroup
  | None => None
  end.

End Identity.

(* ================================================================== *)
(** ** Effects: exceptions, the trace of external calls, the environment *)

(** The Python exceptions that can arise in the script.  All of them are
    subclasses of [Exception]; only [LDAPError] is an [ldap.LDAPError]. *)
Inductive PyExn :=
| LDAPError
| UnboundLocalError
| TypeError
| KeyError
| IndexError
| IOError
| UnicodeEncodeError
| SMTPException.

Inductive Scope := SCOPE_BASE | SCOPE_ONELEVEL | SCOPE_SUBTREE.
Inductive ModOp := MOD_ADD | MOD_DELETE | MOD_REPLACE.

(** A value stored in the [attrs] dictionary of [create]: a string, or the
    list of strings given for [objectclass]. *)
Inductive AttrValue :=
| AStr (s : string)
| AList (l : list string).

Definition Attrs := list (string * AttrValue).

(** One search result of python-ldap: [(dn, {attribute: [values]})]. *)
Definition Entry := (string * list (string * list string))%type.

(** A cell of a batch record as [json.load] yields it. *)
Inductive JValue :=
| JStr (s : string)
| JInt (z : Z).

(** Every externally visible call the script makes. *)
Inductive Event :=
| Initialize (uri : string)
| SetOptionProtocol3
| SimpleBindS (who cred : string)
| SearchS (base : string) (scope : Scope) (filter : string)
          (attrlist : list string)
| AddS (dn : string) (ldif : Attrs)
| ModifyS (dn : string) (mods : list (ModOp * string * string))
| RenameS (dn newrdn : string) (newsuperior : option string)
| DeleteS (dn : string)
| UnbindS
| UrlOpen (url : string)
| SmtpConnect (host : string)
| SmtpSendmail (frm to subject text : string)
| SmtpQuit
| WriteRow (action username : JValue) (result : string).

Definition Trace := list Event.

(** The outside world, as seen by the script.  Each reply may depend on
    everything that happened before (the trace) and on the call made.
    A directory call either succeeds or raises [ldap.LDAPError]; a search
    that succeeds returns its result list; an HTTP request either returns
    a response (whose status code is only logged) or raises; the SMTP
    calls either succeed or raise. *)
Record World := {
  ldap_ok : Trace -> Event -> bool;
  ldap_search : Trace -> string -> Scope -> string -> list string
                -> option (list Entry);
  url_open : Trace -> string -> option Z;
  smtp_ok : Trace -> Event -> bool
}.

(** What the script takes from the Python runtime and from python-ldap
    without defining it: the order in which a [dict] is iterated (CPython 2
    enumerates the keys in hash order) and [ldap.modlist.addModlist]. *)
Record Runtime := {
  dict_order : list (string * string) -> list (string * string);
  dict_order_perm : forall d, Permutation (dict_order d) d;
  addModlist : Attrs -> Attrs
}.

Inductive Outcome (A : Type) :=
| Ret (a : A)
| Raise (e : PyExn).
Arguments Ret {A} a.
Arguments Raise {A} e.

(** Computations: read the trace so far, extend it, return or raise. *)
Definition M (A : Type) := Trace -> Outcome A * Trace.

Definition ret {A} (a : A) : M A := fun tr => (Ret a, tr).
Definition raise {A} (e : PyExn) : M A := fun tr => (Raise e, tr).

Definition bind {A B} (m : M A) (k : A -> M B) : M B :=
  fun tr =>
    match m tr with
    | (Ret a, tr') => k a tr'
    | (Raise e, tr') => (Raise e, tr')
    end.

(** [try: m except ...: h e]; [h] re-raises what no clause catches. *)
Definition try_except {A} (m : M A) (h : PyExn -> M A) : M A :=
  fun tr =>
    match m tr with
    | (Ret a, tr') => (Ret a, tr')
    | (Raise e, tr') => h e tr'
    end.

Notation "x <- m ;; k" := (bind m (fun x => k))
  (at level 61, m at next level, right associativity).
Notation "m ;;; k" := (bind m (fun _ => k))
  (at level 61, right associativity).

(** [for x in xs: body x]. *)
Fixpoint for_each {A} (xs : list A) (body : A -> M unit) : M unit :=
  match xs with
  | [] => ret tt
  | x :: rest => body x ;;; for_each rest body
  end.

(** [xs[0]]. *)
Definition index0 {A} (xs : list A) : M A :=
  match xs with
  | [] => raise IndexError
  | x :: _ => ret x
  end.

(** [d[k]]. *)
Definition getitem {V} (d : list (string * V)) (k : string) : M V :=
  match Py.dict_get d k with
  | Some v => ret v
  | None => raise KeyError
  end.

(** The handler of [except ldap.LDAPError, e: ...]: any other exception
    passes through. *)
Definition on_LDAPError {A} (h : M A) (e : PyExn) : M A :=
  match e with
  | LDAPError => h
  | _ => raise e
  end.

(** A [return] met inside a block, against falling out of its end. *)
Inductive Flow (A : Type) :=
| Continue (a : A)
| Return (result : string).
Arguments Continue {A} a.
Arguments Return {A} result.

(** The first parameter, in iteration order, whose value is empty:
    the loop [for _item in params: if str(params[_item]) == "": ...]. *)
Fixpoint first_missing (items : list (string * string)) : option string :=
  match items with
  | [] => None
  | (_item, v) :: rest =>
      if String.eqb v "" then Some _item else first_missing rest
  end.

Definition missing_value (_item : string) : string :=
  "ERROR: Missing an expected input value for " ++ _item ++ " in input file".

(* ================================================================== *)
(** ** edir.py *)

Section Engine.
Variable cfg : Settings.
Variable rt : Runtime.
Variable w : World.

(** A call on the LDAP connection other than a search. *)
Definition ldap_call (e : Event) : M unit :=
  fun tr => (if ldap_ok w tr e then Ret tt else Raise LDAPError, (tr ++ [e])%list).

(** [l.search_s(base, scope, filter, attrlist)]. *)
Definition search_s (base : string) (scope : Scope) (filter : string)
           (attrlist : list string) : M (list Entry) :=
  fun tr =>
    (match ldap_search w tr base scope filter attrlist with
     | Some r => Ret r
     | None => Raise LDAPError
     end, (tr ++ [SearchS base scope filter attrlist])%list).

(** [urllib.urlopen(url)] followed by [response.getcode()]. *)
Definition urlopen_getcode (url : string) : M Z :=
  fun tr =>
    (match url_open w tr url with
     | Some code => Ret code
     | None => Raise IOError
     end, (tr ++ [UrlOpen url])%list).

Definition smtp_call (e : Event) : M unit :=
  fun tr => (if smtp_ok w tr e then Ret tt else Raise SMTPException,
             (tr ++ [e])%list).

(** edir.py:825.  [true] stands for the bound connection object [l],
    [false] for the [False] returned when the bind fails. *)
Definition ldapConnect : M bool :=
  try_except
    (ldap_call (Initialize (LDAPSERVER cfg)) ;;;
     ldap_call SetOptionProtocol3 ;;;
     ldap_call (SimpleBindS (USER cfg) (PASSWORD cfg)) ;;;
     ret true)
    (on_LDAPError (ret false)).

(** edir.py:847.  When the search raises, the handler only logs, and
    [ldap_result] is still unbound when [len(ldap_result)] reads it. *)
Definition findUser (username : string) : M bool :=
  ldap_result <-
    try_except
      (r <- search_s (baseDN cfg) SCOPE_SUBTREE ("cn=" ++ username) ["dn"] ;;
       ret (Some r))
      (on_LDAPError (ret None)) ;;
  match ldap_result with
  | None => raise UnboundLocalError
  | Some ldap_result =>
      if Nat.eqb (List.length ldap_result) 0 then ret false else ret true
  end.

(** edir.py:869 *)
Definition userDisabled (username : string) : M bool :=
  ldap_result <-
    try_except
      (r <- search_s (baseDN cfg) SCOPE_SUBTREE ("cn=" ++ username)
                     ["loginDisabled"] ;;
       ret (Some r))
      (on_LDAPError (ret None)) ;;
  match ldap_result with
  | None => raise UnboundLocalError
  | Some ldap_result =>
      first <- index0 ldap_result ;;
      values <- getitem (snd first) "loginDisabled" ;;
      v <- index0 values ;;
      if String.eqb v "TRUE" then ret true else ret false
  end.

(** edir.py:910 *)
Definition addMember (gdn dn : string) : M unit :=
  try_except
    (ldap_call (ModifyS gdn [(MOD_ADD, "member", dn);
                             (MOD_ADD, "equivalentToMe", dn)]))
    (on_LDAPError (ret tt)).

(** edir.py:927 *)
Definition delMemberUid (gn gdn username : string) : M unit :=
  try_except
    (ldap_result <- search_s (baseDN cfg) SCOPE_SUBTREE ("cn=" ++ gn)
                             ["memberUid"] ;;
     first <- index0 ldap_result ;;
     members <- getitem (snd first) "memberUid" ;;
     for_each members (fun member =>
       if String.eqb username member
       then ldap_call (ModifyS gdn [(MOD_DELETE, "memberUid", member)])
       else ret tt))
    (on_LDAPError (ret tt)).

(** edir.py:950.  The message is recorded by its four components. *)
Definition sendMail (frm to subject text : string) : M unit :=
  try_except
    (smtp_call (SmtpConnect (MAILSERVER cfg)) ;;;
     smtp_call (SmtpSendmail frm to subject text) ;;;
     smtp_call SmtpQuit)
    (fun _ => ret tt).

(** *** create, edir.py:177 *)

(** [locals()] on entry to [create]. *)
Definition create_params
    (username loginDisabled uidNumber gidNumber givenName fullName sn
     employeeType dNumber x500UniqueIdentifier ou businessCategory
     userPassword description : string) : list (string * string) :=
  [ ("username", username); ("loginDisabled", loginDisabled);
    ("uidNumber", uidNumber); ("gidNumber", gidNumber);
    ("givenName", givenName); ("fullName", fullName); ("sn", sn);
    ("employeeType", employeeType); ("dNumber", dNumber);
    ("x500UniqueIdentifier", x500UniqueIdentifier); ("ou", ou);
    ("businessCategory", businessCategory);
    ("userPassword", userPassword); ("description", description) ].

(** Lines 217-239: the local variables [server], [gdn] and [groups].
    [server] is assigned for students and employees only, so it is [None]
    (unbound) for a guest.  The [else] branch of the department lookup
    evaluates ["..." / "...".format(username)], a division of two strings,
    which raises [TypeError]. *)
Definition create_groups (username ou : string)
  : M (option string * string * list string) :=
  match getUserType cfg username with
  | STU =>
      let gdn := "cn=" ++ StuGeneralMacUsers cfg ++ GeneralMacUsersOU cfg in
      ret (Some (STUSERVER cfg), gdn, [gdn])
  | GST =>
      let gdn := "cn=" ++ GuestGeneralMacUsers cfg ++ GeneralMacUsersOU cfg in
      ret (None, gdn, [gdn])
  | EMP =>
      let gdn := "cn=" ++ EmpGeneralMacUsers cfg ++ GeneralMacUsersOU cfg in
      let groups := [gdn] in
      let gdn1 := "cn=" ++ EmpGeneralWSUsers cfg ++ GeneralMacUsersOU cfg in
      let groups := (groups ++ [gdn1])%list in
      match lookupGroup cfg ou with
      | Some deptGroup =>
          if Py.truthy deptGroup
          then ret (Some (EMPSERVER cfg), gdn, (groups ++ [deptGroup])%list)
          else raise TypeError
      | None => raise TypeError
      end
  end.

(** Lines 245-276: the [attrs] dictionary, in the order of assignment.
    Reading the unbound [server] raises [UnboundLocalError]. *)
Definition create_attrs
    (server : option string)
    (username loginDisabled uidNumber gidNumber givenName fullName sn
     employeeType dNumber x500UniqueIdentifier ou businessCategory
     userPassword description : string) : M Attrs :=
  let attrs1 :=
    [ ("objectclass", AList ["top"; "person"; "organizationalPerson";
                             "inetOrgPerson"; "ndsLoginProperties";
                             "posixAccount"]);
      ("cn", AStr username);
      ("userPassword", AStr userPassword);
      ("description", AStr description);
      ("loginDisabled", AStr loginDisabled);
      ("givenName", AStr givenName);
      ("fullName", AStr fullName);
      ("sn", AStr sn);
      ("uid", AStr username);
      ("mail", AStr (username ++ MAILDOMAIN cfg));
      ("uidNumber", AStr uidNumber);
      ("gidNumber", AStr gidNumber);
      ("homeDirectory", AStr ("/Users/" ++ username));
      ("employeeType", AStr employeeType);
      ("employeeNumber", AStr (Py.slice_from dNumber 1));
      ("telexNumber", AStr dNumber);
      ("ou", AStr ou);
      ("x500UniqueIdentifier", AStr x500UniqueIdentifier);
      ("businessCategory", AStr businessCategory) ] in
  let attrs3 :=
    [ ("Language", AStr "ENGLISH");
      ("passwordUniqueRequired", AStr "TRUE");
      ("passwordRequired", AStr "TRUE");
      ("passwordMinimumLength", AStr "5");
      ("passwordAllowChange", AStr "TRUE");
      ("loginGraceRemaining", AStr "3");
      ("loginGraceLimit", AStr "3") ] in
  match server with
  | None => raise UnboundLocalError
  | Some server =>
      let attrs2 :=
        if Py.truthy server
        then [ ("ndsHomeDirectory",
                AStr ("cn=" ++ server ++ SHAREOU cfg ++ "#0#" ++ username)) ]
        else [] in
      ret (attrs1 ++ attrs2 ++ attrs3)%list
  end.

(** Lines 214-316: the body of the first [try]. *)
Definition create_entry
    (username loginDisabled uidNumber gidNumber givenName fullName sn
     employeeType dNumber x500UniqueIdentifier ou businessCategory
     userPassword description : string) : M unit :=
  let dn := buildDN cfg username in
  sgg <- create_groups username ou ;;
  let '(server, gdn, groups) := sgg in
  attrs <- create_attrs server username loginDisabled uidNumber gidNumber
             givenName fullName sn employeeType dNumber x500UniqueIdentifier
             ou businessCategory userPassword description ;;
  let ldif := addModlist rt attrs in
  ldap_call (AddS dn ldif) ;;;
  for_each groups (fun group =>
    ldap_call (ModifyS dn [(MOD_ADD, "securityEquals", group);
                           (MOD_ADD, "groupMembership", group)]) ;;;
    addMember group dn) ;;;
  ldap_call (ModifyS gdn [(MOD_ADD, "memberUid", username)]) ;;;
  ldap_call UnbindS.

(** Lines 327-368: the body of the second [try]. *)
Definition create_storage (username ou : string) : M unit :=
  match getUserType cfg username with
  | STU =>
      urlopen_getcode
        ("http://studentserver.domain.edu/cgi-bin/getspace.pl?username="
         ++ username) ;;;
      urlopen_getcode
        ("http://fileserver.domain.edu/cgi-bin/getspace.pl?username="
         ++ username) ;;;
      urlopen_getcode
        ("http://mediaserver.domain.edu/cgi-bin/getspace.pl?username="
         ++ username) ;;;
      ret tt
  | GST => ret tt
  | EMP =>
      urlopen_getcode
        ("http://empserver.domain.edu/cgi-bin/getspace.pl?username="
         ++ username) ;;;
      urlopen_getcode
        ("http://fileserver.domain.edu/cgi-bin/getspace.pl?username="
         ++ username ++ ":" ++ ou) ;;;
      urlopen_getcode
        ("http://mediaserver.domain.edu/cgi-bin/getspace.pl?username="
         ++ username) ;;;
      ret tt
  end.

(** Lines 212-382: what [create] does once the user is known not to
    exist.  The first handler returns; the second one only assigns
    [result], which line 380 assigns again before the [return]. *)
Definition create_new
    (username loginDisabled uidNumber gidNumber givenName fullName sn
     employeeType dNumber x500UniqueIdentifier ou businessCategory
     userPassword description : string) : M string :=
  r <- try_except
         (create_entry username loginDisabled uidNumber gidNumber givenName
            fullName sn employeeType dNumber x500UniqueIdentifier ou
            businessCategory userPassword description ;;;
          ret (Continue tt))
         (on_LDAPError
            (ret (Return
                    "ERROR: Could not create eDir user or update groups"))) ;;
  match r with
  | Return result => ret result
  | Continue _ =>
      result <- try_except
                  (create_storage username ou ;;; ret None)
                  (fun _ =>
                     ret (Some
                            "ERROR: Could not provision storage for the user")) ;;
      let result := "SUCCESS: User added to eDir" in
      ret result
  end.

Definition create
    (username loginDisabled uidNumber gidNumber givenName fullName sn
     employeeType dNumber x500UniqueIdentifier ou businessCategory
     userPassword description : string) : M string :=
  let params :=
    create_params username loginDisabled uidNumber gidNumber givenName
      fullName sn employeeType dNumber x500UniqueIdentifier ou
      businessCategory userPassword description in
  match first_missing (dict_order rt params) with
  | Some _item => ret (missing_value _item)
  | None =>
      l <- ldapConnect ;;
      if negb l then ret "ERROR: unable to connect to LDAP server"
      else
        found <- findUser username ;;
        if found then ret "ERROR: username already taken!"
        else
          create_new username loginDisabled uidNumber gidNumber givenName
            fullName sn employeeType dNumber x500UniqueIdentifier ou
            businessCategory userPassword description
  end.

(** *** update, edir.py:384 *)

(** [locals()] on entry to [update]. *)
Definition update_params
    (username newusername loginDisabled uidNumber gidNumber givenName
     fullName sn employeeType dNumber x500UniqueIdentifier ou
     businessCategory description : string) : list (string * string) :=
  [ ("username", username); ("newusername", newusername);
    ("loginDisabled", loginDisabled);
    ("uidNumber", uidNumber); ("gidNumber", gidNumber);
    ("givenName", givenName); ("fullName", fullName); ("sn", sn);
    ("employeeType", employeeType); ("dNumber", dNumber);
    ("x500UniqueIdentifier", x500UniqueIdentifier); ("ou", ou);
    ("businessCategory", businessCategory);
    ("description", description) ].

(** The name of the category's GeneralMac_Users group
    (lines 455-460 and 683-688). *)
Definition general_group (userType : UserType) : string :=
  match userType with
  | STU => StuGeneralMacUsers cfg
  | GST => GuestGeneralMacUsers cfg
  | EMP => EmpGeneralMacUsers cfg
  end.

(** Lines 434-471: the body of the [try] of the rename. *)
Definition rename_entry (username newusername : string) : M (Flow unit) :=
  let userType := getUserType cfg username in
  let dn := buildDN cfg username in
  found <- findUser newusername ;;
  if found then ret (Return "ERROR: username already taken!")
  else
    ldap_call (RenameS dn ("cn=" ++ newusername) None) ;;;
    let gn := general_group userType in
    let gdn := "cn=" ++ gn ++ GeneralMacUsersOU cfg in
    ldap_call (ModifyS gdn [(MOD_ADD, "memberUid", newusername)]) ;;;
    delMemberUid gn gdn username ;;;
    ret (Continue tt).

(** Lines 420-500.  The handler for [ldap.LDAPError] returns; the handler
    for [Exception] assigns [result] and falls through to the mail. *)
Definition update_rename (username newusername : string) : M (Flow unit) :=
  if negb (String.eqb username newusername) then
    let userType := getUserType cfg username in
    if negb (UserType_eqb userType (getUserType cfg newusername)) then
      ret (Return "ERROR: can't rename users across different OUs")
    else
      let dn := buildDN cfg username in
      r <- try_except
             (rename_entry username newusername)
             (fun e =>
                match e with
                | LDAPError => ret (Return "ERROR: Could not rename eDir user")
                | _ => ret (Continue tt)
                end) ;;
      match r with
      | Return result => ret (Return result)
      | Continue _ =>
          sendMail (FROM cfg) (TO cfg)
            ("eDir user renamed: " ++ dn ++ " to " ++ newusername)
            ("Need to rename home and other shared folders, "
             ++ "as well as ndsHomeDirectory attribute!") ;;;
          ret (Continue tt)
      end
  else ret (Continue tt).

(** Lines 524-541. *)
Definition update_mod_attrs
    (newusername loginDisabled uidNumber gidNumber givenName fullName sn
     employeeType dNumber x500UniqueIdentifier ou businessCategory
     description : string) : list (ModOp * string * string) :=
  [ (MOD_REPLACE, "description", description);
    (MOD_REPLACE, "loginDisabled", loginDisabled);
    (MOD_REPLACE, "givenName", givenName);
    (MOD_REPLACE, "fullName", fullName);
    (MOD_REPLACE, "sn", sn);
    (MOD_REPLACE, "uid", newusername);
    (MOD_REPLACE, "mail", newusername ++ MAILDOMAIN cfg);
    (MOD_REPLACE, "uidNumber", uidNumber);
    (MOD_REPLACE, "gidNumber", gidNumber);
    (MOD_REPLACE, "homeDirectory", "/Users/" ++ newusername);
    (MOD_REPLACE, "employeeType", employeeType);
    (MOD_REPLACE, "employeeNumber", Py.slice_from dNumber 1);
    (MOD_REPLACE, "telexNumber", dNumber);
    (MOD_REPLACE, "ou", ou);
    (MOD_REPLACE, "x500UniqueIdentifier", x500UniqueIdentifier);
    (MOD_ADD, "businessCategory", businessCategory) ].

(** Lines 504-547: the body of the last [try]. *)
Definition update_entry
    (newusername loginDisabled uidNumber gidNumber givenName fullName sn
     employeeType dNumber x500UniqueIdentifier ou businessCategory
     description : string) : M unit :=
  let dn := buildDN cfg newusername in
  ldap_result <- search_s (baseDN cfg) SCOPE_SUBTREE ("cn=" ++ newusername)
                          ["businessCategory"] ;;
  first <- index0 ldap_result ;;
  values <- getitem (snd first) "businessCategory" ;;
  for_each values (fun value =>
    if Py.str_in (ARUBAPATTERN cfg) value
    then ldap_call (ModifyS dn [(MOD_DELETE, "businessCategory", value)])
    else ret tt) ;;;
  ldap_call (ModifyS dn
               (update_mod_attrs newusername loginDisabled uidNumber
                  gidNumber givenName fullName sn employeeType dNumber
                  x500UniqueIdentifier ou businessCategory description)) ;;;
  ldap_call UnbindS.

(** Lines 502-564.  As in the rename, only the [ldap.LDAPError] handler
    returns; after the [Exception] handler line 562 assigns [result]
    again. *)
Definition update_attributes
    (newusername loginDisabled uidNumber gidNumber givenName fullName sn
     employeeType dNumber x500UniqueIdentifier ou businessCategory
     description : string) : M string :=
  r <- try_except
         (update_entry newusername loginDisabled uidNumber gidNumber
            givenName fullName sn employeeType dNumber x500UniqueIdentifier
            ou businessCategory description ;;;
          ret (Continue None))
         (fun e =>
            match e with
            | LDAPError => ret (Return "ERROR: Could not update eDir user")
            | _ => ret (Continue (Some "ERROR: Could not update eDir user"))
            end) ;;
  match r with
  | Return result => ret result
  | Continue result =>
      let result := "SUCCESS: User updated in eDir" in
      ret result
  end.

(** Lines 420-564: what [update] does once the user is known to exist. *)
Definition update_existing
    (username newusername loginDisabled uidNumber gidNumber givenName
     fullName sn employeeType dNumber x500UniqueIdentifier ou
     businessCategory description : string) : M string :=
  r <- update_rename username newusername ;;
  match r with
  | Return result => ret result
  | Continue _ =>
      update_attributes newusername loginDisabled uidNumber gidNumber
        givenName fullName sn employeeType dNumber x500UniqueIdentifier ou
        businessCategory description
  end.

Definition update
    (username newusername loginDisabled uidNumber gidNumber givenName
     fullName sn employeeType dNumber x500UniqueIdentifier ou
     businessCategory description : string) : M string :=
  let params :=
    update_params username newusername loginDisabled uidNumber gidNumber
      givenName fullName sn employeeType dNumber x500UniqueIdentifier ou
      businessCategory description in
  match first_missing (dict_order rt params) with
  | Some _item => ret (missing_value _item)
  | None =>
      l <- ldapConnect ;;
      if negb l then ret "ERROR: unable to connect to LDAP server"
      else
        found <- findUser username ;;
        if negb found then ret "ERROR: user could not be found!"
        else
          update_existing username newusername loginDisabled uidNumber
            gidNumber givenName fullName sn employeeType dNumber
            x500UniqueIdentifier ou businessCategory description
  end.

(** *** archive, edir.py:566 *)

(** Lines 602-631. *)
Definition archive_move (username : string) : M string :=
  r <- try_except
         (let dn := buildDN cfg username in
          let userType := getUserType cfg username in
          let container :=
            match userType with
            | STU => Continue ("ou=_Archive" ++ STUDENTOU cfg)
            | GST => Return "ERROR: we do not archive guest accounts"
            | EMP => Continue ("ou=_Archive" ++ EMPOU cfg)
            end in
          match container with
          | Return result => ret (Return result)
          | Continue container_new =>
              ldap_call (RenameS dn ("cn=" ++ username)
                                 (Some container_new)) ;;;
              ldap_call UnbindS ;;;
              ret (Continue tt)
          end)
         (on_LDAPError (ret (Return "ERROR: Could not move eDir user"))) ;;
  match r with
  | Return result => ret result
  | Continue _ => ret "SUCCESS: User archived in eDir"
  end.

(** Lines 595-631: what [archive] does once the user is known to exist. *)
Definition archive_existing (username : string) : M string :=
  disabled <- userDisabled username ;;
  if negb disabled then ret "ERROR: user is not disabled!"
  else archive_move username.

Definition archive (username : string) : M string :=
  if String.eqb username "" then ret (missing_value "username")
  else
    l <- ldapConnect ;;
    if negb l then ret "ERROR: unable to connect to LDAP server"
    else
      found <- findUser username ;;
      if negb found then ret "ERROR: user could not be found!"
      else archive_existing username.

(** *** delete, edir.py:633 *)

(** Lines 674-696: the body of the [try]. *)
Definition delete_entry (username : string) : M unit :=
  let dn := buildDN cfg username in
  ldap_call (DeleteS dn) ;;;
  let userType := getUserType cfg username in
  let gn := general_group userType in
  let gdn := "cn=" ++ gn ++ GeneralMacUsersOU cfg in
  delMemberUid gn gdn username ;;;
  ldap_call UnbindS.

(** Lines 672-724.  Only the [ldap.LDAPError] handler returns; after the
    [Exception] handler line 711 assigns [result] again and the mail is
    sent. *)
Definition delete_remove (username : string) : M string :=
  let dn := buildDN cfg username in
  r <- try_except
         (delete_entry username ;;; ret (Continue None))
         (fun e =>
            match e with
            | LDAPError => ret (Return "ERROR: Could not delete eDir user")
            | _ => ret (Continue (Some "ERROR: Could not delete eDir user"))
            end) ;;
  match r with
  | Return result => ret result
  | Continue result =>
      let result := "SUCCESS: User deleted from eDir" in
      sendMail (FROM cfg) (TO cfg)
        ("eDir user deleted: " ++ dn)
        "Need to deprovision home and other shared folders!" ;;;
      ret result
  end.

(** Lines 665-724: what [delete] does once the user is known to exist. *)
Definition delete_existing (username : string) : M string :=
  disabled <- userDisabled username ;;
  if negb disabled then ret "ERROR: user is not disabled!"
  else delete_remove username.

Definition delete (username : string) : M string :=
  if String.eqb username "" then ret (missing_value "username")
  else
    l <- ldapConnect ;;
    if negb l then ret "ERROR: unable to connect to LDAP server"
    else
      found <- findUser username ;;
      if negb found then ret "ERROR: user could not be found!"
      else delete_existing username.

(** *** main, edir.py:80 (from the header row on) *)

(** One record of ["useractions"]. *)
Definition Row := list (string * JValue).

(** [str(row[key])]; text arrives as [unicode], which [str] encodes as
    ASCII. *)
Definition str_field (row : Row) (key : string) : M string :=
  v <- getitem row key ;;
  match v with
  | JStr s => if Py.is_ascii s then ret s else raise UnicodeEncodeError
  | JInt z => ret (Py.str_of_int z)
  end.

(** [row["action"] == name]. *)
Definition action_is (row : Row) (name : string) : M bool :=
  v <- getitem row "action" ;;
  match v with
  | JStr s => ret (String.eqb s name)
  | JInt _ => ret false
  end.

(** Lines 127-154. *)
Definition dispatch (row : Row) : M string :=
  is_create <- action_is row "create" ;;
  if is_create then
    username <- str_field row "username" ;;
    loginDisabled <- str_field row "loginDisabled" ;;
    uidNumber <- str_field row "uidNumber" ;;
    gidNumber <- str_field row "gidNumber" ;;
    givenName <- str_field row "givenName" ;;
    fullName <- str_field row "fullName" ;;
    sn <- str_field row "sn" ;;
    employeeType <- str_field row "employeeType" ;;
    dNumber <- str_field row "DNumber" ;;
    x500UniqueIdentifier <- str_field row "x500UniqueIdentifier" ;;
    ou <- str_field row "primO" ;;
    businessCategory <- str_field row "businessCategory" ;;
    userPassword <- str_field row "userPassword" ;;
    description <- str_field row "description" ;;
    create username loginDisabled uidNumber gidNumber givenName fullName sn
      employeeType dNumber x500UniqueIdentifier ou businessCategory
      userPassword description
  else
    is_update <- action_is row "update" ;;
    if is_update then
      username <- str_field row "username" ;;
      newusername <- str_field row "newusername" ;;
      loginDisabled <- str_field row "loginDisabled" ;;
      uidNumber <- str_field row "uidNumber" ;;
      gidNumber <- str_field row "gidNumber" ;;
      givenName <- str_field row "givenName" ;;
      fullName <- str_field row "fullName" ;;
      sn <- str_field row "sn" ;;
      employeeType <- str_field row "employeeType" ;;
      dNumber <- str_field row "DNumber" ;;
      x500UniqueIdentifier <- str_field row "x500UniqueIdentifier" ;;
      ou <- str_field row "primO" ;;
      businessCategory <- str_field row "businessCategory" ;;
      description <- str_field row "description" ;;
      update username newusername loginDisabled uidNumber gidNumber
        givenName fullName sn employeeType dNumber x500UniqueIdentifier ou
        businessCategory description
    else
      is_delete <- action_is row "delete" ;;
      if is_delete then
        username <- str_field row "username" ;;
        delete username
      else
        is_archive <- action_is row "archive" ;;
        if is_archive then
          username <- str_field row "username" ;;
          archive username
        else ret "ERROR: Unrecognized action".

Definition writerow (action username : JValue) (result : string) : M unit :=
  fun tr => (Ret tt, (tr ++ [WriteRow action username result])%list).

(** Lines 126-157: one turn of the loop. *)
Definition process_row (row : Row) : M unit :=
  result <- dispatch row ;;
  action <- getitem row "action" ;;
  username <- getitem row "username" ;;
  writerow action username result.

(** Lines 117-175, after the files are open and the JSON is loaded:
    the header, the loop, and the two handlers around the loop, both of
    which only report. *)
Definition main (useractions : list Row) : M unit :=
  try_except
    (writerow (JStr "action") (JStr "username") "result" ;;;
     for_each useractions process_row)
    (fun _ => ret tt).

End Engine.

(* ================================================================== *)
(** ** Vocabulary of the statements *)

(** [pat] occurs in [s] as a contiguous substring. *)
Definition occurs_in (pat s : string) : Prop :=
  exists a b, s = a ++ pat ++ b.

(** [stripped] is [s] without its last four characters (without all of
    them when [s] has fewer than four). *)
Definition strip_last4 (s stripped : string) : Prop :=
  exists suffix,
    s = stripped ++ suffix /\
    String.length suffix = Nat.min 4 (String.length s).

(** Running a computation from a trace. *)
Definition run {A} (m : M A) (tr : Trace) : Outcome A * Trace := m tr.

(** The two shapes of a result string. *)
Definition is_error (result : string) : bool := String.prefix "ERROR: " result.

(** The calls that bind the connection, and the existence search. *)
Definition bind_calls (cfg : Settings) : Trace :=
  [ Initialize (LDAPSERVER cfg); SetOptionProtocol3;
    SimpleBindS (USER cfg) (PASSWORD cfg) ].

Definition existence_search (cfg : Settings) (username : string) : Event :=
  SearchS (baseDN cfg) SCOPE_SUBTREE ("cn=" ++ username) ["dn"].

(** Whether a call changes the directory. *)
Definition is_mutation (e : Event) : bool :=
  match e with
  | AddS _ _ | ModifyS _ _ | RenameS _ _ _ | DeleteS _ => true
  | _ => false
  end.

(** What a list of modifications does to attribute [attr]: the
    operations on it with their values, in order. *)
Definition mods_on (attr : string) (mods : list (ModOp * string * string))
  : list (ModOp * string) :=
  List.map (fun m => (fst (fst m), snd m))
           (List.filter (fun m => String.eqb (snd (fst m)) attr) mods).

(** What a trace does to attribute [attr] of the entry [dn]. *)
Fixpoint attribute_changes (dn attr : string) (tr : Trace)
  : list (ModOp * string) :=
  match tr with
  | [] => []
  | ModifyS dn' mods :: rest =>
      ((if String.eqb dn' dn then mods_on attr mods else [])
       ++ attribute_changes dn attr rest)%list
  | _ :: rest => attribute_changes dn attr rest
  end.

(** The deletion [update] issues for one value of the role attribute. *)
Definition delete_role_value (dn value : string) : Event :=
  ModifyS dn [(MOD_DELETE, "businessCategory", value)].

(** Observations on a trace. *)
Definition entries_added (tr : Trace) : list string :=
  flat_map (fun e => match e with AddS dn _ => [dn] | _ => [] end) tr.

Definition entries_deleted (tr : Trace) : list string :=
  flat_map (fun e => match e with DeleteS dn => [dn] | _ => [] end) tr.

Definition modified_dns (tr : Trace) : list string :=
  flat_map (fun e => match e with ModifyS dn _ => [dn] | _ => [] end) tr.

Definition http_requests (tr : Trace) : list string :=
  flat_map (fun e => match e with UrlOpen url => [url] | _ => [] end) tr.

Definition mails_sent (tr : Trace) : list string :=
  flat_map (fun e => match e with
                     | SmtpSendmail _ _ subject _ => [subject]
                     | _ => []
                     end) tr.

Definition rows_written (tr : Trace) : list (JValue * JValue * string) :=
  flat_map (fun e => match e with
                     | WriteRow action username result =>
                         [(action, username, result)]
                     | _ => []
                     end) tr.

(* ================================================================== *)
(** ** Fixtures: the environment of the examples in settings.py *)

Definition example_settings : Settings :=
  {| LDAPSERVER := "ldaps://server.domain.edu:636/";
     USER := "cn=admin,o=DA";
     PASSWORD := "nice try";
     baseDN := "o=DA";
     MAILDOMAIN := "@domain.edu";
     STUPATTERN := "_";
     GSTPATTERN := "gst";
     ARUBAPATTERN := "Aruba-User-Role";
     STUSERVER := "stufileserver";
     EMPSERVER := "empfileserver";
     SHAREOU := "_PERSONAL,ou=Servers,o=DA";
     STUDENTOU := ",ou=Students,o=DA";
     GUESTOU := ",ou=Visitors,o=DA";
     EMPOU := ",ou=Employees,o=DA";
     DEPGROUPOU := "_DEPARTMENT,ou=Departments,o=DA";
     GeneralMacUsersOU := ",ou=Resources,o=DA";
     StuGeneralMacUsers := "Stu_GeneralMac_Users";
     GuestGeneralMacUsers := "Guest_GeneralMac_Users";
     EmpGeneralMacUsers := "Emp_GeneralMac_Users";
     EmpGeneralWSUsers := "Emp_GeneralWS_Users";
     FROM := "user@server.domain.edu";
     TO := "user@domain.edu";
     MAILSERVER := "mail.domain.edu" |}.

(** A runtime whose dictionaries iterate in insertion order and whose
    [addModlist] hands the attributes on unchanged. *)
Definition insertion_order_runtime : Runtime :=
  {| dict_order := fun d => d;
     dict_order_perm := fun d => Permutation_refl d;
     addModlist := fun attrs => attrs |}.

(** A runtime whose dictionaries iterate in reverse insertion order. *)
Definition reverse_order_runtime : Runtime :=
  {| dict_order := fun d => rev d;
     dict_order_perm := fun d => Permutation_sym (Permutation_rev d);
     addModlist := fun attrs => attrs |}.

(** A directory stub holding a fixed list of entries: a search answers
    with the entries whose [cn] is the one the filter asks for, each cut
    down to the requested attributes. *)
Definition stub_matches (filter : string) (e : Entry) : bool :=
  match Py.dict_get (snd e) "cn" with
  | Some (cn :: _) => String.eqb filter ("cn=" ++ cn)
  | _ => false
  end.

Definition stub_project (attrlist : list string) (e : Entry) : Entry :=
  (fst e,
   List.filter (fun kv => existsb (String.eqb (fst kv)) attrlist) (snd e)).

Definition stub_search (entries : list Entry) (filter : string)
           (attrlist : list string) : list Entry :=
  List.map (stub_project attrlist) (List.filter (stub_matches filter) entries).

(** The stub as a world: [refused] tells which directory calls raise,
    [search_up] whether searches work, [http_up] and [smtp_up] whether the
    storage servers and the mail server answer. *)
Definition stub_world (entries : list Entry) (refused : Event -> bool)
           (search_up http_up smtp_up : bool) : World :=
  {| ldap_ok := fun _ e => negb (refused e);
     ldap_search := fun _ _ _ filter attrlist =>
       if search_up then Some (stub_search entries filter attrlist) else None;
     url_open := fun _ _ => if http_up then Some 200%Z else None;
     smtp_ok := fun _ _ => smtp_up |}.

Definition nothing_refused (e : Event) : bool := false.

(** The double quote character, and the role value of the usage notes:
    [Aruba-User-Role = "staff"]. *)
Definition dquote : string := String (Ascii.ascii_of_nat 34) EmptyString.
Definition role_staff : string :=
  "Aruba-User-Role = " ++ dquote ++ "staff" ++ dquote.
Definition role_faculty : string :=
  "Aruba-User-Role = " ++ dquote ++ "faculty" ++ dquote.

(** An employee whose role attribute also carries an unrelated value. *)
Definition jdoe_entry : Entry :=
  ("cn=jdoe,ou=Employees,o=DA",
   [ ("cn", ["jdoe"]);
     ("loginDisabled", ["TRUE"]);
     ("businessCategory", [role_staff; "unrelated=1"]) ]).

(** The same employee, enabled (the flag is spelt in lower case). *)
Definition jdoe_enabled_entry : Entry :=
  ("cn=jdoe,ou=Employees,o=DA",
   [ ("cn", ["jdoe"]);
     ("loginDisabled", ["true"]);
     ("businessCategory", [role_staff; "unrelated=1"]) ]).

(** An employee entry without any role attribute. *)
Definition plain_entry : Entry :=
  ("cn=asmith,ou=Employees,o=DA",
   [ ("cn", ["asmith"]); ("loginDisabled", ["TRUE"]) ]).

(** The employees' GeneralMac_Users group, with no [memberUid] value. *)
Definition emp_group_entry : Entry :=
  ("cn=Emp_GeneralMac_Users,ou=Resources,o=DA",
   [ ("cn", ["Emp_GeneralMac_Users"]) ]).

(** The same group listing a member. *)
Definition emp_group_with_member : Entry :=
  ("cn=Emp_GeneralMac_Users,ou=Resources,o=DA",
   [ ("cn", ["Emp_GeneralMac_Users"]); ("memberUid", ["jdoe"]) ]).

(** A printer that happens to be called like a user, outside every user
    container. *)
Definition printer_entry : Entry :=
  ("cn=testuserj,ou=Printers,ou=Resources,o=DA",
   [ ("cn", ["testuserj"]); ("objectClass", ["device"]) ]).

(** Directories used in the examples; every server answers. *)
Definition empty_directory : World :=
  stub_world [] nothing_refused true true true.

Definition jdoe_directory : World :=
  stub_world [jdoe_entry; emp_group_with_member] nothing_refused
             true true true.

(** A directory whose only entry called [testuserj] is a printer. *)
Definition printer_directory : World :=
  stub_world [printer_entry] nothing_refused true true true.

(** A directory in which [jdoe] is not disabled. *)
Definition enabled_directory : World :=
  stub_world [jdoe_enabled_entry; emp_group_with_member] nothing_refused
             true true true.

(** An empty directory whose storage servers do not answer. *)
Definition storage_down_directory : World :=
  stub_world [] nothing_refused true false true.

(** An empty directory on which every search raises. *)
Definition search_down_directory : World :=
  stub_world [] nothing_refused false true true.

(** [asmith] has no role attribute. *)
Definition asmith_directory : World :=
  stub_world [plain_entry; emp_group_with_member] nothing_refused
             true true true.

(** [jdoe] is disabled and the employees' group lists no [memberUid]. *)
Definition no_memberUid_directory : World :=
  stub_world [jdoe_entry; emp_group_entry] nothing_refused true true true.

(** The record of the usage notes of edir.py, for a given action, user
    name and department. *)
Definition batch_row (action username primO : string) : Row :=
  [ ("action", JStr action);
    ("username", JStr username);
    ("newusername", JStr username);
    ("loginDisabled", JStr "False");
    ("uidNumber", JInt 15549);
    ("gidNumber", JInt 15549);
    ("givenName", JStr "John");
    ("fullName", JStr "John The Testuser");
    ("sn", JStr "Testuser");
    ("employeeType", JStr "ADM");
    ("DNumber", JStr "D01234567");
    ("x500UniqueIdentifier", JStr "44EFB5C72-1EB5-1036-96C4-C572BEDBFG4G");
    ("primO", JStr primO);
    ("businessCategory", JStr role_staff);
    ("userPassword", JStr "initial password");
    ("description", JStr "Create on this date or any note") ].

(* ================================================================== *)
(** ** Footprints: which calls a computation may make *)

(** Every call [m] makes, from any trace and whatever the outcome, is one
    that [allowed] accepts. *)
Definition emits_only (allowed : Event -> bool) {A} (m : M A) : Prop :=
  forall tr, exists evs,
    snd (m tr) = (tr ++ evs)%list /\ forallb allowed evs = true.

Definition is_connection (e : Event) : bool :=
  match e with
  | Initialize _ | SetOptionProtocol3 | SimpleBindS _ _ | UnbindS => true
  | _ => false
  end.

Definition is_search (e : Event) : bool :=
  match e with
  | SearchS _ _ _ _ => true
  | _ => false
  end.

Definition is_smtp (e : Event) : bool :=
  match e with
  | SmtpConnect _ | SmtpSendmail _ _ _ _ | SmtpQuit => true
  | _ => false
  end.

Definition is_http (e : Event) : bool :=
  match e with
  | UrlOpen _ => true
  | _ => false
  end.

(** Binding, unbinding and searching change nothing in the directory. *)
Definition is_read_only (e : Event) : bool := is_connection e || is_search e.

(** The DN of the category's GeneralMac_Users group. *)
Definition general_group_dn (cfg : Settings) (username : string) : string :=
  "cn=" ++ general_group cfg (getUserType cfg username)
  ++ GeneralMacUsersOU cfg.

(** The one modification list that removes [username] from [memberUid]. *)
Definition is_memberUid_removal (username : string)
           (mods : list (ModOp * string * string)) : bool :=
  match mods with
  | [(MOD_DELETE, attr, value)] =>
      String.eqb attr "memberUid" && String.eqb value username
  | _ => false
  end.

(** What [archive] may do: read, and move the user's own entry into the
    archive container of its category (never for a guest). *)
Definition archive_allowed (cfg : Settings) (username : string) (e : Event)
  : bool :=
  is_read_only e ||
  match e with
  | RenameS dn newrdn (Some container) =>
      String.eqb dn (buildDN cfg username)
      && String.eqb newrdn ("cn=" ++ username)
      && match getUserType cfg username with
         | STU => String.eqb container ("ou=_Archive" ++ STUDENTOU cfg)
         | GST => false
         | EMP => String.eqb container ("ou=_Archive" ++ EMPOU cfg)
         end
  | _ => false
  end.

(** What [delete] may do: read, delete the user's own entry, remove the
    user's name from [memberUid] of the category group, send mail. *)
Definition delete_allowed (cfg : Settings) (username : string) (e : Event)
  : bool :=
  is_read_only e || is_smtp e ||
  match e with
  | DeleteS dn => String.eqb dn (buildDN cfg username)
  | ModifyS dn mods =>
      String.eqb dn (general_group_dn cfg username)
      && is_memberUid_removal username mods
  | _ => false
  end.

(** What [update] may do: read, rename the user's own entry to the new
    name within its container, modify attributes other than the
    password, send mail. *)
Definition update_allowed (cfg : Settings) (username newusername : string)
           (e : Event) : bool :=
  is_read_only e || is_smtp e ||
  match e with
  | RenameS dn newrdn None =>
      String.eqb dn (buildDN cfg username)
      && String.eqb newrdn ("cn=" ++ newusername)
  | ModifyS _ mods =>
      forallb (fun m => negb (String.eqb (snd (fst m)) "userPassword")) mods
  | _ => false
  end.

(** What [create] may do: read, add the user's own entry, add attribute
    values, request storage. *)
Definition create_allowed (cfg : Settings) (username : string) (e : Event)
  : bool :=
  is_read_only e || is_http e ||
  match e with
  | AddS dn _ => String.eqb dn (buildDN cfg username)
  | ModifyS _ mods =>
      forallb (fun m => match fst (fst m) with MOD_ADD => true | _ => false end)
              mods
  | _ => false
  end.

(** The three SMTP calls of one mail. *)
Definition mail_calls (cfg : Settings) (frm to subject text : string) : Trace :=
  [ SmtpConnect (MAILSERVER cfg); SmtpSendmail frm to subject text; SmtpQuit ].

(** Every parameter of the dictionary has a non-empty value. *)
Definition all_given (params : list (string * string)) : bool :=
  forallb (fun kv => negb (String.eqb (snd kv) "")) params.

(** A directory that refuses the bind. *)
Definition refuse_bind (e : Event) : bool :=
  match e with
  | SimpleBindS _ _ => true
  | _ => false
  end.

Definition bind_refused_directory : World :=
  stub_world [jdoe_entry; emp_group_with_member] refuse_bind true true true.

(** A directory whose mail server is down. *)
Definition mail_down_directory : World :=
  stub_world [jdoe_entry; emp_group_with_member] nothing_refused
             true true false.

(** The archive container of the user's category (students have their
    own, everybody else who is archived goes with the employees). *)
Definition archive_container (cfg : Settings) (username : string) : string :=
  match getUserType cfg username with
  | STU => "ou=_Archive" ++ STUDENTOU cfg
  | _ => "ou=_Archive" ++ EMPOU cfg
  end.

(** A disabled guest. *)
Definition guest_entry : Entry :=
  ("cn=gst0001,ou=Visitors,o=DA",
   [ ("cn", ["gst0001"]); ("loginDisabled", ["TRUE"]) ]).

Definition guest_directory : World :=
  stub_world [guest_entry] nothing_refused true true true.

(** A directory that refuses to rename or move entries. *)
Definition refuse_rename (e : Event) : bool :=
  match e with
  | RenameS _ _ _ => true
  | _ => false
  end.

Definition rename_refused_directory : World :=
  stub_world [jdoe_entry; emp_group_with_member] refuse_rename true true true.

(** A directory that refuses to delete entries. *)
Definition refuse_delete (e : Event) : bool :=
  match e with
  | DeleteS _ => true
  | _ => false
  end.

Definition delete_refused_directory : World :=
  stub_world [jdoe_entry; emp_group_with_member] refuse_delete true true true.

(** A directory that refuses to add entries. *)
Definition refuse_add (e : Event) : bool :=
  match e with
  | AddS _ _ => true
  | _ => false
  end.

Definition add_refused_directory : World :=
  stub_world [] refuse_add true true true.

(** The groups a new user is put into, in order: the category's
    GeneralMac_Users group, and for an employee also the GeneralWS_Users
    group and the departmental group when the department is known. *)
Definition category_groups (cfg : Settings) (username ou : string)
  : list string :=
  match getUserType cfg username with
  | STU => ["cn=" ++ StuGeneralMacUsers cfg ++ GeneralMacUsersOU cfg]
  | GST => ["cn=" ++ GuestGeneralMacUsers cfg ++ GeneralMacUsersOU cfg]
  | EMP =>
      List.app
        ["cn=" ++ EmpGeneralMacUsers cfg ++ GeneralMacUsersOU cfg;
         "cn=" ++ EmpGeneralWSUsers cfg ++ GeneralMacUsersOU cfg]
        match lookupGroup cfg ou with
        | Some deptGroup => [deptGroup]
        | None => []
        end
  end.

(** The home directory server of the category. *)
Definition home_server (cfg : Settings) (username : string) : string :=
  match getUserType cfg username with
  | STU => STUSERVER cfg
  | _ => EMPSERVER cfg
  end.

(** The storage requests of a new user, in order. *)
Definition storage_urls (cfg : Settings) (username ou : string) : list string :=
  match getUserType cfg username with
  | STU =>
      [ "http://studentserver.domain.edu/cgi-bin/getspace.pl?username="
        ++ username;
        "http://fileserver.domain.edu/cgi-bin/getspace.pl?username="
        ++ username;
        "http://mediaserver.domain.edu/cgi-bin/getspace.pl?username="
        ++ username ]
  | GST => []
  | EMP =>
      [ "http://empserver.domain.edu/cgi-bin/getspace.pl?username="
        ++ username;
        "http://fileserver.domain.edu/cgi-bin/getspace.pl?username="
        ++ username ++ ":" ++ ou;
        "http://mediaserver.domain.edu/cgi-bin/getspace.pl?username="
        ++ username ]
  end.

(** The four modifications that put the entry [dn] into [group]: two on
    the entry, then two on the group. *)
Definition membership_calls (dn group : string) : Trace :=
  [ ModifyS dn [(MOD_ADD, "securityEquals", group);
                (MOD_ADD, "groupMembership", group)];
    ModifyS group [(MOD_ADD, "member", dn); (MOD_ADD, "equivalentToMe", dn)] ].

(** A directory holding both [jdoe] and [asmith]. *)
Definition two_users_directory : World :=
  stub_world [jdoe_entry; plain_entry; emp_group_with_member]
             nothing_refused true true true.

(** The text of the mail sent after a rename. *)
Definition rename_mail_text : string :=
  "Need to rename home and other shared folders, "
  ++ "as well as ndsHomeDirectory attribute!".







(** A batch record without the [action] key, and one whose user name is
    not ASCII. *)
Definition keyless_row : Row := [ ("username", JStr "jdoe") ].

Definition accented_row : Row :=
  [ ("action", JStr "delete");
    ("username", JStr (String (Ascii.ascii_of_nat 233) "mile")) ].

(** settings.py as it is shipped: every constant is the empty string. *)
Definition shipped_settings : Settings :=
  {| LDAPSERVER := ""; USER := ""; PASSWORD := ""; baseDN := "";
     MAILDOMAIN := ""; STUPATTERN := ""; GSTPATTERN := "";
     ARUBAPATTERN := ""; STUSERVER := ""; EMPSERVER := ""; SHAREOU := "";
     STUDENTOU := ""; GUESTOU := ""; EMPOU := ""; DEPGROUPOU := "";
     GeneralMacUsersOU := ""; StuGeneralMacUsers := "";
     GuestGeneralMacUsers := ""; EmpGeneralMacUsers := "";
     EmpGeneralWSUsers := ""; FROM := ""; TO := ""; MAILSERVER := "" |}.

(** A directory that accepts the deletion of single values and refuses
    every other modification. *)
Definition refuse_wide_modify (e : Event) : bool :=
  match e with
  | ModifyS _ [_] => false
  | ModifyS _ _ => true
  | _ => false
  end.

Definition modify_refused_directory : World :=
  stub_world [jdoe_entry; emp_group_with_member] refuse_wide_modify
             true true true.

(* ================================================================== *)
(** ** Python strings: what the primitives compute *)

Module PyFacts.

Lemma prefix_iff (p s : string) :
  String.prefix p s = true <-> exists b, s = p ++ b.
Proof.
  revert s; induction p as [|c p IH]; intros s.
  - split; [intros _; exists s; reflexivity | now destruct s].
  - destruct s as [|d s]; simpl.
    + split; [discriminate | intros [b Hb]; discriminate].
    + destruct (Ascii.ascii_dec c d) as [->|Hne].
      * rewrite IH. split; intros [b Hb]; exists b.
        -- now rewrite Hb.
        -- now inversion Hb.
      * split; [discriminate | intros [b Hb]; inversion Hb; congruence].
Qed.

Lemma str_in_unfold (pat s : string) :
  Py.str_in pat s =
  if String.prefix pat s then true
  else match s with
       | EmptyString => false
       | String _ rest => Py.str_in pat rest
       end.
Proof. destruct s; reflexivity. Qed.

Lemma str_in_iff (pat s : string) :
  Py.str_in pat s = true <-> occurs_in pat s.
Proof.
  unfold occurs_in. induction s as [|c s IH]; rewrite str_in_unfold.
  - destruct (String.prefix pat "") eqn:Hp.
    + apply prefix_iff in Hp. destruct Hp as [b Hb].
      split; [intros _; exists "", b; exact Hb | reflexivity].
    + split; [discriminate|].
      intros (a & b & Hab). destruct a; simpl in Hab.
      * assert (String.prefix pat "" = true) by (apply prefix_iff; eauto).
        congruence.
      * discriminate.
  - destruct (String.prefix pat (String c s)) eqn:Hp.
    + apply prefix_iff in Hp. destruct Hp as [b Hb].
      split; [intros _; exists "", b; exact Hb | reflexivity].
    + rewrite IH. split.
      * intros (a & b & ->). exists (String c a), b. reflexivity.
      * intros (a & b & Hab). destruct a as [|c' a]; simpl in Hab.
        -- assert (String.prefix pat (String c s) = true)
             by (apply prefix_iff; eauto).
           congruence.
        -- inversion Hab; subst. eauto.
Qed.

Lemma take_app (a b : string) : Py.take (String.length a) (a ++ b) = a.
Proof. induction a; simpl; [now destruct b | now f_equal]. Qed.

Lemma take_drop (n : nat) (s : string) : s = Py.take n s ++ Py.drop n s.
Proof.
  revert s; induction n; intros [|c s]; simpl; try reflexivity.
  now rewrite <- IHn.
Qed.

Lemma length_app (a b : string) :
  String.length (a ++ b) = String.length a + String.length b.
Proof. induction a; simpl; [reflexivity | now rewrite IHa]. Qed.

Lemma length_take (n : nat) (s : string) :
  String.length (Py.take n s) = Nat.min n (String.length s).
Proof. revert s; induction n; intros [|c s]; simpl; auto. Qed.

Lemma clamp_index_0 (len : Z) : (0 <= len)%Z -> Py.clamp_index len 0 = 0%Z.
Proof.
  intros H. unfold Py.clamp_index.
  change (0 <? 0)%Z with false. cbv iota.
  now destruct (Z.ltb_spec len 0); [lia|].
Qed.

Lemma clamp_index_neg (len i : Z) :
  (0 <= len)%Z -> (i < 0)%Z -> Py.clamp_index len i = Z.max 0 (i + len).
Proof.
  intros Hlen Hi. unfold Py.clamp_index.
  destruct (Z.ltb_spec i 0); [|lia].
  destruct (Z.ltb_spec (i + len) 0); [lia|].
  destruct (Z.ltb_spec len (i + len)); lia.
Qed.

(** [s[0:-4]] keeps the first [len(s) - 4] characters. *)
Lemma slice_0_minus4 (s : string) :
  Py.slice s 0 (-4) = Py.take (String.length s - 4) s.
Proof.
  unfold Py.slice.
  rewrite clamp_index_0, clamp_index_neg by lia.
  change (Py.drop (Z.to_nat 0) s) with s.
  f_equal. lia.
Qed.

Lemma strip_last4_iff (s stripped : string) :
  strip_last4 s stripped <-> stripped = Py.slice s 0 (-4).
Proof.
  rewrite slice_0_minus4. unfold strip_last4. split.
  - intros (suffix & Hs & Hlen).
    assert (Hl : String.length s - 4 = String.length stripped).
    { rewrite Hs in Hlen |- *. rewrite length_app in *. lia. }
    rewrite Hl, Hs. now rewrite take_app.
  - intros ->. exists (Py.drop (String.length s - 4) s). split.
    + apply take_drop.
    + pose proof (f_equal String.length (take_drop (String.length s - 4) s))
        as H.
      rewrite length_app, length_take in H. lia.
Qed.

End PyFacts.

(* ================================================================== *)
(** ** The classifier *)

(** C8.  [getUserType] is a function of the username alone (given the
    patterns of the settings), defined for every string and without any
    exceptional outcome.  If the student pattern occurs in the username
    as a substring the category is Student; otherwise, if the guest
    pattern equals the username without its last four characters, it is
    Guest; otherwise it is Employee.  The student rule is consulted first,
    so it wins when both rules apply. *)
Theorem getUserType_classifies (cfg : Settings) (username : string) :
  (occurs_in (STUPATTERN cfg) username -> getUserType cfg username = STU) /\
  (~ occurs_in (STUPATTERN cfg) username ->
   strip_last4 username (GSTPATTERN cfg) ->
   getUserType cfg username = GST) /\
  (~ occurs_in (STUPATTERN cfg) username ->
   ~ strip_last4 username (GSTPATTERN cfg) ->
   getUserType cfg username = EMP).
Proof.
  unfold getUserType.
  destruct (Py.str_in (STUPATTERN cfg) username) eqn:Hstu.
  - apply PyFacts.str_in_iff in Hstu.
    repeat split; intros; try reflexivity; contradiction.
  - assert (Hn : ~ occurs_in (STUPATTERN cfg) username).
    { intros H. apply PyFacts.str_in_iff in H. congruence. }
    destruct (String.eqb_spec (GSTPATTERN cfg) (Py.slice username 0 (-4)))
      as [Heq|Hne].
    + apply PyFacts.strip_last4_iff in Heq.
      repeat split; intros; try reflexivity; contradiction.
    + repeat split; intros; try reflexivity; try contradiction.
      exfalso. apply Hne. now apply PyFacts.strip_last4_iff.
Qed.

(* ================================================================== *)
(** ** Validation of the parameters *)

Lemma first_missing_found (items : list (string * string)) (field : string) :
  In (field, "") items ->
  exists _item, first_missing items = Some _item /\ In (_item, "") items.
Proof.
  induction items as [|[k v] items IH]; intros Hin; [contradiction|].
  simpl. destruct (String.eqb_spec v "") as [->|Hv].
  - exists k. split; [reflexivity | now left].
  - destruct Hin as [Heq|Hin]; [inversion Heq; subst; congruence|].
    destruct (IH Hin) as (i & Hi & Hini). exists i. split; [exact Hi|now right].
Qed.

Lemma first_missing_none (items : list (string * string)) :
  (forall field, ~ In (field, "") items) -> first_missing items = None.
Proof.
  induction items as [|[k v] items IH]; intros H; [reflexivity|].
  simpl. destruct (String.eqb_spec v "") as [->|Hv].
  - exfalso. apply (H k). now left.
  - apply IH. intros f Hf. apply (H f). now right.
Qed.

Lemma first_missing_dict_order (rt : Runtime) (items : list (string * string))
      (field : string) :
  In (field, "") items ->
  exists _item,
    first_missing (dict_order rt items) = Some _item /\ In (_item, "") items.
Proof.
  intros Hin.
  assert (Hin' : In (field, "") (dict_order rt items)).
  { eapply Permutation_in; [apply Permutation_sym, dict_order_perm|exact Hin]. }
  destruct (first_missing_found _ _ Hin') as (i & Hi & Hini).
  exists i. split; [exact Hi|].
  eapply Permutation_in; [apply dict_order_perm|exact Hini].
Qed.

Lemma first_missing_dict_order_none (rt : Runtime)
      (items : list (string * string)) :
  (forall field, ~ In (field, "") items) ->
  first_missing (dict_order rt items) = None.
Proof.
  intros H. apply first_missing_none. intros f Hf. apply (H f).
  eapply Permutation_in; [apply dict_order_perm|exact Hf].
Qed.

(** C6.  A Create in which some parameter is the empty string returns the
    error message that names a parameter whose value is empty (the first
    one in the iteration order of [locals()]), and leaves the trace as it
    was: no connection, search or mutation is attempted. *)
Theorem create_missing_value
    (cfg : Settings) (rt : Runtime) (w : World) (tr : Trace)
    (username loginDisabled uidNumber gidNumber givenName fullName sn
     employeeType dNumber x500UniqueIdentifier ou businessCategory
     userPassword description field : string) :
  In (field, "")
     (create_params username loginDisabled uidNumber gidNumber givenName
        fullName sn employeeType dNumber x500UniqueIdentifier ou
        businessCategory userPassword description) ->
  exists _item,
    In (_item, "")
       (create_params username loginDisabled uidNumber gidNumber givenName
          fullName sn employeeType dNumber x500UniqueIdentifier ou
          businessCategory userPassword description) /\
    run (create cfg rt w username loginDisabled uidNumber gidNumber givenName
           fullName sn employeeType dNumber x500UniqueIdentifier ou
           businessCategory userPassword description) tr
    = (Ret ("ERROR: Missing an expected input value for " ++ _item
            ++ " in input file"), tr) /\
    is_error (missing_value _item) = true.
Proof.
  intros Hin.
  destruct (first_missing_dict_order rt _ _ Hin) as (i & Hi & Hini).
  exists i. split; [exact Hini|]. split.
  - unfold run, create. rewrite Hi. reflexivity.
  - reflexivity.
Qed.

Lemma create_missing_value_witness :
  In ("sn", "")
     (create_params "testuserj" "False" "15549" "15549" "John"
        "John The Testuser" "" "ADM" "D01234567" "44EFB5C72" "" "staff"
        "initial password" "note") /\
  exists _item,
    In (_item, "")
       (create_params "testuserj" "False" "15549" "15549" "John"
          "John The Testuser" "" "ADM" "D01234567" "44EFB5C72" "" "staff"
          "initial password" "note") /\
    run (create example_settings reverse_order_runtime
           (stub_world [] nothing_refused true true true)
           "testuserj" "False" "15549" "15549" "John"
           "John The Testuser" "" "ADM" "D01234567" "44EFB5C72" "" "staff"
           "initial password" "note") []
    = (Ret ("ERROR: Missing an expected input value for " ++ _item
            ++ " in input file"), []) /\
    is_error (missing_value _item) = true.
Proof.
  assert (H : In ("sn", "")
     (create_params "testuserj" "False" "15549" "15549" "John"
        "John The Testuser" "" "ADM" "D01234567" "44EFB5C72" "" "staff"
        "initial password" "note")).
  { simpl. do 6 right. left. reflexivity. }
  split; [exact H|].
  exact (create_missing_value example_settings reverse_order_runtime
           (stub_world [] nothing_refused true true true) [] _ _ _ _ _ _ _ _
           _ _ _ _ _ _ _ H).
Defined.

(* ================================================================== *)
(** ** Binding and the existence check *)

Section Preconditions.
Variable cfg : Settings.
Variable w : World.

Lemma ldapConnect_true (tr tr1 : Trace) :
  run (ldapConnect cfg w) tr = (Ret true, tr1) ->
  tr1 = (tr ++ bind_calls cfg)%list.
Proof.
  unfold run, ldapConnect, try_except, bind, ldap_call, bind_calls, ret.
  destruct (ldap_ok w tr _); simpl; [|intros H; discriminate H].
  destruct (ldap_ok w _ SetOptionProtocol3); simpl;
    [|intros H; discriminate H].
  destruct (ldap_ok w _ (SimpleBindS _ _)); simpl;
    [|intros H; discriminate H].
  intros H. inversion H. now rewrite <- !app_assoc.
Qed.

(** [findUser] issues exactly one call, whatever comes of it. *)
Lemma findUser_trace (username : string) (tr tr' : Trace) (r : Outcome bool) :
  run (findUser cfg w username) tr = (r, tr') ->
  tr' = (tr ++ [existence_search cfg username])%list.
Proof.
  unfold run, findUser, try_except, bind, search_s, existence_search, ret.
  destruct (ldap_search w tr _ _ _ _) as [res|]; simpl.
  - destruct (Nat.eqb _ 0); intros H; now inversion H.
  - intros H; now inversion H.
Qed.

Lemma findUser_found (username : string) (tr : Trace)
      (entry : Entry) (others : list Entry) :
  ldap_search w tr (baseDN cfg) SCOPE_SUBTREE ("cn=" ++ username) ["dn"]
  = Some (entry :: others) ->
  run (findUser cfg w username) tr
  = (Ret true, (tr ++ [existence_search cfg username])%list).
Proof.
  intros H. unfold run, findUser, try_except, bind, search_s.
  rewrite H. reflexivity.
Qed.

Lemma findUser_absent (username : string) (tr : Trace) :
  ldap_search w tr (baseDN cfg) SCOPE_SUBTREE ("cn=" ++ username) ["dn"]
  = Some [] ->
  run (findUser cfg w username) tr
  = (Ret false, (tr ++ [existence_search cfg username])%list).
Proof.
  intros H. unfold run, findUser, try_except, bind, search_s.
  rewrite H. reflexivity.
Qed.

(** A search that raises leaves [ldap_result] unbound. *)
Lemma findUser_search_fails (username : string) (tr : Trace) :
  ldap_search w tr (baseDN cfg) SCOPE_SUBTREE ("cn=" ++ username) ["dn"]
  = None ->
  run (findUser cfg w username) tr
  = (Raise UnboundLocalError, (tr ++ [existence_search cfg username])%list).
Proof.
  intros H. unfold run, findUser, try_except, bind, search_s.
  rewrite H. reflexivity.
Qed.

End Preconditions.

Lemma UserType_eqb_neq (a b : UserType) : a <> b -> UserType_eqb a b = false.
Proof. destruct a, b; simpl; congruence. Qed.

(* ================================================================== *)
(** ** Renaming across categories *)

(** C5, as the script has it.  An Update whose parameters are all
    non-empty and whose old and new user names differ and belong to
    different categories is rejected with the category error only after
    the connection is bound and the existence search has found the user:
    the calls issued are the bind and that one search, and no call that
    changes the directory. *)
Theorem update_across_categories
    (cfg : Settings) (rt : Runtime) (w : World) (tr tr1 tr2 : Trace)
    (username newusername loginDisabled uidNumber gidNumber givenName
     fullName sn employeeType dNumber x500UniqueIdentifier ou
     businessCategory description : string) :
  (forall field,
     ~ In (field, "")
          (update_params username newusername loginDisabled uidNumber
             gidNumber givenName fullName sn employeeType dNumber
             x500UniqueIdentifier ou businessCategory description)) ->
  username <> newusername ->
  getUserType cfg username <> getUserType cfg newusername ->
  run (ldapConnect cfg w) tr = (Ret true, tr1) ->
  run (findUser cfg w username) tr1 = (Ret true, tr2) ->
  run (update cfg rt w username newusername loginDisabled uidNumber
         gidNumber givenName fullName sn employeeType dNumber
         x500UniqueIdentifier ou businessCategory description) tr
  = (Ret "ERROR: can't rename users across different OUs", tr2) /\
  tr2 = (tr ++ bind_calls cfg ++ [existence_search cfg username])%list /\
  existsb is_mutation (bind_calls cfg ++ [existence_search cfg username])
  = false.
Proof.
  intros Hfields Hname Htype Hconn Hfind.
  split; [|split].
  - unfold run, update in *.
    rewrite (first_missing_dict_order_none rt _ Hfields).
    unfold bind at 1. rewrite Hconn. cbn [negb].
    unfold bind at 1. rewrite Hfind. cbn [negb].
    unfold update_existing, bind at 1, update_rename.
    destruct (String.eqb_spec username newusername) as [Heq|_];
      [contradiction|].
    cbn [negb].
    rewrite (UserType_eqb_neq _ _ Htype). reflexivity.
  - apply ldapConnect_true in Hconn. apply findUser_trace in Hfind.
    subst. now rewrite <- app_assoc.
  - reflexivity.
Qed.

Lemma update_across_categories_witness :
  (forall field,
     ~ In (field, "")
          (update_params "jdoe" "doe_j" "False" "15549" "15549" "John"
             "John Doe" "Doe" "ADM" "D01234567" "44EFB5C72" "History"
             role_faculty "renamed")) /\
  "jdoe" <> "doe_j" /\
  getUserType example_settings "jdoe" <> getUserType example_settings "doe_j" /\
  run (ldapConnect example_settings jdoe_directory) []
  = (Ret true, bind_calls example_settings) /\
  run (findUser example_settings jdoe_directory "jdoe")
      (bind_calls example_settings)
  = (Ret true,
     (bind_calls example_settings
      ++ [existence_search example_settings "jdoe"])%list) /\
  run (update example_settings insertion_order_runtime jdoe_directory
         "jdoe" "doe_j" "False" "15549" "15549" "John" "John Doe" "Doe"
         "ADM" "D01234567" "44EFB5C72" "History" role_faculty "renamed") []
  = (Ret "ERROR: can't rename users across different OUs",
     (bind_calls example_settings
      ++ [existence_search example_settings "jdoe"])%list).
Proof.
  assert (Hfields : forall field,
     ~ In (field, "")
          (update_params "jdoe" "doe_j" "False" "15549" "15549" "John"
             "John Doe" "Doe" "ADM" "D01234567" "44EFB5C72" "History"
             role_faculty "renamed")).
  { intros field H. simpl in H.
    repeat (destruct H as [H|H]; [discriminate H|]). exact H. }
  assert (Hname : "jdoe" <> "doe_j") by discriminate.
  assert (Htype : getUserType example_settings "jdoe"
                  <> getUserType example_settings "doe_j")
    by (vm_compute; discriminate).
  assert (Hconn : run (ldapConnect example_settings jdoe_directory) []
                  = (Ret true, bind_calls example_settings))
    by reflexivity.
  assert (Hfind : run (findUser example_settings jdoe_directory "jdoe")
                      (bind_calls example_settings)
                  = (Ret true,
                     (bind_calls example_settings
                      ++ [existence_search example_settings "jdoe"])%list))
    by reflexivity.
  repeat (split; [assumption|]).
  exact (proj1 (update_across_categories example_settings
                  insertion_order_runtime jdoe_directory [] _ _
                  "jdoe" "doe_j" "False" "15549" "15549" "John" "John Doe"
                  "Doe" "ADM" "D01234567" "44EFB5C72" "History" role_faculty
                  "renamed" Hfields Hname Htype Hconn Hfind)).
Defined.

(** C5 as the specification words it does not hold: the Update of the
    employee [jdoe] to the student name [doe_j] is rejected only after
    the connection has been bound and the directory searched, so the
    trace of the action is not empty; and when [jdoe] does not exist the
    same request is answered with the not-found error instead. *)
Lemma update_across_categories_contacts_directory :
  "jdoe" <> "doe_j" /\
  getUserType example_settings "jdoe" <> getUserType example_settings "doe_j" /\
  run (update example_settings insertion_order_runtime jdoe_directory
         "jdoe" "doe_j" "False" "15549" "15549" "John" "John Doe" "Doe"
         "ADM" "D01234567" "44EFB5C72" "History" role_faculty "renamed") []
  <> (Ret "ERROR: can't rename users across different OUs", []) /\
  run (update example_settings insertion_order_runtime jdoe_directory
         "jdoe" "doe_j" "False" "15549" "15549" "John" "John Doe" "Doe"
         "ADM" "D01234567" "44EFB5C72" "History" role_faculty "renamed") []
  = (Ret "ERROR: can't rename users across different OUs",
     [ Initialize "ldaps://server.domain.edu:636/"; SetOptionProtocol3;
       SimpleBindS "cn=admin,o=DA" "nice try";
       SearchS "o=DA" SCOPE_SUBTREE "cn=jdoe" ["dn"] ]) /\
  run (update example_settings insertion_order_runtime empty_directory
         "jdoe" "doe_j" "False" "15549" "15549" "John" "John Doe" "Doe"
         "ADM" "D01234567" "44EFB5C72" "History" role_faculty "renamed") []
  = (Ret "ERROR: user could not be found!",
     [ Initialize "ldaps://server.domain.edu:636/"; SetOptionProtocol3;
       SimpleBindS "cn=admin,o=DA" "nice try";
       SearchS "o=DA" SCOPE_SUBTREE "cn=jdoe" ["dn"] ]).
Proof.
  split; [discriminate|].
  split; [vm_compute; discriminate|].
  split; [vm_compute; discriminate|].
  split; vm_compute; reflexivity.
Qed.

(* ================================================================== *)
(** ** The existence check looks at the whole tree *)

Lemma params_username_nonempty (username : string)
      (params : list (string * string)) :
  In ("username", username) params ->
  (forall field, ~ In (field, "") params) ->
  String.eqb username "" = false.
Proof.
  intros Hin Hfields. destruct (String.eqb_spec username "") as [->|];
    [exfalso; exact (Hfields _ Hin) | reflexivity].
Qed.

(** C9.  The existence check is one subtree search from the base DN of
    the directory for [cn=<username>], asking for no object class and no
    container.  Whatever the first entry found is (any DN, any
    attributes), the user counts as existing: Create answers that the
    user name is taken, and Update, Archive and Delete go on to what they
    do for an existing user. *)
Theorem existence_check_is_tree_wide
    (cfg : Settings) (rt : Runtime) (w : World) (tr tr1 : Trace)
    (entry : Entry) (others : list Entry)
    (username newusername loginDisabled uidNumber gidNumber givenName
     fullName sn employeeType dNumber x500UniqueIdentifier ou
     businessCategory userPassword description : string) :
  (forall field,
     ~ In (field, "")
          (create_params username loginDisabled uidNumber gidNumber
             givenName fullName sn employeeType dNumber
             x500UniqueIdentifier ou businessCategory userPassword
             description)) ->
  (forall field,
     ~ In (field, "")
          (update_params username newusername loginDisabled uidNumber
             gidNumber givenName fullName sn employeeType dNumber
             x500UniqueIdentifier ou businessCategory description)) ->
  run (ldapConnect cfg w) tr = (Ret true, tr1) ->
  ldap_search w tr1 (baseDN cfg) SCOPE_SUBTREE ("cn=" ++ username) ["dn"]
  = Some (entry :: others) ->
  let tr2 :=
    (tr1 ++ [SearchS (baseDN cfg) SCOPE_SUBTREE ("cn=" ++ username) ["dn"]])%list
  in
  run (findUser cfg w username) tr1 = (Ret true, tr2) /\
  run (create cfg rt w username loginDisabled uidNumber gidNumber givenName
         fullName sn employeeType dNumber x500UniqueIdentifier ou
         businessCategory userPassword description) tr
  = (Ret "ERROR: username already taken!", tr2) /\
  run (update cfg rt w username newusername loginDisabled uidNumber
         gidNumber givenName fullName sn employeeType dNumber
         x500UniqueIdentifier ou businessCategory description) tr
  = run (update_existing cfg w username newusername loginDisabled uidNumber
           gidNumber givenName fullName sn employeeType dNumber
           x500UniqueIdentifier ou businessCategory description) tr2 /\
  run (archive cfg w username) tr = run (archive_existing cfg w username) tr2 /\
  run (delete cfg w username) tr = run (delete_existing cfg w username) tr2.
Proof.
  intros Hc Hu Hconn Hsearch tr2.
  pose proof (findUser_found cfg w username tr1 entry others Hsearch) as Hfind.
  fold (existence_search cfg username) in tr2. fold tr2 in Hfind.
  assert (Hname : String.eqb username "" = false).
  { eapply params_username_nonempty; [|exact Hc]. now left. }
  unfold run in *.
  split; [exact Hfind|]. split; [|split; [|split]].
  - unfold create. rewrite (first_missing_dict_order_none rt _ Hc).
    unfold bind at 1. rewrite Hconn. cbn [negb].
    unfold bind at 1. rewrite Hfind. reflexivity.
  - unfold update. rewrite (first_missing_dict_order_none rt _ Hu).
    unfold bind at 1. rewrite Hconn. cbn [negb].
    unfold bind at 1. rewrite Hfind. reflexivity.
  - unfold archive. rewrite Hname.
    unfold bind at 1. rewrite Hconn. cbn [negb].
    unfold bind at 1. rewrite Hfind. reflexivity.
  - unfold delete. rewrite Hname.
    unfold bind at 1. rewrite Hconn. cbn [negb].
    unfold bind at 1. rewrite Hfind. reflexivity.
Qed.

Lemma existence_check_is_tree_wide_witness :
  (forall field,
     ~ In (field, "")
          (create_params "testuserj" "False" "15549" "15549" "John"
             "John The Testuser" "Testuser" "ADM" "D01234567" "44EFB5C72"
             "History" role_staff "initial password" "note")) /\
  (forall field,
     ~ In (field, "")
          (update_params "testuserj" "testuserj" "False" "15549" "15549"
             "John" "John The Testuser" "Testuser" "ADM" "D01234567"
             "44EFB5C72" "History" role_staff "note")) /\
  run (ldapConnect example_settings printer_directory) []
  = (Ret true, bind_calls example_settings) /\
  ldap_search printer_directory (bind_calls example_settings)
    "o=DA" SCOPE_SUBTREE "cn=testuserj" ["dn"]
  = Some [("cn=testuserj,ou=Printers,ou=Resources,o=DA", [])] /\
  run (findUser example_settings printer_directory "testuserj")
      (bind_calls example_settings)
  = (Ret true,
     (bind_calls example_settings
      ++ [SearchS "o=DA" SCOPE_SUBTREE "cn=testuserj" ["dn"]])%list) /\
  run (create example_settings insertion_order_runtime printer_directory
         "testuserj" "False" "15549" "15549" "John" "John The Testuser"
         "Testuser" "ADM" "D01234567" "44EFB5C72" "History" role_staff
         "initial password" "note") []
  = (Ret "ERROR: username already taken!",
     (bind_calls example_settings
      ++ [SearchS "o=DA" SCOPE_SUBTREE "cn=testuserj" ["dn"]])%list).
Proof.
  assert (Hc : forall field,
     ~ In (field, "")
          (create_params "testuserj" "False" "15549" "15549" "John"
             "John The Testuser" "Testuser" "ADM" "D01234567" "44EFB5C72"
             "History" role_staff "initial password" "note")).
  { intros field H. simpl in H.
    repeat (destruct H as [H|H]; [discriminate H|]). exact H. }
  assert (Hu : forall field,
     ~ In (field, "")
          (update_params "testuserj" "testuserj" "False" "15549" "15549"
             "John" "John The Testuser" "Testuser" "ADM" "D01234567"
             "44EFB5C72" "History" role_staff "note")).
  { intros field H. simpl in H.
    repeat (destruct H as [H|H]; [discriminate H|]). exact H. }
  assert (Hconn : run (ldapConnect example_settings printer_directory) []
                  = (Ret true, bind_calls example_settings))
    by reflexivity.
  assert (Hsearch :
            ldap_search printer_directory (bind_calls example_settings)
              (baseDN example_settings) SCOPE_SUBTREE ("cn=" ++ "testuserj")
              ["dn"]
            = Some [("cn=testuserj,ou=Printers,ou=Resources,o=DA", [])])
    by reflexivity.
  pose proof (existence_check_is_tree_wide example_settings
                insertion_order_runtime printer_directory [] _ _ _
                "testuserj" "testuserj" "False" "15549" "15549" "John"
                "John The Testuser" "Testuser" "ADM" "D01234567" "44EFB5C72"
                "History" role_staff "initial password" "note"
                Hc Hu Hconn Hsearch) as (Hfind & Hcreate & _).
  repeat (split; [assumption|]).
  exact Hcreate.
Defined.

(* ================================================================== *)
(** ** The disabled flag *)

Section Disabled.
Variable cfg : Settings.
Variable w : World.

Lemma userDisabled_first_value
      (username : string) (tr : Trace) (dn : string)
      (attrs : list (string * list string)) (others : list Entry)
      (v : string) (vs : list string) :
  ldap_search w tr (baseDN cfg) SCOPE_SUBTREE ("cn=" ++ username)
    ["loginDisabled"] = Some ((dn, attrs) :: others) ->
  Py.dict_get attrs "loginDisabled" = Some (v :: vs) ->
  run (userDisabled cfg w username) tr
  = (Ret (String.eqb v "TRUE"),
     (tr ++ [SearchS (baseDN cfg) SCOPE_SUBTREE ("cn=" ++ username)
                     ["loginDisabled"]])%list).
Proof.
  intros Hsearch Hattr.
  unfold run, userDisabled, try_except, bind, search_s.
  rewrite Hsearch. cbn [ret index0 snd]. unfold getitem. rewrite Hattr.
  cbn [ret index0]. now destruct (String.eqb v "TRUE").
Qed.

End Disabled.

(** C10.  For Archive and Delete the user counts as disabled exactly when
    the first value of [loginDisabled] in the first entry found is the
    string [TRUE]: with that value both actions go on to their mutation,
    with any other value (another spelling included) both return
    the error [user is not disabled]. *)
Theorem disabled_iff_first_value_TRUE
    (cfg : Settings) (w : World) (tr tr1 tr2 : Trace) (username dn : string)
    (attrs : list (string * list string)) (others : list Entry)
    (v : string) (vs : list string) :
  username <> "" ->
  run (ldapConnect cfg w) tr = (Ret true, tr1) ->
  run (findUser cfg w username) tr1 = (Ret true, tr2) ->
  ldap_search w tr2 (baseDN cfg) SCOPE_SUBTREE ("cn=" ++ username)
    ["loginDisabled"] = Some ((dn, attrs) :: others) ->
  Py.dict_get attrs "loginDisabled" = Some (v :: vs) ->
  let tr3 :=
    (tr2 ++ [SearchS (baseDN cfg) SCOPE_SUBTREE ("cn=" ++ username)
                     ["loginDisabled"]])%list in
  (exists disabled,
     run (userDisabled cfg w username) tr2 = (Ret disabled, tr3) /\
     (disabled = true <-> v = "TRUE")) /\
  run (archive cfg w username) tr
  = (if String.eqb v "TRUE" then run (archive_move cfg w username) tr3
     else (Ret "ERROR: user is not disabled!", tr3)) /\
  run (delete cfg w username) tr
  = (if String.eqb v "TRUE" then run (delete_remove cfg w username) tr3
     else (Ret "ERROR: user is not disabled!", tr3)).
Proof.
  intros Hname Hconn Hfind Hsearch Hattr tr3.
  pose proof (userDisabled_first_value cfg w username tr2 dn attrs others
                v vs Hsearch Hattr) as Hdis.
  fold tr3 in Hdis.
  assert (Hne : String.eqb username "" = false)
    by (now apply String.eqb_neq).
  unfold run in *.
  split; [|split].
  - exists (String.eqb v "TRUE"). split; [exact Hdis|].
    apply String.eqb_eq.
  - unfold archive. rewrite Hne.
    unfold bind at 1. rewrite Hconn. cbn [negb].
    unfold bind at 1. rewrite Hfind. cbn [negb].
    unfold archive_existing, bind at 1. rewrite Hdis.
    now destruct (String.eqb v "TRUE").
  - unfold delete. rewrite Hne.
    unfold bind at 1. rewrite Hconn. cbn [negb].
    unfold bind at 1. rewrite Hfind. cbn [negb].
    unfold delete_existing, bind at 1. rewrite Hdis.
    now destruct (String.eqb v "TRUE").
Qed.

Lemma disabled_iff_first_value_TRUE_witness :
  "jdoe" <> "" /\
  run (ldapConnect example_settings enabled_directory) []
  = (Ret true, bind_calls example_settings) /\
  run (findUser example_settings enabled_directory "jdoe")
      (bind_calls example_settings)
  = (Ret true,
     (bind_calls example_settings
      ++ [existence_search example_settings "jdoe"])%list) /\
  ldap_search enabled_directory
    (bind_calls example_settings
     ++ [existence_search example_settings "jdoe"])%list
    "o=DA" SCOPE_SUBTREE "cn=jdoe" ["loginDisabled"]
  = Some [("cn=jdoe,ou=Employees,o=DA", [("loginDisabled", ["true"])])] /\
  Py.dict_get [("loginDisabled", ["true"])] "loginDisabled" = Some ["true"] /\
  run (archive example_settings enabled_directory "jdoe") []
  = (Ret "ERROR: user is not disabled!",
     (bind_calls example_settings
      ++ [existence_search example_settings "jdoe";
          SearchS "o=DA" SCOPE_SUBTREE "cn=jdoe" ["loginDisabled"]])%list) /\
  run (delete example_settings enabled_directory "jdoe") []
  = (Ret "ERROR: user is not disabled!",
     (bind_calls example_settings
      ++ [existence_search example_settings "jdoe";
          SearchS "o=DA" SCOPE_SUBTREE "cn=jdoe" ["loginDisabled"]])%list).
Proof.
  assert (Hname : "jdoe" <> "") by discriminate.
  assert (Hconn : run (ldapConnect example_settings enabled_directory) []
                  = (Ret true, bind_calls example_settings))
    by reflexivity.
  assert (Hfind : run (findUser example_settings enabled_directory "jdoe")
                      (bind_calls example_settings)
                  = (Ret true,
                     (bind_calls example_settings
                      ++ [existence_search example_settings "jdoe"])%list))
    by reflexivity.
  assert (Hsearch :
    ldap_search enabled_directory
      (bind_calls example_settings
       ++ [existence_search example_settings "jdoe"])%list
      (baseDN example_settings) SCOPE_SUBTREE ("cn=" ++ "jdoe")
      ["loginDisabled"]
    = Some [("cn=jdoe,ou=Employees,o=DA", [("loginDisabled", ["true"])])]).
  { vm_compute. reflexivity. }
  assert (Hattr : Py.dict_get [("loginDisabled", ["true"])] "loginDisabled"
                  = Some ["true"]) by reflexivity.
  pose proof (disabled_iff_first_value_TRUE example_settings
                enabled_directory [] _ _ "jdoe" _ _ _ _ _
                Hname Hconn Hfind Hsearch Hattr) as (_ & Harchive & Hdelete).
  repeat (split; [assumption|]).
  exact Hdelete.
Defined.

(* ================================================================== *)
(** ** Replacing the role marker *)

Lemma attribute_changes_app (dn attr : string) (a b : Trace) :
  attribute_changes dn attr (a ++ b)%list
  = (attribute_changes dn attr a ++ attribute_changes dn attr b)%list.
Proof.
  induction a as [|e a IH]; [reflexivity|].
  destruct e; simpl; try exact IH. now rewrite IH, app_assoc.
Qed.

Lemma attribute_changes_deletions (dn : string) (values : list string) :
  attribute_changes dn "businessCategory"
    (List.map (delete_role_value dn) values)
  = List.map (fun v => (MOD_DELETE, v)) values.
Proof.
  induction values as [|v values IH]; [reflexivity|].
  cbn [List.map delete_role_value attribute_changes].
  rewrite String.eqb_refl, IH. reflexivity.
Qed.

Section RoleMarker.
Variable cfg : Settings.
Variable w : World.

(** The loop of lines 517-520 when no deletion is refused. *)
Lemma delete_markers_run (dn : string) (values : list string) (tr : Trace) :
  (forall h mods, ldap_ok w h (ModifyS dn mods) = true) ->
  run (for_each values (fun value =>
         if Py.str_in (ARUBAPATTERN cfg) value
         then ldap_call w (ModifyS dn [(MOD_DELETE, "businessCategory", value)])
         else ret tt)) tr
  = (Ret tt,
     (tr ++ List.map (delete_role_value dn)
              (List.filter (Py.str_in (ARUBAPATTERN cfg)) values))%list).
Proof.
  intros Hok. revert tr.
  induction values as [|v values IH]; intros tr.
  - unfold run. simpl. unfold ret. now rewrite app_nil_r.
  - unfold run in *. cbn [for_each List.filter]. unfold bind at 1.
    destruct (Py.str_in (ARUBAPATTERN cfg) v).
    + unfold ldap_call at 1. rewrite Hok. rewrite IH.
      cbn [List.map]. unfold delete_role_value at 2.
      now rewrite <- app_assoc.
    + unfold ret at 1. apply IH.
Qed.

End RoleMarker.

(** C7.  An Update that reaches the attribute stage (parameters present,
    connection bound, user found, rename done or not needed) reads the
    role attribute of the first entry found for the new name.  When the
    directory accepts the modifications of that entry, the action issues,
    in this order: one deletion for each value in which the marker
    pattern occurs, then one modification that replaces the profile
    attributes and adds the new role value.  So the only changes made to
    the role attribute are the deletions of the marker values followed by
    the addition of the new value; no other value is deleted and the
    attribute is never replaced as a whole. *)
Theorem update_replaces_role_marker
    (cfg : Settings) (rt : Runtime) (w : World) (tr tr1 tr2 tr3 : Trace)
    (found_dn : string) (attrs : list (string * list string))
    (others : list Entry) (values : list string)
    (username newusername loginDisabled uidNumber gidNumber givenName
     fullName sn employeeType dNumber x500UniqueIdentifier ou
     businessCategory description : string) :
  (forall field,
     ~ In (field, "")
          (update_params username newusername loginDisabled uidNumber
             gidNumber givenName fullName sn employeeType dNumber
             x500UniqueIdentifier ou businessCategory description)) ->
  run (ldapConnect cfg w) tr = (Ret true, tr1) ->
  run (findUser cfg w username) tr1 = (Ret true, tr2) ->
  run (update_rename cfg w username newusername) tr2
  = (Ret (Continue tt), tr3) ->
  ldap_search w tr3 (baseDN cfg) SCOPE_SUBTREE ("cn=" ++ newusername)
    ["businessCategory"] = Some ((found_dn, attrs) :: others) ->
  Py.dict_get attrs "businessCategory" = Some values ->
  (forall h mods, ldap_ok w h (ModifyS (buildDN cfg newusername) mods) = true) ->
  (forall h, ldap_ok w h UnbindS = true) ->
  let dn := buildDN cfg newusername in
  let markers := List.filter (Py.str_in (ARUBAPATTERN cfg)) values in
  let issued :=
    ([SearchS (baseDN cfg) SCOPE_SUBTREE ("cn=" ++ newusername)
              ["businessCategory"]]
     ++ List.map (delete_role_value dn) markers
     ++ [ModifyS dn
           (update_mod_attrs cfg newusername loginDisabled uidNumber gidNumber
              givenName fullName sn employeeType dNumber x500UniqueIdentifier
              ou businessCategory description);
         UnbindS])%list in
  run (update cfg rt w username newusername loginDisabled uidNumber
         gidNumber givenName fullName sn employeeType dNumber
         x500UniqueIdentifier ou businessCategory description) tr
  = (Ret "SUCCESS: User updated in eDir", (tr3 ++ issued)%list) /\
  attribute_changes dn "businessCategory" issued
  = (List.map (fun v => (MOD_DELETE, v)) markers
     ++ [(MOD_ADD, businessCategory)])%list /\
  (forall v, In v values -> Py.str_in (ARUBAPATTERN cfg) v = false ->
             ~ In (MOD_DELETE, v)
                  (attribute_changes dn "businessCategory" issued)) /\
  (forall v, ~ In (MOD_REPLACE, v)
                  (attribute_changes dn "businessCategory" issued)).
Proof.
  intros Hfields Hconn Hfind Hren Hsearch Hattr Hmod Hunbind dn markers issued.
  assert (Hchanges :
    attribute_changes dn "businessCategory" issued
    = (List.map (fun v => (MOD_DELETE, v)) markers
       ++ [(MOD_ADD, businessCategory)])%list).
  { unfold issued. rewrite !attribute_changes_app.
    rewrite attribute_changes_deletions.
    cbn [attribute_changes app]. rewrite String.eqb_refl.
    reflexivity. }
  split; [|split; [exact Hchanges|split]].
  - unfold run in *. unfold update.
    rewrite (first_missing_dict_order_none rt _ Hfields).
    unfold bind at 1. rewrite Hconn. cbn [negb].
    unfold bind at 1. rewrite Hfind. cbn [negb].
    unfold update_existing, bind at 1. rewrite Hren.
    unfold update_attributes, bind at 1, try_except, bind at 1.
    unfold update_entry, bind at 1, search_s at 1. rewrite Hsearch.
    unfold bind at 1. cbn [index0 ret snd].
    unfold bind at 1, getitem. rewrite Hattr. cbn [ret].
    unfold bind at 1.
    pose proof (delete_markers_run cfg w dn values
                  (tr3 ++ [SearchS (baseDN cfg) SCOPE_SUBTREE
                             ("cn=" ++ newusername) ["businessCategory"]])%list
                  Hmod) as Hloop.
    unfold run in Hloop. fold dn. rewrite Hloop.
    unfold bind at 1, ldap_call at 1. rewrite Hmod.
    unfold ldap_call. rewrite Hunbind. unfold ret.
    f_equal. unfold issued. fold markers.
    now rewrite <- !app_assoc.
  - intros v Hin Hno Hdel. rewrite Hchanges in Hdel.
    apply in_app_or in Hdel. destruct Hdel as [Hdel|[Hdel|[]]];
      [|discriminate Hdel].
    apply in_map_iff in Hdel. destruct Hdel as (v' & Heq & Hv').
    inversion Heq; subst v'. unfold markers in Hv'.
    apply filter_In in Hv'. destruct Hv' as [_ Hyes]. congruence.
  - intros v Hrep. rewrite Hchanges in Hrep.
    apply in_app_or in Hrep. destruct Hrep as [Hrep|[Hrep|[]]];
      [|discriminate Hrep].
    apply in_map_iff in Hrep. destruct Hrep as (v' & Heq & _).
    discriminate Heq.
Qed.

Lemma update_replaces_role_marker_witness :
  (forall field,
     ~ In (field, "")
          (update_params "jdoe" "jdoe" "False" "15549" "15549" "John"
             "John Doe" "Doe" "ADM" "D01234567" "44EFB5C72" "History"
             role_faculty "promoted")) /\
  run (ldapConnect example_settings jdoe_directory) []
  = (Ret true, bind_calls example_settings) /\
  run (findUser example_settings jdoe_directory "jdoe")
      (bind_calls example_settings)
  = (Ret true,
     (bind_calls example_settings
      ++ [existence_search example_settings "jdoe"])%list) /\
  run (update_rename example_settings jdoe_directory "jdoe" "jdoe")
      (bind_calls example_settings
       ++ [existence_search example_settings "jdoe"])%list
  = (Ret (Continue tt),
     (bind_calls example_settings
      ++ [existence_search example_settings "jdoe"])%list) /\
  ldap_search jdoe_directory
    (bind_calls example_settings
     ++ [existence_search example_settings "jdoe"])%list
    "o=DA" SCOPE_SUBTREE "cn=jdoe" ["businessCategory"]
  = Some [("cn=jdoe,ou=Employees,o=DA",
           [("businessCategory", [role_staff; "unrelated=1"])])] /\
  Py.dict_get [("businessCategory", [role_staff; "unrelated=1"])]
              "businessCategory"
  = Some [role_staff; "unrelated=1"] /\
  (forall h mods,
     ldap_ok jdoe_directory h
             (ModifyS (buildDN example_settings "jdoe") mods) = true) /\
  (forall h, ldap_ok jdoe_directory h UnbindS = true) /\
  run (update example_settings insertion_order_runtime jdoe_directory
         "jdoe" "jdoe" "False" "15549" "15549" "John" "John Doe" "Doe"
         "ADM" "D01234567" "44EFB5C72" "History" role_faculty "promoted") []
  = (Ret "SUCCESS: User updated in eDir",
     (bind_calls example_settings
      ++ [ existence_search example_settings "jdoe";
           SearchS "o=DA" SCOPE_SUBTREE "cn=jdoe" ["businessCategory"];
           ModifyS "cn=jdoe,ou=Employees,o=DA"
                   [(MOD_DELETE, "businessCategory", role_staff)];
           ModifyS "cn=jdoe,ou=Employees,o=DA"
             (update_mod_attrs example_settings "jdoe" "False" "15549" "15549"
                "John" "John Doe" "Doe" "ADM" "D01234567" "44EFB5C72"
                "History" role_faculty "promoted");
           UnbindS ])%list) /\
  attribute_changes "cn=jdoe,ou=Employees,o=DA" "businessCategory"
    [ SearchS "o=DA" SCOPE_SUBTREE "cn=jdoe" ["businessCategory"];
      ModifyS "cn=jdoe,ou=Employees,o=DA"
              [(MOD_DELETE, "businessCategory", role_staff)];
      ModifyS "cn=jdoe,ou=Employees,o=DA"
        (update_mod_attrs example_settings "jdoe" "False" "15549" "15549"
           "John" "John Doe" "Doe" "ADM" "D01234567" "44EFB5C72"
           "History" role_faculty "promoted");
      UnbindS ]
  = [(MOD_DELETE, role_staff); (MOD_ADD, role_faculty)].
Proof.
  assert (Hfields : forall field,
     ~ In (field, "")
          (update_params "jdoe" "jdoe" "False" "15549" "15549" "John"
             "John Doe" "Doe" "ADM" "D01234567" "44EFB5C72" "History"
             role_faculty "promoted")).
  { intros field H. simpl in H.
    repeat (destruct H as [H|H]; [discriminate H|]). exact H. }
  assert (Hconn : run (ldapConnect example_settings jdoe_directory) []
                  = (Ret true, bind_calls example_settings))
    by reflexivity.
  assert (Hfind : run (findUser example_settings jdoe_directory "jdoe")
                      (bind_calls example_settings)
                  = (Ret true,
                     (bind_calls example_settings
                      ++ [existence_search example_settings "jdoe"])%list))
    by reflexivity.
  assert (Hren :
    run (update_rename example_settings jdoe_directory "jdoe" "jdoe")
        (bind_calls example_settings
         ++ [existence_search example_settings "jdoe"])%list
    = (Ret (Continue tt),
       (bind_calls example_settings
        ++ [existence_search example_settings "jdoe"])%list))
    by reflexivity.
  assert (Hsearch :
    ldap_search jdoe_directory
      (bind_calls example_settings
       ++ [existence_search example_settings "jdoe"])%list
      (baseDN example_settings) SCOPE_SUBTREE ("cn=" ++ "jdoe")
      ["businessCategory"]
    = Some [("cn=jdoe,ou=Employees,o=DA",
             [("businessCategory", [role_staff; "unrelated=1"])])])
    by (vm_compute; reflexivity).
  assert (Hattr :
    Py.dict_get [("businessCategory", [role_staff; "unrelated=1"])]
                "businessCategory"
    = Some [role_staff; "unrelated=1"]) by reflexivity.
  assert (Hmod : forall h mods,
     ldap_ok jdoe_directory h
             (ModifyS (buildDN example_settings "jdoe") mods) = true)
    by (intros; reflexivity).
  assert (Hunbind : forall h, ldap_ok jdoe_directory h UnbindS = true)
    by (intros; reflexivity).
  pose proof (update_replaces_role_marker example_settings
                insertion_order_runtime jdoe_directory [] _ _ _ _ _ _ _
                "jdoe" "jdoe" "False" "15549" "15549" "John" "John Doe"
                "Doe" "ADM" "D01234567" "44EFB5C72" "History" role_faculty
                "promoted" Hfields Hconn Hfind Hren Hsearch Hattr Hmod
                Hunbind) as (Hrun & Hchanges & _).
  repeat (split; [assumption|]).
  exact Hchanges.
Defined.

(* ================================================================== *)
(** ** Where the handlers let an error through *)

Section Handlers.
Variable cfg : Settings.
Variable rt : Runtime.
Variable w : World.

(** The [ldap.LDAPError] handler of [delete] returns the error at once:
    no mail, no further call. *)
Lemma delete_remove_LDAPError (username : string) (tr tr' : Trace) :
  run (delete_entry cfg w username) tr = (Raise LDAPError, tr') ->
  run (delete_remove cfg w username) tr
  = (Ret "ERROR: Could not delete eDir user", tr').
Proof.
  unfold run, delete_remove, try_except, bind. intros H.
  now rewrite H.
Qed.

(** The [Exception] handler of [delete] does not return: the mail is sent
    and the result is the success string. *)
Lemma delete_remove_other_exception
      (username : string) (tr tr' : Trace) (e : PyExn) :
  e <> LDAPError ->
  run (delete_entry cfg w username) tr = (Raise e, tr') ->
  fst (run (delete_remove cfg w username) tr)
  = Ret "SUCCESS: User deleted from eDir" /\
  exists tr'', snd (run (delete_remove cfg w username) tr)
               = (tr' ++ SmtpConnect (MAILSERVER cfg) :: tr'')%list.
Proof.
  unfold run, delete_remove, try_except, bind. intros He H. rewrite H.
  assert (Hmail : forall subject text,
    exists tr'',
      sendMail cfg w (FROM cfg) (TO cfg) subject text tr'
      = (Ret tt, (tr' ++ SmtpConnect (MAILSERVER cfg) :: tr'')%list)).
  { intros subject text.
    unfold sendMail, try_except, bind, smtp_call, ret.
    destruct (smtp_ok w tr' _); [|eexists; reflexivity].
    destruct (smtp_ok w _ (SmtpSendmail _ _ _ _));
      [|eexists; rewrite <- app_assoc; reflexivity].
    destruct (smtp_ok w _ SmtpQuit);
      eexists; rewrite <- !app_assoc; reflexivity. }
  destruct e; try congruence;
    cbn [ret];
    match goal with
    | |- context [sendMail cfg w _ _ ?s ?t tr'] =>
        destruct (Hmail s t) as [tr'' Htr'']; rewrite Htr''
    end; (split; [reflexivity | exists tr''; reflexivity]).
Qed.

(** The same pair of handlers closes [update]. *)
Lemma update_attributes_LDAPError
      (newusername loginDisabled uidNumber gidNumber givenName fullName sn
       employeeType dNumber x500UniqueIdentifier ou businessCategory
       description : string) (tr tr' : Trace) :
  run (update_entry cfg w newusername loginDisabled uidNumber gidNumber
         givenName fullName sn employeeType dNumber x500UniqueIdentifier ou
         businessCategory description) tr = (Raise LDAPError, tr') ->
  run (update_attributes cfg w newusername loginDisabled uidNumber gidNumber
         givenName fullName sn employeeType dNumber x500UniqueIdentifier ou
         businessCategory description) tr
  = (Ret "ERROR: Could not update eDir user", tr').
Proof.
  unfold run, update_attributes, try_except, bind. intros H.
  now rewrite H.
Qed.

Lemma update_attributes_other_exception
      (newusername loginDisabled uidNumber gidNumber givenName fullName sn
       employeeType dNumber x500UniqueIdentifier ou businessCategory
       description : string) (tr tr' : Trace) (e : PyExn) :
  e <> LDAPError ->
  run (update_entry cfg w newusername loginDisabled uidNumber gidNumber
         givenName fullName sn employeeType dNumber x500UniqueIdentifier ou
         businessCategory description) tr = (Raise e, tr') ->
  run (update_attributes cfg w newusername loginDisabled uidNumber gidNumber
         givenName fullName sn employeeType dNumber x500UniqueIdentifier ou
         businessCategory description) tr
  = (Ret "SUCCESS: User updated in eDir", tr').
Proof.
  unfold run, update_attributes, try_except, bind. intros He H.
  rewrite H. destruct e; try congruence; reflexivity.
Qed.

(** Once the entry and its groups are written, [create] answers with the
    success string whatever the storage servers do. *)
Lemma create_new_ignores_storage
      (username loginDisabled uidNumber gidNumber givenName fullName sn
       employeeType dNumber x500UniqueIdentifier ou businessCategory
       userPassword description : string) (tr tr' : Trace) :
  run (create_entry cfg rt w username loginDisabled uidNumber gidNumber
         givenName fullName sn employeeType dNumber x500UniqueIdentifier ou
         businessCategory userPassword description) tr = (Ret tt, tr') ->
  fst (run (create_new cfg rt w username loginDisabled uidNumber gidNumber
              givenName fullName sn employeeType dNumber
              x500UniqueIdentifier ou businessCategory userPassword
              description) tr)
  = Ret "SUCCESS: User added to eDir".
Proof.
  unfold run, create_new, try_except, bind. intros H. rewrite H.
  cbn [ret].
  destruct (create_storage cfg w username ou tr') as [[[]|e] tr''];
    reflexivity.
Qed.

(** For a guest [server] is never assigned: building the attributes
    raises before any entry is added. *)
Lemma create_new_guest
      (username loginDisabled uidNumber gidNumber givenName fullName sn
       employeeType dNumber x500UniqueIdentifier ou businessCategory
       userPassword description : string) (tr : Trace) :
  getUserType cfg username = GST ->
  run (create_new cfg rt w username loginDisabled uidNumber gidNumber
         givenName fullName sn employeeType dNumber x500UniqueIdentifier ou
         businessCategory userPassword description) tr
  = (Raise UnboundLocalError, tr).
Proof.
  intros Hg.
  unfold run, create_new, try_except, bind, create_entry, bind,
    create_groups.
  rewrite Hg. reflexivity.
Qed.

(** For an employee whose department is not in the table the warning
    itself raises. *)
Lemma create_new_unknown_department
      (username loginDisabled uidNumber gidNumber givenName fullName sn
       employeeType dNumber x500UniqueIdentifier ou businessCategory
       userPassword description : string) (tr : Trace) :
  getUserType cfg username = EMP ->
  lookupGroup cfg ou = None ->
  run (create_new cfg rt w username loginDisabled uidNumber gidNumber
         givenName fullName sn employeeType dNumber x500UniqueIdentifier ou
         businessCategory userPassword description) tr
  = (Raise TypeError, tr).
Proof.
  intros He Hd.
  unfold run, create_new, try_except, bind, create_entry, bind,
    create_groups.
  rewrite He, Hd. reflexivity.
Qed.

(** An exception that leaves one turn of the loop ends the loop: the
    record gets no row and the records after it are not looked at. *)
Lemma main_stops_at_exception
      (before : list Row) (row : Row) (after : list Row)
      (tr tr1 tr2 : Trace) (e : PyExn) :
  run (for_each before (process_row cfg rt w)) tr = (Ret tt, tr1) ->
  run (process_row cfg rt w row) tr1 = (Raise e, tr2) ->
  run (for_each (before ++ row :: after)%list (process_row cfg rt w)) tr
  = (Raise e, tr2).
Proof.
  revert tr. induction before as [|b before IH]; intros tr Hb Hr.
  - unfold run in *. cbn [for_each app] in *. unfold ret in Hb.
    inversion Hb; subst. unfold bind. now rewrite Hr.
  - unfold run in *. cbn [for_each app] in *. unfold bind at 1 in Hb.
    unfold bind at 1.
    destruct (process_row cfg rt w b tr) as [[[]|e'] tr'];
      [|discriminate Hb].
    now apply IH.
Qed.

End Handlers.

(* ================================================================== *)
(** ** The script on four concrete batches *)

(** C1, where the script departs from it.  Two runs in which an error
    arises during the mutation phase and the action still returns a
    success string.  (a) Updating [asmith], whose entry has no role
    attribute: reading the attribute raises [KeyError], the [Exception]
    handler of lines 555-558 assigns the error and falls through, no
    modification at all is issued, and the result is the success string.
    (b) Deleting the disabled [jdoe] when the employees' group lists no
    [memberUid]: the entry is deleted, reading the group raises
    [KeyError], the handler of lines 704-707 falls through, the
    notification is sent and the result is the success string. *)
Theorem success_returned_after_error :
  run (update example_settings insertion_order_runtime asmith_directory
         "asmith" "asmith" "False" "15549" "15549" "Ann" "Ann Smith"
         "Smith" "ADM" "D01234567" "44EFB5C72" "History" role_faculty
         "note") []
  = (Ret "SUCCESS: User updated in eDir",
     [ Initialize "ldaps://server.domain.edu:636/"; SetOptionProtocol3;
       SimpleBindS "cn=admin,o=DA" "nice try";
       SearchS "o=DA" SCOPE_SUBTREE "cn=asmith" ["dn"];
       SearchS "o=DA" SCOPE_SUBTREE "cn=asmith" ["businessCategory"] ]) /\
  run (update_entry example_settings asmith_directory
         "asmith" "False" "15549" "15549" "Ann" "Ann Smith"
         "Smith" "ADM" "D01234567" "44EFB5C72" "History" role_faculty
         "note")
      (bind_calls example_settings
       ++ [existence_search example_settings "asmith"])%list
  = (Raise KeyError,
     (bind_calls example_settings
      ++ [existence_search example_settings "asmith";
          SearchS "o=DA" SCOPE_SUBTREE "cn=asmith" ["businessCategory"]])%list) /\
  run (delete example_settings no_memberUid_directory "jdoe") []
  = (Ret "SUCCESS: User deleted from eDir",
     [ Initialize "ldaps://server.domain.edu:636/"; SetOptionProtocol3;
       SimpleBindS "cn=admin,o=DA" "nice try";
       SearchS "o=DA" SCOPE_SUBTREE "cn=jdoe" ["dn"];
       SearchS "o=DA" SCOPE_SUBTREE "cn=jdoe" ["loginDisabled"];
       DeleteS "cn=jdoe,ou=Employees,o=DA";
       SearchS "o=DA" SCOPE_SUBTREE "cn=Emp_GeneralMac_Users" ["memberUid"];
       SmtpConnect "mail.domain.edu";
       SmtpSendmail "user@server.domain.edu" "user@domain.edu"
         "eDir user deleted: cn=jdoe,ou=Employees,o=DA"
         "Need to deprovision home and other shared folders!";
       SmtpQuit ]) /\
  run (delete_entry example_settings no_memberUid_directory "jdoe")
      (bind_calls example_settings
       ++ [existence_search example_settings "jdoe";
           SearchS "o=DA" SCOPE_SUBTREE "cn=jdoe" ["loginDisabled"]])%list
  = (Raise KeyError,
     (bind_calls example_settings
      ++ [existence_search example_settings "jdoe";
          SearchS "o=DA" SCOPE_SUBTREE "cn=jdoe" ["loginDisabled"];
          DeleteS "cn=jdoe,ou=Employees,o=DA";
          SearchS "o=DA" SCOPE_SUBTREE "cn=Emp_GeneralMac_Users"
                  ["memberUid"]])%list).
Proof. repeat split; vm_compute; reflexivity. Qed.

(** C2, where the script departs from it.  Creating the student [doe_j]
    in an empty directory while the storage servers do not answer: the
    entry is added and nothing is deleted, the first storage request
    raises, the handler of lines 370-374 assigns the storage error, and
    line 380 assigns the success string, which is what is returned. *)
Theorem storage_failure_returns_success :
  url_open storage_down_directory []
    "http://studentserver.domain.edu/cgi-bin/getspace.pl?username=doe_j"
  = None /\
  fst (run (create example_settings insertion_order_runtime
              storage_down_directory
              "doe_j" "False" "15549" "15549" "John" "John Doe" "Doe" "STU"
              "D01234567" "44EFB5C72" "History" role_staff
              "initial password" "note") [])
  = Ret "SUCCESS: User added to eDir" /\
  http_requests
    (snd (run (create example_settings insertion_order_runtime
                 storage_down_directory
                 "doe_j" "False" "15549" "15549" "John" "John Doe" "Doe"
                 "STU" "D01234567" "44EFB5C72" "History" role_staff
                 "initial password" "note") []))
  = ["http://studentserver.domain.edu/cgi-bin/getspace.pl?username=doe_j"] /\
  entries_added
    (snd (run (create example_settings insertion_order_runtime
                 storage_down_directory
                 "doe_j" "False" "15549" "15549" "John" "John Doe" "Doe"
                 "STU" "D01234567" "44EFB5C72" "History" role_staff
                 "initial password" "note") []))
  = ["cn=doe_j,ou=Students,o=DA"] /\
  entries_deleted
    (snd (run (create example_settings insertion_order_runtime
                 storage_down_directory
                 "doe_j" "False" "15549" "15549" "John" "John Doe" "Doe"
                 "STU" "D01234567" "44EFB5C72" "History" role_staff
                 "initial password" "note") []))
  = [].
Proof. repeat split; vm_compute; reflexivity. Qed.

(** C3, where the script departs from it.  Creating the guest [gst0001]
    with all fourteen fields present in an empty directory: the
    connection is bound and the search finds nobody, then reading the
    unassigned [server] at line 267 raises [UnboundLocalError], which the
    handler for [ldap.LDAPError] does not catch.  No entry is added, no
    group is modified and [create] returns no result.  The record of the
    usage notes (employee [testuserj], department Biology, which is not
    in the department table) ends the same way with the [TypeError] of
    line 238. *)
Theorem create_guest_never_returns :
  getUserType example_settings "gst0001" = GST /\
  run (create example_settings insertion_order_runtime empty_directory
         "gst0001" "False" "15549" "15549" "Gail" "Gail Guest" "Guest" "GST"
         "D01234567" "44EFB5C72" "History" role_staff "initial password"
         "note") []
  = (Raise UnboundLocalError,
     [ Initialize "ldaps://server.domain.edu:636/"; SetOptionProtocol3;
       SimpleBindS "cn=admin,o=DA" "nice try";
       SearchS "o=DA" SCOPE_SUBTREE "cn=gst0001" ["dn"] ]) /\
  getUserType example_settings "testuserj" = EMP /\
  run (create example_settings insertion_order_runtime empty_directory
         "testuserj" "False" "15549" "15549" "John" "John The Testuser"
         "Testuser" "ADM" "D01234567" "44EFB5C72" "Biology" role_staff
         "initial password" "note") []
  = (Raise TypeError,
     [ Initialize "ldaps://server.domain.edu:636/"; SetOptionProtocol3;
       SimpleBindS "cn=admin,o=DA" "nice try";
       SearchS "o=DA" SCOPE_SUBTREE "cn=testuserj" ["dn"] ]).
Proof. repeat split; vm_compute; reflexivity. Qed.

(** C4, where the script departs from it.  A batch of two records run
    against a directory whose searches raise: in the first record the
    handler inside [findUser] swallows the [ldap.LDAPError], the unbound
    [ldap_result] then raises [UnboundLocalError], which leaves [create]
    and the loop and is caught only by the handler around the whole loop.
    The output holds the header row alone: the first record has no
    outcome row, and the second record is never processed. *)
Theorem failed_search_aborts_batch :
  run (main example_settings insertion_order_runtime search_down_directory
         [ batch_row "create" "testuserj" "History";
           batch_row "delete" "jdoe" "History" ]) []
  = (Ret tt,
     [ WriteRow (JStr "action") (JStr "username") "result";
       Initialize "ldaps://server.domain.edu:636/"; SetOptionProtocol3;
       SimpleBindS "cn=admin,o=DA" "nice try";
       SearchS "o=DA" SCOPE_SUBTREE "cn=testuserj" ["dn"] ]) /\
  rows_written
    (snd (run (main example_settings insertion_order_runtime
                 search_down_directory
                 [ batch_row "create" "testuserj" "History";
                   batch_row "delete" "jdoe" "History" ]) []))
  = [(JStr "action", JStr "username", "result")] /\
  run (process_row example_settings insertion_order_runtime
         search_down_directory (batch_row "create" "testuserj" "History"))
      [WriteRow (JStr "action") (JStr "username") "result"]
  = (Raise UnboundLocalError,
     [ WriteRow (JStr "action") (JStr "username") "result";
       Initialize "ldaps://server.domain.edu:636/"; SetOptionProtocol3;
       SimpleBindS "cn=admin,o=DA" "nice try";
       SearchS "o=DA" SCOPE_SUBTREE "cn=testuserj" ["dn"] ]).
Proof. repeat split; vm_compute; reflexivity. Qed.

(* ================================================================== *)
(** ** Footprints of the building blocks *)

Section Footprints.
Variable allowed : Event -> bool.

Lemma emits_ret {A} (a : A) : emits_only allowed (ret a).
Proof. intros tr. exists []. now rewrite app_nil_r. Qed.

Lemma emits_raise {A} (e : PyExn) : emits_only allowed (@raise A e).
Proof. intros tr. exists []. now rewrite app_nil_r. Qed.

Lemma emits_bind {A B} (m : M A) (k : A -> M B) :
  emits_only allowed m -> (forall a, emits_only allowed (k a)) ->
  emits_only allowed (bind m k).
Proof.
  intros Hm Hk tr. destruct (Hm tr) as (e1 & H1 & F1). unfold bind.
  destruct (m tr) as [[a|e] tr1]; simpl in H1; subst tr1.
  - destruct (Hk a (tr ++ e1)%list) as (e2 & H2 & F2).
    exists (e1 ++ e2)%list. rewrite H2, app_assoc, forallb_app, F1, F2.
    now split.
  - exists e1. now split.
Qed.

Lemma emits_try_except {A} (m : M A) (h : PyExn -> M A) :
  emits_only allowed m -> (forall e, emits_only allowed (h e)) ->
  emits_only allowed (try_except m h).
Proof.
  intros Hm Hh tr. destruct (Hm tr) as (e1 & H1 & F1). unfold try_except.
  destruct (m tr) as [[a|e] tr1]; simpl in H1; subst tr1.
  - exists e1. now split.
  - destruct (Hh e (tr ++ e1)%list) as (e2 & H2 & F2).
    exists (e1 ++ e2)%list. rewrite H2, app_assoc, forallb_app, F1, F2.
    now split.
Qed.

Lemma emits_for_each {A} (xs : list A) (body : A -> M unit) :
  (forall x, emits_only allowed (body x)) ->
  emits_only allowed (for_each xs body).
Proof.
  intros Hb. induction xs as [|x xs IH]; simpl.
  - apply emits_ret.
  - apply emits_bind; [apply Hb | intros _; exact IH].
Qed.

Lemma emits_ldap_call (w : World) (e : Event) :
  allowed e = true -> emits_only allowed (ldap_call w e).
Proof. intros H tr. exists [e]. simpl. now rewrite H. Qed.

Lemma emits_smtp_call (w : World) (e : Event) :
  allowed e = true -> emits_only allowed (smtp_call w e).
Proof. intros H tr. exists [e]. simpl. now rewrite H. Qed.

Lemma emits_search_s (w : World) (base : string) (scope : Scope)
      (filter : string) (attrlist : list string) :
  allowed (SearchS base scope filter attrlist) = true ->
  emits_only allowed (search_s w base scope filter attrlist).
Proof.
  intros H tr. exists [SearchS base scope filter attrlist]. simpl.
  now rewrite H.
Qed.

Lemma emits_urlopen (w : World) (url : string) :
  allowed (UrlOpen url) = true -> emits_only allowed (urlopen_getcode w url).
Proof. intros H tr. exists [UrlOpen url]. simpl. now rewrite H. Qed.

Lemma emits_index0 {A} (xs : list A) : emits_only allowed (index0 xs).
Proof. destruct xs; [apply emits_raise | apply emits_ret]. Qed.

Lemma emits_getitem {V} (d : list (string * V)) (k : string) :
  emits_only allowed (getitem d k).
Proof.
  unfold getitem. destruct (Py.dict_get d k); [apply emits_ret | apply emits_raise].
Qed.

End Footprints.

Lemma emits_weaken (p q : Event -> bool) {A} (m : M A) :
  (forall e, p e = true -> q e = true) ->
  emits_only p m -> emits_only q m.
Proof.
  intros Hpq Hm tr. destruct (Hm tr) as (evs & H & F).
  exists evs. split; [exact H|].
  rewrite forallb_forall in *. auto.
Qed.

(** One step of a footprint proof: split the computation at its binds and
    handlers, decide its tests, and check each call against the
    predicate. *)
Ltac footprint_step :=
  first
    [ apply emits_ret
    | apply emits_raise
    | apply emits_index0
    | apply emits_getitem
    | apply emits_bind; [|intros ?]
    | apply emits_try_except; [|intros ?]
    | apply emits_for_each; intros ?
    | apply emits_ldap_call
    | apply emits_smtp_call
    | apply emits_search_s
    | apply emits_urlopen
    | match goal with
      | |- emits_only _ (on_LDAPError _ ?e) => destruct e; cbn [on_LDAPError]
      | |- emits_only _ (match ?x with _ => _ end) => destruct x eqn:?
      | |- emits_only _ (let _ := ?x in _) => cbv zeta
      end ].

Ltac footprint := repeat footprint_step.

Section HelperFootprints.
Variable cfg : Settings.
Variable w : World.

Lemma ldapConnect_footprint : emits_only is_connection (ldapConnect cfg w).
Proof. unfold ldapConnect. footprint; reflexivity. Qed.

Lemma findUser_footprint (username : string) :
  emits_only is_search (findUser cfg w username).
Proof. unfold findUser. footprint; reflexivity. Qed.

Lemma userDisabled_footprint (username : string) :
  emits_only is_search (userDisabled cfg w username).
Proof. unfold userDisabled. footprint; reflexivity. Qed.

Lemma sendMail_footprint (frm to subject text : string) :
  emits_only is_smtp (sendMail cfg w frm to subject text).
Proof. unfold sendMail. footprint; reflexivity. Qed.

End HelperFootprints.

(* ================================================================== *)
(** ** What each action can do to the directory *)

Ltac weaken_to lemma :=
  eapply emits_weaken; [|apply lemma];
  let e := fresh "e" in
  let He := fresh "He" in
  intros e He; destruct e; try discriminate He; reflexivity.

Ltac footprint_helpers :=
  first [ weaken_to ldapConnect_footprint
        | weaken_to findUser_footprint
        | weaken_to userDisabled_footprint
        | weaken_to sendMail_footprint ].

Section ActionFootprints.
Variable cfg : Settings.
Variable rt : Runtime.
Variable w : World.

Lemma archive_emits (username : string) :
  emits_only (archive_allowed cfg username) (archive cfg w username).
Proof.
  unfold archive, archive_existing, archive_move.
  destruct (getUserType cfg username) eqn:Ht;
    footprint; try footprint_helpers; try reflexivity;
    unfold archive_allowed; rewrite Ht, !String.eqb_refl; reflexivity.
Qed.

Lemma delete_emits (username : string) :
  emits_only (delete_allowed cfg username) (delete cfg w username).
Proof.
  unfold delete, delete_existing, delete_remove, delete_entry.
  fold (general_group_dn cfg username).
  footprint; try footprint_helpers; try reflexivity.
  - unfold delete_allowed. rewrite String.eqb_refl. reflexivity.
  - match goal with
    | H : String.eqb username _ = true |- _ =>
        apply String.eqb_eq in H; subst
    end.
    unfold delete_allowed. cbn [is_memberUid_removal].
    rewrite !String.eqb_refl. reflexivity.
Qed.

Lemma update_emits
      (username newusername loginDisabled uidNumber gidNumber givenName
       fullName sn employeeType dNumber x500UniqueIdentifier ou
       businessCategory description : string) :
  emits_only (update_allowed cfg username newusername)
    (update cfg rt w username newusername loginDisabled uidNumber gidNumber
       givenName fullName sn employeeType dNumber x500UniqueIdentifier ou
       businessCategory description).
Proof.
  unfold update, update_existing, update_rename, rename_entry,
    update_attributes, update_entry.
  footprint; try footprint_helpers; try reflexivity.
  unfold update_allowed. rewrite !String.eqb_refl. reflexivity.
Qed.

Lemma create_emits
      (username loginDisabled uidNumber gidNumber givenName fullName sn
       employeeType dNumber x500UniqueIdentifier ou businessCategory
       userPassword description : string) :
  emits_only (create_allowed cfg username)
    (create cfg rt w username loginDisabled uidNumber gidNumber givenName
       fullName sn employeeType dNumber x500UniqueIdentifier ou
       businessCategory userPassword description).
Proof.
  unfold create, create_new, create_entry, create_groups, create_attrs,
    create_storage.
  footprint; try footprint_helpers; try reflexivity;
    unfold create_allowed; rewrite !String.eqb_refl; reflexivity.
Qed.

End ActionFootprints.

(* ================================================================== *)
(** ** Binding, mailing and the checks before any mutation *)

Lemma all_given_no_empty (params : list (string * string)) :
  all_given params = true -> forall field, ~ In (field, "") params.
Proof.
  unfold all_given. rewrite forallb_forall. intros H field Hin.
  specialize (H _ Hin). discriminate H.
Qed.

Lemma all_given_first_missing (rt : Runtime) (params : list (string * string)) :
  all_given params = true -> first_missing (dict_order rt params) = None.
Proof.
  intros H. apply first_missing_dict_order_none. now apply all_given_no_empty.
Qed.


Lemma sendMail_run
    (cfg : Settings) (w : World) (frm to subject text : string) (tr : Trace) :
  exists n,
    run (sendMail cfg w frm to subject text) tr
    = (Ret tt, (tr ++ firstn n (mail_calls cfg frm to subject text))%list) /\
    1 <= n <= 3.
Proof.
  unfold run, sendMail, try_except, bind, smtp_call, mail_calls.
  destruct (smtp_ok w tr _); cbn [ret].
  - destruct (smtp_ok w _ (SmtpSendmail frm to subject text)); cbn [ret].
    + exists 3. cbn [firstn]. rewrite <- !app_assoc.
      destruct (smtp_ok w _ SmtpQuit); cbn [ret]; split; try reflexivity; lia.
    + exists 2. cbn [firstn]. rewrite <- !app_assoc. split; [reflexivity|lia].
  - exists 1. split; [reflexivity|lia].
Qed.


(** X3.  When the bind fails, each of the four actions returns the
    connection error and makes no further call: no search, no mutation,
    no mail, no storage request. *)
Theorem bind_failure_stops_every_action
    (cfg : Settings) (rt : Runtime) (w : World) (tr tr1 : Trace)
    (username newusername loginDisabled uidNumber gidNumber givenName
     fullName sn employeeType dNumber x500UniqueIdentifier ou
     businessCategory userPassword description : string) :
  all_given (create_params username loginDisabled uidNumber gidNumber
               givenName fullName sn employeeType dNumber
               x500UniqueIdentifier ou businessCategory userPassword
               description) = true ->
  all_given (update_params username newusername loginDisabled uidNumber
               gidNumber givenName fullName sn employeeType dNumber
               x500UniqueIdentifier ou businessCategory description)
  = true ->
  run (ldapConnect cfg w) tr = (Ret false, tr1) ->
  run (create cfg rt w username loginDisabled uidNumber gidNumber givenName
         fullName sn employeeType dNumber x500UniqueIdentifier ou
         businessCategory userPassword description) tr
  = (Ret "ERROR: unable to connect to LDAP server", tr1) /\
  run (update cfg rt w username newusername loginDisabled uidNumber
         gidNumber givenName fullName sn employeeType dNumber
         x500UniqueIdentifier ou businessCategory description) tr
  = (Ret "ERROR: unable to connect to LDAP server", tr1) /\
  run (archive cfg w username) tr
  = (Ret "ERROR: unable to connect to LDAP server", tr1) /\
  run (delete cfg w username) tr
  = (Ret "ERROR: unable to connect to LDAP server", tr1).
Proof.
  intros Hc Hu Hconn.
  assert (Hname : String.eqb username "" = false).
  { eapply params_username_nonempty;
      [|exact (all_given_no_empty _ Hc)]. now left. }
  unfold run in *. repeat split.
  - unfold create. rewrite (all_given_first_missing rt _ Hc).
    unfold bind at 1. now rewrite Hconn.
  - unfold update. rewrite (all_given_first_missing rt _ Hu).
    unfold bind at 1. now rewrite Hconn.
  - unfold archive. rewrite Hname. unfold bind at 1. now rewrite Hconn.
  - unfold delete. rewrite Hname. unfold bind at 1. now rewrite Hconn.
Qed.

Lemma bind_failure_stops_every_action_witness :
  all_given (create_params "jdoe" "False" "15549" "15549" "John"
               "John Doe" "Doe" "ADM" "D01234567" "44EFB5C72" "History"
               role_staff "initial password" "note") = true /\
  all_given (update_params "jdoe" "jdoe2" "False" "15549" "15549" "John"
               "John Doe" "Doe" "ADM" "D01234567" "44EFB5C72" "History"
               role_staff "note") = true /\
  run (ldapConnect example_settings bind_refused_directory) []
  = (Ret false, bind_calls example_settings) /\
  run (delete example_settings bind_refused_directory "jdoe") []
  = (Ret "ERROR: unable to connect to LDAP server",
     bind_calls example_settings).
Proof.
  assert (Hc : all_given (create_params "jdoe" "False" "15549" "15549" "John"
               "John Doe" "Doe" "ADM" "D01234567" "44EFB5C72" "History"
               role_staff "initial password" "note") = true)
    by reflexivity.
  assert (Hu : all_given (update_params "jdoe" "jdoe2" "False" "15549"
               "15549" "John" "John Doe" "Doe" "ADM" "D01234567" "44EFB5C72"
               "History" role_staff "note") = true)
    by reflexivity.
  assert (Hconn : run (ldapConnect example_settings bind_refused_directory) []
                  = (Ret false, bind_calls example_settings))
    by reflexivity.
  pose proof (bind_failure_stops_every_action example_settings
                insertion_order_runtime bind_refused_directory [] _
                "jdoe" "jdoe2" "False" "15549" "15549" "John" "John Doe"
                "Doe" "ADM" "D01234567" "44EFB5C72" "History" role_staff
                "initial password" "note" Hc Hu Hconn)
    as (_ & _ & _ & Hdelete).
  repeat (split; [assumption|]).
  exact Hdelete.
Defined.

(** X4.  Update, Archive and Delete of a user the existence search does
    not find return the not-found error; the action has then issued the
    bind calls and that one search, and nothing else. *)
Theorem absent_user_is_reported
    (cfg : Settings) (rt : Runtime) (w : World) (tr tr1 : Trace)
    (username newusername loginDisabled uidNumber gidNumber givenName
     fullName sn employeeType dNumber x500UniqueIdentifier ou
     businessCategory description : string) :
  all_given (update_params username newusername loginDisabled uidNumber
               gidNumber givenName fullName sn employeeType dNumber
               x500UniqueIdentifier ou businessCategory description)
  = true ->
  run (ldapConnect cfg w) tr = (Ret true, tr1) ->
  ldap_search w tr1 (baseDN cfg) SCOPE_SUBTREE ("cn=" ++ username) ["dn"]
  = Some [] ->
  let tr2 := (tr ++ bind_calls cfg ++ [existence_search cfg username])%list in
  run (update cfg rt w username newusername loginDisabled uidNumber
         gidNumber givenName fullName sn employeeType dNumber
         x500UniqueIdentifier ou businessCategory description) tr
  = (Ret "ERROR: user could not be found!", tr2) /\
  run (archive cfg w username) tr
  = (Ret "ERROR: user could not be found!", tr2) /\
  run (delete cfg w username) tr
  = (Ret "ERROR: user could not be found!", tr2).
Proof.
  intros Hu Hconn Hsearch tr2.
  assert (Hname : String.eqb username "" = false).
  { eapply params_username_nonempty;
      [|exact (all_given_no_empty _ Hu)]. now left. }
  pose proof (findUser_absent cfg w username tr1 Hsearch) as Hfind.
  pose proof (ldapConnect_true cfg w tr tr1 Hconn) as Htr1.
  assert (Htr2 : (tr1 ++ [existence_search cfg username])%list = tr2).
  { subst tr1 tr2. now rewrite <- app_assoc. }
  rewrite Htr2 in Hfind.
  unfold run in *. repeat split.
  - unfold update. rewrite (all_given_first_missing rt _ Hu).
    unfold bind at 1. rewrite Hconn. cbn [negb].
    unfold bind at 1. now rewrite Hfind.
  - unfold archive. rewrite Hname. unfold bind at 1. rewrite Hconn.
    cbn [negb]. unfold bind at 1. now rewrite Hfind.
  - unfold delete. rewrite Hname. unfold bind at 1. rewrite Hconn.
    cbn [negb]. unfold bind at 1. now rewrite Hfind.
Qed.

Lemma absent_user_is_reported_witness :
  all_given (update_params "jdoe" "jdoe" "False" "15549" "15549" "John"
               "John Doe" "Doe" "ADM" "D01234567" "44EFB5C72" "History"
               role_staff "note") = true /\
  run (ldapConnect example_settings empty_directory) []
  = (Ret true, bind_calls example_settings) /\
  ldap_search empty_directory (bind_calls example_settings) "o=DA"
    SCOPE_SUBTREE "cn=jdoe" ["dn"] = Some [] /\
  run (delete example_settings empty_directory "jdoe") []
  = (Ret "ERROR: user could not be found!",
     (bind_calls example_settings
      ++ [existence_search example_settings "jdoe"])%list).
Proof.
  assert (Hu : all_given (update_params "jdoe" "jdoe" "False" "15549"
               "15549" "John" "John Doe" "Doe" "ADM" "D01234567" "44EFB5C72"
               "History" role_staff "note") = true)
    by reflexivity.
  assert (Hconn : run (ldapConnect example_settings empty_directory) []
                  = (Ret true, bind_calls example_settings))
    by reflexivity.
  assert (Hsearch :
    ldap_search empty_directory (bind_calls example_settings)
      (baseDN example_settings) SCOPE_SUBTREE ("cn=" ++ "jdoe") ["dn"]
    = Some []) by reflexivity.
  pose proof (absent_user_is_reported example_settings
                insertion_order_runtime empty_directory [] _
                "jdoe" "jdoe" "False" "15549" "15549" "John" "John Doe"
                "Doe" "ADM" "D01234567" "44EFB5C72" "History" role_staff
                "note" Hu Hconn Hsearch) as (_ & _ & Hdelete).
  repeat (split; [assumption|]).
  exact Hdelete.
Defined.

(** X5.  An Update in which some parameter is the empty string returns
    the message naming a parameter whose value is empty and makes no call
    at all; Archive and Delete of the empty user name do the same for
    [username]. *)
Theorem update_missing_value
    (cfg : Settings) (rt : Runtime) (w : World) (tr : Trace)
    (username newusername loginDisabled uidNumber gidNumber givenName
     fullName sn employeeType dNumber x500UniqueIdentifier ou
     businessCategory description field : string) :
  In (field, "")
     (update_params username newusername loginDisabled uidNumber gidNumber
        givenName fullName sn employeeType dNumber x500UniqueIdentifier ou
        businessCategory description) ->
  (exists _item,
     In (_item, "")
        (update_params username newusername loginDisabled uidNumber
           gidNumber givenName fullName sn employeeType dNumber
           x500UniqueIdentifier ou businessCategory description) /\
     run (update cfg rt w username newusername loginDisabled uidNumber
            gidNumber givenName fullName sn employeeType dNumber
            x500UniqueIdentifier ou businessCategory description) tr
     = (Ret ("ERROR: Missing an expected input value for " ++ _item
             ++ " in input file"), tr)) /\
  run (archive cfg w "") tr
  = (Ret "ERROR: Missing an expected input value for username in input file",
     tr) /\
  run (delete cfg w "") tr
  = (Ret "ERROR: Missing an expected input value for username in input file",
     tr).
Proof.
  intros Hin. split; [|split; reflexivity].
  destruct (first_missing_dict_order rt _ _ Hin) as (i & Hi & Hini).
  exists i. split; [exact Hini|].
  unfold run, update. rewrite Hi. reflexivity.
Qed.

Lemma update_missing_value_witness :
  In ("newusername", "")
     (update_params "jdoe" "" "False" "15549" "15549" "John" "John Doe"
        "Doe" "ADM" "D01234567" "44EFB5C72" "History" role_staff "") /\
  exists _item,
    In (_item, "")
       (update_params "jdoe" "" "False" "15549" "15549" "John" "John Doe"
          "Doe" "ADM" "D01234567" "44EFB5C72" "History" role_staff "") /\
    run (update example_settings reverse_order_runtime jdoe_directory
           "jdoe" "" "False" "15549" "15549" "John" "John Doe"
           "Doe" "ADM" "D01234567" "44EFB5C72" "History" role_staff "") []
    = (Ret ("ERROR: Missing an expected input value for " ++ _item
            ++ " in input file"), []).
Proof.
  assert (H : In ("newusername", "")
     (update_params "jdoe" "" "False" "15549" "15549" "John" "John Doe"
        "Doe" "ADM" "D01234567" "44EFB5C72" "History" role_staff "")).
  { simpl. right. left. reflexivity. }
  split; [exact H|].
  exact (proj1 (update_missing_value example_settings reverse_order_runtime
                  jdoe_directory [] _ _ _ _ _ _ _ _ _ _ _ _ _ _ _ H)).
Defined.

(* ================================================================== *)
(** ** Archive *)

(** X6.  Whatever the directory answers, the only change [archive] can
    make is to move the user's own entry, under its own name, into the
    archive container of its category; everything else it does is binding
    and searching.  It never adds, deletes or modifies an entry. *)
Theorem archive_only_moves_its_user
    (cfg : Settings) (w : World) (username : string) (tr : Trace) :
  exists evs,
    snd (run (archive cfg w username) tr) = (tr ++ evs)%list /\
    forallb (archive_allowed cfg username) evs = true.
Proof. exact (archive_emits cfg w username tr). Qed.

Lemma archive_allowed_guest (cfg : Settings) (username : string) (e : Event) :
  getUserType cfg username = GST ->
  archive_allowed cfg username e = true -> is_read_only e = true.
Proof.
  intros Ht. unfold archive_allowed. rewrite Ht.
  destruct (is_read_only e); [reflexivity|].
  destruct e; simpl; try discriminate.
  destruct newsuperior; [|discriminate].
  now rewrite andb_false_r.
Qed.

(** X7.  A guest is never archived: whatever the directory answers,
    [archive] on a guest name only binds and searches, and its result is
    never the success string. *)
Theorem archive_never_moves_a_guest
    (cfg : Settings) (w : World) (username : string) (tr : Trace) :
  getUserType cfg username = GST ->
  (exists evs,
     snd (run (archive cfg w username) tr) = (tr ++ evs)%list /\
     forallb is_read_only evs = true) /\
  fst (run (archive cfg w username) tr) <> Ret "SUCCESS: User archived in eDir".
Proof.
  intros Ht. split.
  - destruct (archive_emits cfg w username tr) as (evs & H & F).
    exists evs. split; [exact H|].
    rewrite forallb_forall in *. intros e He.
    eapply archive_allowed_guest; eauto.
  - unfold run, archive, archive_existing, archive_move, bind, try_except.
    rewrite Ht.
    destruct (String.eqb username ""); [discriminate|].
    destruct (ldapConnect cfg w tr) as [[[]|] tr1]; cbn; try discriminate.
    destruct (findUser cfg w username tr1) as [[[]|] tr2]; cbn;
      try discriminate.
    destruct (userDisabled cfg w username tr2) as [[[]|] tr3]; cbn;
      discriminate.
Qed.

Lemma archive_never_moves_a_guest_witness :
  getUserType example_settings "gst0001" = GST /\
  run (archive example_settings guest_directory "gst0001") []
  = (Ret "ERROR: we do not archive guest accounts",
     (bind_calls example_settings
      ++ [existence_search example_settings "gst0001";
          SearchS "o=DA" SCOPE_SUBTREE "cn=gst0001" ["loginDisabled"]])%list) /\
  fst (run (archive example_settings guest_directory "gst0001") [])
  <> Ret "SUCCESS: User archived in eDir".
Proof.
  assert (Ht : getUserType example_settings "gst0001" = GST) by reflexivity.
  split; [exact Ht|]. split; [reflexivity|].
  exact (proj2 (archive_never_moves_a_guest example_settings guest_directory
                  "gst0001" [] Ht)).
Defined.

(** X8.  For a disabled student or employee, [archive] issues the move of
    the entry into the archive container and, if the move is accepted,
    the unbind.  The result is the success string only when both calls
    are accepted; a refused move and a refused unbind both give the
    could-not-move error, in the second case after the entry has been
    moved. *)
Theorem archive_outcome
    (cfg : Settings) (w : World) (username : string) (tr tr1 tr2 tr3 : Trace) :
  username <> "" ->
  getUserType cfg username <> GST ->
  run (ldapConnect cfg w) tr = (Ret true, tr1) ->
  run (findUser cfg w username) tr1 = (Ret true, tr2) ->
  run (userDisabled cfg w username) tr2 = (Ret true, tr3) ->
  let move :=
    RenameS (buildDN cfg username) ("cn=" ++ username)
            (Some (archive_container cfg username)) in
  run (archive cfg w username) tr
  = (if ldap_ok w tr3 move
     then if ldap_ok w (tr3 ++ [move])%list UnbindS
          then (Ret "SUCCESS: User archived in eDir",
                (tr3 ++ [move; UnbindS])%list)
          else (Ret "ERROR: Could not move eDir user",
                (tr3 ++ [move; UnbindS])%list)
     else (Ret "ERROR: Could not move eDir user", (tr3 ++ [move])%list)).
Proof.
  intros Hname Ht Hconn Hfind Hdis move.
  assert (Hne : String.eqb username "" = false) by (now apply String.eqb_neq).
  unfold run in *. unfold archive. rewrite Hne.
  unfold bind at 1. rewrite Hconn. cbn [negb].
  unfold bind at 1. rewrite Hfind. cbn [negb].
  unfold archive_existing, bind at 1. rewrite Hdis. cbn [negb].
  unfold archive_move, bind at 1, try_except.
  subst move. unfold archive_container.
  destruct (getUserType cfg username); [|contradiction|];
    unfold bind, ldap_call;
    match goal with
    | |- context [ldap_ok w tr3 ?e] => destruct (ldap_ok w tr3 e)
    end; cbn [on_LDAPError ret]; try reflexivity;
    match goal with
    | |- context [ldap_ok w ?t UnbindS] => destruct (ldap_ok w t UnbindS)
    end; cbn [on_LDAPError ret]; now rewrite <- app_assoc.
Qed.

Lemma archive_outcome_witness :
  "jdoe" <> "" /\
  getUserType example_settings "jdoe" <> GST /\
  run (ldapConnect example_settings rename_refused_directory) []
  = (Ret true, bind_calls example_settings) /\
  run (findUser example_settings rename_refused_directory "jdoe")
      (bind_calls example_settings)
  = (Ret true,
     (bind_calls example_settings
      ++ [existence_search example_settings "jdoe"])%list) /\
  run (userDisabled example_settings rename_refused_directory "jdoe")
      (bind_calls example_settings
       ++ [existence_search example_settings "jdoe"])%list
  = (Ret true,
     (bind_calls example_settings
      ++ [existence_search example_settings "jdoe";
          SearchS "o=DA" SCOPE_SUBTREE "cn=jdoe" ["loginDisabled"]])%list) /\
  run (archive example_settings rename_refused_directory "jdoe") []
  = (Ret "ERROR: Could not move eDir user",
     (bind_calls example_settings
      ++ [existence_search example_settings "jdoe";
          SearchS "o=DA" SCOPE_SUBTREE "cn=jdoe" ["loginDisabled"];
          RenameS "cn=jdoe,ou=Employees,o=DA" "cn=jdoe"
                  (Some "ou=_Archive,ou=Employees,o=DA")])%list).
Proof.
  assert (Hname : "jdoe" <> "") by discriminate.
  assert (Ht : getUserType example_settings "jdoe" <> GST)
    by (vm_compute; discriminate).
  assert (Hconn :
    run (ldapConnect example_settings rename_refused_directory) []
    = (Ret true, bind_calls example_settings)) by reflexivity.
  assert (Hfind :
    run (findUser example_settings rename_refused_directory "jdoe")
        (bind_calls example_settings)
    = (Ret true,
       (bind_calls example_settings
        ++ [existence_search example_settings "jdoe"])%list))
    by reflexivity.
  assert (Hdis :
    run (userDisabled example_settings rename_refused_directory "jdoe")
        (bind_calls example_settings
         ++ [existence_search example_settings "jdoe"])%list
    = (Ret true,
       (bind_calls example_settings
        ++ [existence_search example_settings "jdoe";
            SearchS "o=DA" SCOPE_SUBTREE "cn=jdoe" ["loginDisabled"]])%list))
    by (vm_compute; reflexivity).
  pose proof (archive_outcome example_settings rename_refused_directory
                "jdoe" [] _ _ _ Hname Ht Hconn Hfind Hdis) as Hrun.
  repeat (split; [assumption|]).
  exact Hrun.
Defined.

(* ================================================================== *)
(** ** Delete and the memberUid list *)

Section MemberUid.
Variable cfg : Settings.
Variable w : World.

Lemma remove_members_run (gdn username : string) (members : list string)
      (tr : Trace) :
  (forall h mods, ldap_ok w h (ModifyS gdn mods) = true) ->
  run (for_each members (fun member =>
         if String.eqb username member
         then ldap_call w (ModifyS gdn [(MOD_DELETE, "memberUid", member)])
         else ret tt)) tr
  = (Ret tt,
     (tr ++ List.map
              (fun _ => ModifyS gdn [(MOD_DELETE, "memberUid", username)])
              (List.filter (String.eqb username) members))%list).
Proof.
  intros Hok. revert tr.
  induction members as [|m members IH]; intros tr.
  - unfold run. simpl. unfold ret. now rewrite app_nil_r.
  - unfold run in *. cbn [for_each List.filter]. unfold bind at 1.
    destruct (String.eqb_spec username m) as [<-|_].
    + unfold ldap_call at 1. rewrite Hok. rewrite IH.
      cbn [List.map]. now rewrite <- app_assoc.
    + unfold ret at 1. apply IH.
Qed.

End MemberUid.

Lemma delMemberUid_run
    (cfg : Settings) (w : World) (gn gdn username found_dn : string)
    (attrs : list (string * list string)) (others : list Entry)
    (members : list string) (tr : Trace) :
  ldap_search w tr (baseDN cfg) SCOPE_SUBTREE ("cn=" ++ gn) ["memberUid"]
  = Some ((found_dn, attrs) :: others) ->
  Py.dict_get attrs "memberUid" = Some members ->
  (forall h mods, ldap_ok w h (ModifyS gdn mods) = true) ->
  let search := SearchS (baseDN cfg) SCOPE_SUBTREE ("cn=" ++ gn) ["memberUid"] in
  let removal := ModifyS gdn [(MOD_DELETE, "memberUid", username)] in
  run (delMemberUid cfg w gn gdn username) tr
  = (Ret tt,
     (tr ++ search
         :: List.repeat removal (count_occ string_dec members username))%list)
  /\ (~ In username members ->
      run (delMemberUid cfg w gn gdn username) tr = (Ret tt, (tr ++ [search])%list))
  /\ (forall w' tr',
        fst (run (delMemberUid cfg w' gn gdn username) tr') <> Raise LDAPError).
Proof.
  intros Hsearch Hattr Hmod search removal.
  assert (Hrep : forall ms,
    List.map (fun _ : string => removal) (List.filter (String.eqb username) ms)
    = List.repeat removal (count_occ string_dec ms username)).
  { induction ms as [|m ms IH]; [reflexivity|].
    cbn [List.filter count_occ].
    destruct (String.eqb_spec username m) as [<-|Hne].
    - destruct (string_dec username username); [|contradiction].
      cbn [List.map List.repeat]. now rewrite IH.
    - destruct (string_dec m username); [congruence|exact IH]. }
  assert (Hrun :
    run (delMemberUid cfg w gn gdn username) tr
    = (Ret tt,
       (tr ++ search
           :: List.repeat removal (count_occ string_dec members username))%list)).
  { unfold run, delMemberUid, try_except, bind at 1, search_s.
    rewrite Hsearch. unfold bind at 1. cbn [index0 ret snd].
    unfold bind at 1, getitem. rewrite Hattr. cbn [ret].
    pose proof (remove_members_run w gdn username members
                  (tr ++ [search])%list Hmod) as Hloop.
    unfold run in Hloop. fold search. rewrite Hloop.
    fold removal. rewrite Hrep, <- app_assoc. reflexivity. }
  split; [exact Hrun|split].
  - intros Hnot. rewrite Hrun.
    rewrite (proj1 (count_occ_not_In string_dec members username) Hnot).
    reflexivity.
  - intros w' tr'. unfold run, delMemberUid, try_except.
    match goal with
    | |- context [bind ?m ?k tr'] => destruct (bind m k tr') as [[u|e] t]
    end; [discriminate|].
    destruct e; cbn; discriminate.
Qed.

(** X9.  [delMemberUid] looks the group up by its name and removes from
    [memberUid] the values equal to the user name, one modification per
    occurrence and nothing for any other member; when the name is not
    listed it only searches.  A directory error inside it is never passed
    on to the caller. *)
Theorem delMemberUid_removes_only_the_user
    (cfg : Settings) (w : World) (gn gdn username found_dn : string)
    (attrs : list (string * list string)) (others : list Entry)
    (members : list string) (tr : Trace) :
  ldap_search w tr (baseDN cfg) SCOPE_SUBTREE ("cn=" ++ gn) ["memberUid"]
  = Some ((found_dn, attrs) :: others) ->
  Py.dict_get attrs "memberUid" = Some members ->
  (forall h mods, ldap_ok w h (ModifyS gdn mods) = true) ->
  let search := SearchS (baseDN cfg) SCOPE_SUBTREE ("cn=" ++ gn) ["memberUid"] in
  let removal := ModifyS gdn [(MOD_DELETE, "memberUid", username)] in
  run (delMemberUid cfg w gn gdn username) tr
  = (Ret tt,
     (tr ++ search
         :: List.repeat removal (count_occ string_dec members username))%list)
  /\ (~ In username members ->
      run (delMemberUid cfg w gn gdn username) tr = (Ret tt, (tr ++ [search])%list))
  /\ (forall w' tr',
        fst (run (delMemberUid cfg w' gn gdn username) tr') <> Raise LDAPError).
Proof.
  exact (delMemberUid_run cfg w gn gdn username found_dn attrs others members tr).
Qed.

Lemma delMemberUid_removes_only_the_user_witness :
  ldap_search jdoe_directory [] "o=DA" SCOPE_SUBTREE
    "cn=Emp_GeneralMac_Users" ["memberUid"]
  = Some [("cn=Emp_GeneralMac_Users,ou=Resources,o=DA",
           [("memberUid", ["jdoe"])])] /\
  Py.dict_get [("memberUid", ["jdoe"])] "memberUid" = Some ["jdoe"] /\
  (forall h mods,
     ldap_ok jdoe_directory h
       (ModifyS "cn=Emp_GeneralMac_Users,ou=Resources,o=DA" mods) = true) /\
  run (delMemberUid example_settings jdoe_directory "Emp_GeneralMac_Users"
         "cn=Emp_GeneralMac_Users,ou=Resources,o=DA" "jdoe") []
  = (Ret tt,
     [ SearchS "o=DA" SCOPE_SUBTREE "cn=Emp_GeneralMac_Users" ["memberUid"];
       ModifyS "cn=Emp_GeneralMac_Users,ou=Resources,o=DA"
               [(MOD_DELETE, "memberUid", "jdoe")] ]).
Proof.
  assert (Hsearch :
    ldap_search jdoe_directory [] (baseDN example_settings) SCOPE_SUBTREE
      ("cn=" ++ "Emp_GeneralMac_Users") ["memberUid"]
    = Some [("cn=Emp_GeneralMac_Users,ou=Resources,o=DA",
             [("memberUid", ["jdoe"])])]) by (vm_compute; reflexivity).
  assert (Hattr : Py.dict_get [("memberUid", ["jdoe"])] "memberUid"
                  = Some ["jdoe"]) by reflexivity.
  assert (Hmod : forall h mods,
     ldap_ok jdoe_directory h
       (ModifyS "cn=Emp_GeneralMac_Users,ou=Resources,o=DA" mods) = true)
    by (intros; reflexivity).
  pose proof (delMemberUid_removes_only_the_user example_settings
                jdoe_directory "Emp_GeneralMac_Users"
                "cn=Emp_GeneralMac_Users,ou=Resources,o=DA" "jdoe" _ _ _ _ []
                Hsearch Hattr Hmod) as (Hrun & _).
  repeat (split; [assumption|]).
  exact Hrun.
Defined.

(** X10.  Whatever the directory and the mail server answer, [delete]
    binds, searches, deletes no entry but the user's own, changes no
    group but by removing the user's name from [memberUid] of the
    category's GeneralMac_Users group, and sends mail.  It never adds,
    renames or otherwise modifies an entry. *)
Theorem delete_touches_only_its_user
    (cfg : Settings) (w : World) (username : string) (tr : Trace) :
  exists evs,
    snd (run (delete cfg w username) tr) = (tr ++ evs)%list /\
    forallb (delete_allowed cfg username) evs = true.
Proof. exact (delete_emits cfg w username tr). Qed.

(** X11.  Deleting a disabled user in a directory that accepts the
    calls: the entry is deleted, the category group is searched, the
    user's name is removed from its [memberUid] once per occurrence, the
    connection is unbound, the result is the success string, and the
    notification is attempted whatever the mail server does (between one
    and three SMTP calls). *)
Theorem delete_disabled_user
    (cfg : Settings) (w : World) (username found_dn : string)
    (attrs : list (string * list string)) (others : list Entry)
    (members : list string) (tr tr1 tr2 tr3 : Trace) :
  username <> "" ->
  run (ldapConnect cfg w) tr = (Ret true, tr1) ->
  run (findUser cfg w username) tr1 = (Ret true, tr2) ->
  run (userDisabled cfg w username) tr2 = (Ret true, tr3) ->
  let dn := buildDN cfg username in
  let gn := general_group cfg (getUserType cfg username) in
  let gdn := general_group_dn cfg username in
  ldap_ok w tr3 (DeleteS dn) = true ->
  ldap_search w (tr3 ++ [DeleteS dn])%list (baseDN cfg) SCOPE_SUBTREE
    ("cn=" ++ gn) ["memberUid"] = Some ((found_dn, attrs) :: others) ->
  Py.dict_get attrs "memberUid" = Some members ->
  (forall h mods, ldap_ok w h (ModifyS gdn mods) = true) ->
  (forall h, ldap_ok w h UnbindS = true) ->
  exists n,
    1 <= n <= 3 /\
    run (delete cfg w username) tr
    = (Ret "SUCCESS: User deleted from eDir",
       (tr3
        ++ [DeleteS dn;
            SearchS (baseDN cfg) SCOPE_SUBTREE ("cn=" ++ gn) ["memberUid"]]
        ++ List.repeat (ModifyS gdn [(MOD_DELETE, "memberUid", username)])
                       (count_occ string_dec members username)
        ++ [UnbindS]
        ++ firstn n
             (mail_calls cfg (FROM cfg) (TO cfg)
                ("eDir user deleted: " ++ dn)
                "Need to deprovision home and other shared folders!"))%list).
Proof.
  intros Hname Hconn Hfind Hdis dn gn gdn Hdel Hsearch Hattr Hmod Hunbind.
  subst dn gn gdn. unfold general_group_dn in *.
  assert (Hne : String.eqb username "" = false) by (now apply String.eqb_neq).
  destruct (delMemberUid_run cfg w _ _ username
              found_dn attrs others members _ Hsearch Hattr Hmod)
    as (Hgroup & _).
  match type of Hgroup with
  | _ = (_, ?t) => set (tr4 := t) in *
  end.
  destruct (sendMail_run cfg w (FROM cfg) (TO cfg)
              ("eDir user deleted: " ++ buildDN cfg username)
              "Need to deprovision home and other shared folders!"
              (tr4 ++ [UnbindS])%list) as (n & Hmail & Hn).
  exists n. split; [exact Hn|].
  unfold run in *. unfold delete. rewrite Hne.
  unfold bind at 1. rewrite Hconn. cbn [negb].
  unfold bind at 1. rewrite Hfind. cbn [negb].
  unfold delete_existing, bind at 1. rewrite Hdis. cbn [negb].
  unfold delete_remove, bind at 1, try_except, bind at 1.
  unfold delete_entry, bind at 1, ldap_call at 1.
  rewrite Hdel. cbv beta iota zeta.
  unfold bind at 1. rewrite Hgroup.
  unfold ldap_call. rewrite Hunbind. cbn [ret].
  unfold bind. rewrite Hmail. unfold ret.
  f_equal. subst tr4. rewrite <- !app_assoc. reflexivity.
Qed.

Lemma delete_disabled_user_witness :
  "jdoe" <> "" /\
  run (ldapConnect example_settings mail_down_directory) []
  = (Ret true, bind_calls example_settings) /\
  run (findUser example_settings mail_down_directory "jdoe")
      (bind_calls example_settings)
  = (Ret true,
     (bind_calls example_settings
      ++ [existence_search example_settings "jdoe"])%list) /\
  run (userDisabled example_settings mail_down_directory "jdoe")
      (bind_calls example_settings
       ++ [existence_search example_settings "jdoe"])%list
  = (Ret true,
     (bind_calls example_settings
      ++ [existence_search example_settings "jdoe";
          SearchS "o=DA" SCOPE_SUBTREE "cn=jdoe" ["loginDisabled"]])%list) /\
  ldap_ok mail_down_directory
    (bind_calls example_settings
     ++ [existence_search example_settings "jdoe";
         SearchS "o=DA" SCOPE_SUBTREE "cn=jdoe" ["loginDisabled"]])%list
    (DeleteS "cn=jdoe,ou=Employees,o=DA") = true /\
  ldap_search mail_down_directory
    (bind_calls example_settings
     ++ [existence_search example_settings "jdoe";
         SearchS "o=DA" SCOPE_SUBTREE "cn=jdoe" ["loginDisabled"];
         DeleteS "cn=jdoe,ou=Employees,o=DA"])%list
    "o=DA" SCOPE_SUBTREE "cn=Emp_GeneralMac_Users" ["memberUid"]
  = Some [("cn=Emp_GeneralMac_Users,ou=Resources,o=DA",
           [("memberUid", ["jdoe"])])] /\
  Py.dict_get [("memberUid", ["jdoe"])] "memberUid" = Some ["jdoe"] /\
  (forall h mods,
     ldap_ok mail_down_directory h
       (ModifyS "cn=Emp_GeneralMac_Users,ou=Resources,o=DA" mods) = true) /\
  (forall h, ldap_ok mail_down_directory h UnbindS = true) /\
  exists n,
    1 <= n <= 3 /\
    run (delete example_settings mail_down_directory "jdoe") []
    = (Ret "SUCCESS: User deleted from eDir",
       (bind_calls example_settings
        ++ [existence_search example_settings "jdoe";
            SearchS "o=DA" SCOPE_SUBTREE "cn=jdoe" ["loginDisabled"];
            DeleteS "cn=jdoe,ou=Employees,o=DA";
            SearchS "o=DA" SCOPE_SUBTREE "cn=Emp_GeneralMac_Users"
                    ["memberUid"];
            ModifyS "cn=Emp_GeneralMac_Users,ou=Resources,o=DA"
                    [(MOD_DELETE, "memberUid", "jdoe")];
            UnbindS]
        ++ firstn n
             (mail_calls example_settings "user@server.domain.edu"
                "user@domain.edu"
                "eDir user deleted: cn=jdoe,ou=Employees,o=DA"
                "Need to deprovision home and other shared folders!"))%list).
Proof.
  assert (Hname : "jdoe" <> "") by discriminate.
  assert (Hconn :
    run (ldapConnect example_settings mail_down_directory) []
    = (Ret true, bind_calls example_settings)) by reflexivity.
  assert (Hfind :
    run (findUser example_settings mail_down_directory "jdoe")
        (bind_calls example_settings)
    = (Ret true,
       (bind_calls example_settings
        ++ [existence_search example_settings "jdoe"])%list))
    by reflexivity.
  assert (Hdis :
    run (userDisabled example_settings mail_down_directory "jdoe")
        (bind_calls example_settings
         ++ [existence_search example_settings "jdoe"])%list
    = (Ret true,
       (bind_calls example_settings
        ++ [existence_search example_settings "jdoe";
            SearchS "o=DA" SCOPE_SUBTREE "cn=jdoe" ["loginDisabled"]])%list))
    by (vm_compute; reflexivity).
  assert (Hdel :
    ldap_ok mail_down_directory
      (bind_calls example_settings
       ++ [existence_search example_settings "jdoe";
           SearchS "o=DA" SCOPE_SUBTREE "cn=jdoe" ["loginDisabled"]])%list
      (DeleteS (buildDN example_settings "jdoe")) = true) by reflexivity.
  assert (Hsearch :
    ldap_search mail_down_directory
      ((bind_calls example_settings
        ++ [existence_search example_settings "jdoe";
            SearchS "o=DA" SCOPE_SUBTREE "cn=jdoe" ["loginDisabled"]])
       ++ [DeleteS (buildDN example_settings "jdoe")])%list
      (baseDN example_settings) SCOPE_SUBTREE
      ("cn=" ++ general_group example_settings
                  (getUserType example_settings "jdoe"))
      ["memberUid"]
    = Some [("cn=Emp_GeneralMac_Users,ou=Resources,o=DA",
             [("memberUid", ["jdoe"])])]) by (vm_compute; reflexivity).
  assert (Hattr : Py.dict_get [("memberUid", ["jdoe"])] "memberUid"
                  = Some ["jdoe"]) by reflexivity.
  assert (Hmod : forall h mods,
     ldap_ok mail_down_directory h
       (ModifyS (general_group_dn example_settings "jdoe") mods) = true)
    by (intros; reflexivity).
  assert (Hunbind : forall h, ldap_ok mail_down_directory h UnbindS = true)
    by (intros; reflexivity).
  pose proof (delete_disabled_user example_settings mail_down_directory
                "jdoe" _ _ _ _ [] _ _ _
                Hname Hconn Hfind Hdis Hdel Hsearch Hattr Hmod Hunbind)
    as Hrun.
  repeat (split; [assumption|]).
  exact Hrun.
Defined.

(** X12.  When the directory refuses to delete the entry, [delete]
    returns the could-not-delete error at once: the group is not
    searched or changed and no notification is sent. *)
Theorem delete_refused
    (cfg : Settings) (w : World) (username : string) (tr tr1 tr2 tr3 : Trace) :
  username <> "" ->
  run (ldapConnect cfg w) tr = (Ret true, tr1) ->
  run (findUser cfg w username) tr1 = (Ret true, tr2) ->
  run (userDisabled cfg w username) tr2 = (Ret true, tr3) ->
  ldap_ok w tr3 (DeleteS (buildDN cfg username)) = false ->
  run (delete cfg w username) tr
  = (Ret "ERROR: Could not delete eDir user",
     (tr3 ++ [DeleteS (buildDN cfg username)])%list).
Proof.
  intros Hname Hconn Hfind Hdis Hdel.
  assert (Hne : String.eqb username "" = false) by (now apply String.eqb_neq).
  unfold run in *. unfold delete. rewrite Hne.
  unfold bind at 1. rewrite Hconn. cbn [negb].
  unfold bind at 1. rewrite Hfind. cbn [negb].
  unfold delete_existing, bind at 1. rewrite Hdis. cbn [negb].
  unfold delete_remove, bind at 1, try_except, bind at 1.
  unfold delete_entry, bind at 1, ldap_call at 1.
  rewrite Hdel. reflexivity.
Qed.

Lemma delete_refused_witness :
  "jdoe" <> "" /\
  run (ldapConnect example_settings delete_refused_directory) []
  = (Ret true, bind_calls example_settings) /\
  run (findUser example_settings delete_refused_directory "jdoe")
      (bind_calls example_settings)
  = (Ret true,
     (bind_calls example_settings
      ++ [existence_search example_settings "jdoe"])%list) /\
  run (userDisabled example_settings delete_refused_directory "jdoe")
      (bind_calls example_settings
       ++ [existence_search example_settings "jdoe"])%list
  = (Ret true,
     (bind_calls example_settings
      ++ [existence_search example_settings "jdoe";
          SearchS "o=DA" SCOPE_SUBTREE "cn=jdoe" ["loginDisabled"]])%list) /\
  ldap_ok delete_refused_directory
    (bind_calls example_settings
     ++ [existence_search example_settings "jdoe";
         SearchS "o=DA" SCOPE_SUBTREE "cn=jdoe" ["loginDisabled"]])%list
    (DeleteS (buildDN example_settings "jdoe")) = false /\
  run (delete example_settings delete_refused_directory "jdoe") []
  = (Ret "ERROR: Could not delete eDir user",
     (bind_calls example_settings
      ++ [existence_search example_settings "jdoe";
          SearchS "o=DA" SCOPE_SUBTREE "cn=jdoe" ["loginDisabled"];
          DeleteS "cn=jdoe,ou=Employees,o=DA"])%list).
Proof.
  assert (Hname : "jdoe" <> "") by discriminate.
  assert (Hconn :
    run (ldapConnect example_settings delete_refused_directory) []
    = (Ret true, bind_calls example_settings)) by reflexivity.
  assert (Hfind :
    run (findUser example_settings delete_refused_directory "jdoe")
        (bind_calls example_settings)
    = (Ret true,
       (bind_calls example_settings
        ++ [existence_search example_settings "jdoe"])%list))
    by reflexivity.
  assert (Hdis :
    run (userDisabled example_settings delete_refused_directory "jdoe")
        (bind_calls example_settings
         ++ [existence_search example_settings "jdoe"])%list
    = (Ret true,
       (bind_calls example_settings
        ++ [existence_search example_settings "jdoe";
            SearchS "o=DA" SCOPE_SUBTREE "cn=jdoe" ["loginDisabled"]])%list))
    by (vm_compute; reflexivity).
  assert (Hdel :
    ldap_ok delete_refused_directory
      (bind_calls example_settings
       ++ [existence_search example_settings "jdoe";
           SearchS "o=DA" SCOPE_SUBTREE "cn=jdoe" ["loginDisabled"]])%list
      (DeleteS (buildDN example_settings "jdoe")) = false) by reflexivity.
  pose proof (delete_refused example_settings delete_refused_directory
                "jdoe" [] _ _ _ Hname Hconn Hfind Hdis Hdel) as Hrun.
  repeat (split; [assumption|]).
  exact Hrun.
Defined.

(* ================================================================== *)
(** ** Create *)

Lemma dict_get_In {V} (d : list (string * V)) (k : string) (v : V) :
  Py.dict_get d k = Some v -> In (k, v) d.
Proof.
  induction d as [|[k' v'] d IH]; simpl; [discriminate|].
  destruct (String.eqb_spec k' k) as [->|_].
  - intros H. inversion H. now left.
  - intros H. right. now apply IH.
Qed.

Lemma dict_get_None {V} (d : list (string * V)) (k : string) :
  Py.dict_get d k = None <-> ~ In k (List.map fst d).
Proof.
  induction d as [|[k' v'] d IH]; simpl; [tauto|].
  destruct (String.eqb_spec k' k) as [->|Hne].
  - split; [discriminate | intros H; exfalso; apply H; now left].
  - rewrite IH. tauto.
Qed.

Lemma deptGroups_values_nonempty (ou name : string) :
  In (ou, name) deptGroups -> Py.truthy name = true.
Proof.
  unfold deptGroups. cbn [In].
  intros H.
  repeat (destruct H as [H|H]; [inversion H; reflexivity|]).
  contradiction.
Qed.

Lemma lookupGroup_table (cfg : Settings) (ou : string) :
  (lookupGroup cfg ou = None <-> ~ In ou (List.map fst deptGroups)) /\
  (forall deptGroup,
     lookupGroup cfg ou = Some deptGroup ->
     exists name,
       In (ou, name) deptGroups /\
       deptGroup = "cn=" ++ name ++ DEPGROUPOU cfg /\
       Py.truthy deptGroup = true).
Proof.
  unfold lookupGroup.
  destruct (Py.dict_get deptGroups ou) as [name|] eqn:Hget.
  - pose proof (dict_get_In _ _ _ Hget) as Hin.
    rewrite (deptGroups_values_nonempty _ _ Hin).
    split.
    + split; [discriminate|].
      intros Hnot. exfalso. apply Hnot.
      apply (in_map fst) in Hin. exact Hin.
    + intros g Hg. inversion Hg; subst g.
      exists name. repeat split; assumption.
  - split.
    + split; [intros _; now apply dict_get_None | reflexivity].
    + intros g Hg. discriminate Hg.
Qed.


Section CreateFacts.
Variable cfg : Settings.
Variable rt : Runtime.
Variable w : World.

Lemma create_groups_known (username ou : string) (tr : Trace) :
  getUserType cfg username <> GST ->
  (getUserType cfg username = EMP -> Py.dict_get deptGroups ou <> None) ->
  run (create_groups cfg username ou) tr
  = (Ret (Some (home_server cfg username), general_group_dn cfg username,
          category_groups cfg username ou), tr).
Proof.
  intros Hcat Hdept.
  unfold run, create_groups, home_server, general_group_dn, category_groups.
  destruct (getUserType cfg username) eqn:Ht; [reflexivity|contradiction|].
  specialize (Hdept eq_refl).
  destruct (lookupGroup_table cfg ou) as [Hnone Hsome].
  destruct (lookupGroup cfg ou) as [g|] eqn:Hl.
  - destruct (Hsome g eq_refl) as (name & _ & _ & Htruthy).
    rewrite Htruthy. reflexivity.
  - exfalso. apply Hdept. apply dict_get_None. now apply Hnone.
Qed.

(** The attributes of the new entry that are derived, not copied. *)
Lemma create_attrs_derived
      (server username loginDisabled uidNumber gidNumber givenName fullName
       sn employeeType dNumber x500UniqueIdentifier ou businessCategory
       userPassword description : string) :
  exists attrs,
    create_attrs cfg (Some server) username loginDisabled uidNumber gidNumber
      givenName fullName sn employeeType dNumber x500UniqueIdentifier ou
      businessCategory userPassword description = ret attrs /\
    Py.dict_get attrs "cn" = Some (AStr username) /\
    Py.dict_get attrs "uid" = Some (AStr username) /\
    Py.dict_get attrs "mail" = Some (AStr (username ++ MAILDOMAIN cfg)) /\
    Py.dict_get attrs "homeDirectory" = Some (AStr ("/Users/" ++ username)) /\
    Py.dict_get attrs "employeeNumber"
    = Some (AStr (Py.slice_from dNumber 1)) /\
    Py.dict_get attrs "telexNumber" = Some (AStr dNumber) /\
    Py.dict_get attrs "userPassword" = Some (AStr userPassword) /\
    Py.dict_get attrs "ndsHomeDirectory"
    = (if Py.truthy server
       then Some (AStr ("cn=" ++ server ++ SHAREOU cfg ++ "#0#" ++ username))
       else None).
Proof.
  unfold create_attrs. destruct (Py.truthy server);
    eexists; (split; [reflexivity|]); repeat split; reflexivity.
Qed.

Lemma addMember_run (gdn dn : string) (tr : Trace) :
  run (addMember w gdn dn) tr
  = (Ret tt,
     (tr ++ [ModifyS gdn [(MOD_ADD, "member", dn);
                          (MOD_ADD, "equivalentToMe", dn)]])%list).
Proof.
  unfold run, addMember, try_except, ldap_call.
  destruct (ldap_ok w tr _); reflexivity.
Qed.

Lemma membership_loop_run (dn : string) (groups : list string) (tr : Trace) :
  (forall h mods, ldap_ok w h (ModifyS dn mods) = true) ->
  run (for_each groups (fun group =>
         ldap_call w (ModifyS dn [(MOD_ADD, "securityEquals", group);
                                  (MOD_ADD, "groupMembership", group)]) ;;;
         addMember w group dn)) tr
  = (Ret tt, (tr ++ flat_map (membership_calls dn) groups)%list).
Proof.
  intros Hmod. revert tr.
  induction groups as [|g groups IH]; intros tr.
  - unfold run. simpl. unfold ret. now rewrite app_nil_r.
  - unfold run in *. cbn [for_each flat_map]. unfold bind at 1, bind at 1.
    unfold ldap_call at 1. rewrite Hmod.
    pose proof (addMember_run g dn
                  (tr ++ [ModifyS dn [(MOD_ADD, "securityEquals", g);
                                      (MOD_ADD, "groupMembership", g)]])%list)
      as Hadd.
    unfold run in Hadd. rewrite Hadd. rewrite IH.
    unfold membership_calls at 2. cbn [app].
    now rewrite <- !app_assoc.
Qed.

(** The storage requests are made in order and stop at the first one
    that raises. *)
Lemma create_storage_run (username ou : string) (tr : Trace) :
  exists r n,
    run (create_storage cfg w username ou) tr
    = (r, (tr ++ List.map UrlOpen (firstn n (storage_urls cfg username ou)))%list)
    /\ n <= 3
    /\ (getUserType cfg username <> GST -> 1 <= n).
Proof.
  unfold run, create_storage, storage_urls, bind, urlopen_getcode.
  destruct (getUserType cfg username).
  - destruct (url_open w tr _).
    + destruct (url_open w _ _).
      * destruct (url_open w _ _);
          eexists; exists 3; cbn [firstn List.map];
          rewrite <- !app_assoc; (split; [reflexivity|split; intros; lia]).
      * eexists; exists 2; cbn [firstn List.map];
          rewrite <- !app_assoc; (split; [reflexivity|split; intros; lia]).
    + eexists; exists 1; cbn [firstn List.map];
        (split; [reflexivity|split; intros; lia]).
  - eexists; exists 0; cbn [firstn List.map]; rewrite app_nil_r.
    split; [reflexivity|split; [lia|intros H; congruence]].
  - destruct (url_open w tr _).
    + destruct (url_open w _ _).
      * destruct (url_open w _ _);
          eexists; exists 3; cbn [firstn List.map];
          rewrite <- !app_assoc; (split; [reflexivity|split; intros; lia]).
      * eexists; exists 2; cbn [firstn List.map];
          rewrite <- !app_assoc; (split; [reflexivity|split; intros; lia]).
    + eexists; exists 1; cbn [firstn List.map];
        (split; [reflexivity|split; intros; lia]).
Qed.

End CreateFacts.

(** X14.  Creating a student, or an employee of a known department, in
    a directory that has no entry of that name and accepts the calls:
    [create] adds the entry under the DN of the category, puts it into
    each group of the category in order (two modifications of the entry,
    then two of the group, whose failure is not looked at), adds the name
    to [memberUid] of the category's GeneralMac_Users group, unbinds,
    makes between one and three storage requests and returns the success
    string.  In the attributes handed to [addModlist], [cn] and [uid] are
    the user name, [mail] is the name followed by the mail domain, the
    home directory is [/Users/<name>], the employee number is the
    D-number without its first character, and the home directory pointer
    is present exactly when the category's server name is not empty. *)
Theorem create_new_user
    (cfg : Settings) (rt : Runtime) (w : World) (tr tr1 : Trace)
    (username loginDisabled uidNumber gidNumber givenName fullName sn
     employeeType dNumber x500UniqueIdentifier ou businessCategory
     userPassword description : string) :
  all_given (create_params username loginDisabled uidNumber gidNumber
               givenName fullName sn employeeType dNumber
               x500UniqueIdentifier ou businessCategory userPassword
               description) = true ->
  getUserType cfg username <> GST ->
  (getUserType cfg username = EMP -> Py.dict_get deptGroups ou <> None) ->
  run (ldapConnect cfg w) tr = (Ret true, tr1) ->
  ldap_search w tr1 (baseDN cfg) SCOPE_SUBTREE ("cn=" ++ username) ["dn"]
  = Some [] ->
  let dn := buildDN cfg username in
  let gdn := general_group_dn cfg username in
  (forall h ldif, ldap_ok w h (AddS dn ldif) = true) ->
  (forall h mods, ldap_ok w h (ModifyS dn mods) = true) ->
  (forall h, ldap_ok w h (ModifyS gdn [(MOD_ADD, "memberUid", username)])
             = true) ->
  (forall h, ldap_ok w h UnbindS = true) ->
  exists attrs n,
    run (create cfg rt w username loginDisabled uidNumber gidNumber givenName
           fullName sn employeeType dNumber x500UniqueIdentifier ou
           businessCategory userPassword description) tr
    = (Ret "SUCCESS: User added to eDir",
       (tr1
        ++ [existence_search cfg username; AddS dn (addModlist rt attrs)]
        ++ flat_map (membership_calls dn) (category_groups cfg username ou)
        ++ [ModifyS gdn [(MOD_ADD, "memberUid", username)]; UnbindS]
        ++ List.map UrlOpen
             (firstn n (storage_urls cfg username ou)))%list) /\
    1 <= n <= 3 /\
    Py.dict_get attrs "cn" = Some (AStr username) /\
    Py.dict_get attrs "uid" = Some (AStr username) /\
    Py.dict_get attrs "mail" = Some (AStr (username ++ MAILDOMAIN cfg)) /\
    Py.dict_get attrs "homeDirectory" = Some (AStr ("/Users/" ++ username)) /\
    Py.dict_get attrs "employeeNumber"
    = Some (AStr (Py.slice_from dNumber 1)) /\
    Py.dict_get attrs "telexNumber" = Some (AStr dNumber) /\
    Py.dict_get attrs "userPassword" = Some (AStr userPassword) /\
    Py.dict_get attrs "ndsHomeDirectory"
    = (if Py.truthy (home_server cfg username)
       then Some (AStr ("cn=" ++ home_server cfg username ++ SHAREOU cfg
                        ++ "#0#" ++ username))
       else None).
Proof.
  intros Hc Hcat Hdept Hconn Hsearch dn gdn Hadd Hmod Hmember Hunbind.
  destruct (create_attrs_derived cfg (home_server cfg username) username
              loginDisabled uidNumber gidNumber givenName fullName sn
              employeeType dNumber x500UniqueIdentifier ou businessCategory
              userPassword description) as (attrs & Hattrs & Hfacts).
  pose proof (findUser_absent cfg w username tr1 Hsearch) as Hfind.
  set (tr2 := (tr1 ++ [existence_search cfg username])%list) in *.
  set (tr3 := (tr2 ++ [AddS dn (addModlist rt attrs)])%list).
  set (tr4 := (tr3 ++ flat_map (membership_calls dn)
                        (category_groups cfg username ou))%list).
  set (tr5 := (tr4 ++ [ModifyS gdn [(MOD_ADD, "memberUid", username)];
                       UnbindS])%list).
  destruct (create_storage_run cfg w username ou tr5)
    as (r & n & Hstorage & Hn3 & Hn1).
  exists attrs, n. split; [|split; [split; [auto|exact Hn3]|exact Hfacts]].
  assert (Hentry :
    create_entry cfg rt w username loginDisabled uidNumber gidNumber
      givenName fullName sn employeeType dNumber x500UniqueIdentifier ou
      businessCategory userPassword description tr2 = (Ret tt, tr5)).
  { unfold create_entry, bind at 1.
    pose proof (create_groups_known cfg username ou tr2 Hcat Hdept) as Hg.
    unfold run in Hg. rewrite Hg. cbv beta iota zeta.
    unfold bind at 1. rewrite Hattrs. unfold ret at 1.
    unfold bind at 1, ldap_call at 1. fold dn. rewrite Hadd.
    unfold bind at 1.
    pose proof (membership_loop_run w dn (category_groups cfg username ou)
                  tr3 Hmod) as Hloop.
    unfold run in Hloop. fold tr3. rewrite Hloop. fold tr4.
    unfold bind at 1, ldap_call at 1. fold gdn. rewrite Hmember.
    unfold ldap_call. rewrite Hunbind.
    subst tr5. now rewrite <- app_assoc. }
  unfold run in *. unfold create. rewrite (all_given_first_missing rt _ Hc).
  unfold bind at 1. rewrite Hconn. cbn [negb].
  unfold bind at 1. rewrite Hfind. cbv beta iota.
  unfold create_new, bind at 1, try_except at 1, bind at 1.
  rewrite Hentry. cbv beta iota. unfold ret at 1. cbv beta iota.
  unfold bind at 1, try_except, bind at 1. rewrite Hstorage.
  assert (Htrace :
    (tr5 ++ List.map UrlOpen (firstn n (storage_urls cfg username ou)))%list
    = (tr1
       ++ [existence_search cfg username; AddS dn (addModlist rt attrs)]
       ++ flat_map (membership_calls dn) (category_groups cfg username ou)
       ++ [ModifyS gdn [(MOD_ADD, "memberUid", username)]; UnbindS]
       ++ List.map UrlOpen
            (firstn n (storage_urls cfg username ou)))%list).
  { subst tr5 tr4 tr3 tr2. rewrite <- !app_assoc. reflexivity. }
  rewrite <- Htrace. destruct r as [[]|e]; reflexivity.
Qed.

Lemma create_new_user_witness :
  all_given (create_params "testuserj" "False" "15549" "15549" "John"
               "John The Testuser" "Testuser" "ADM" "D01234567" "44EFB5C72"
               "History" role_staff "initial password" "note") = true /\
  getUserType example_settings "testuserj" <> GST /\
  (getUserType example_settings "testuserj" = EMP ->
   Py.dict_get deptGroups "History" <> None) /\
  run (ldapConnect example_settings empty_directory) []
  = (Ret true, bind_calls example_settings) /\
  ldap_search empty_directory (bind_calls example_settings) "o=DA"
    SCOPE_SUBTREE "cn=testuserj" ["dn"] = Some [] /\
  (forall h ldif,
     ldap_ok empty_directory h (AddS "cn=testuserj,ou=Employees,o=DA" ldif)
     = true) /\
  (forall h mods,
     ldap_ok empty_directory h (ModifyS "cn=testuserj,ou=Employees,o=DA" mods)
     = true) /\
  (forall h,
     ldap_ok empty_directory h
       (ModifyS "cn=Emp_GeneralMac_Users,ou=Resources,o=DA"
                [(MOD_ADD, "memberUid", "testuserj")]) = true) /\
  (forall h, ldap_ok empty_directory h UnbindS = true) /\
  exists attrs n,
    run (create example_settings insertion_order_runtime empty_directory
           "testuserj" "False" "15549" "15549" "John" "John The Testuser"
           "Testuser" "ADM" "D01234567" "44EFB5C72" "History" role_staff
           "initial password" "note") []
    = (Ret "SUCCESS: User added to eDir",
       (bind_calls example_settings
        ++ [existence_search example_settings "testuserj";
            AddS "cn=testuserj,ou=Employees,o=DA" attrs]
        ++ flat_map (membership_calls "cn=testuserj,ou=Employees,o=DA")
             [ "cn=Emp_GeneralMac_Users,ou=Resources,o=DA";
               "cn=Emp_GeneralWS_Users,ou=Resources,o=DA";
               "cn=History_DEPARTMENT,ou=Departments,o=DA" ]
        ++ [ModifyS "cn=Emp_GeneralMac_Users,ou=Resources,o=DA"
                    [(MOD_ADD, "memberUid", "testuserj")];
            UnbindS]
        ++ List.map UrlOpen
             (firstn n (storage_urls example_settings "testuserj"
                          "History")))%list) /\
    1 <= n <= 3 /\
    Py.dict_get attrs "mail" = Some (AStr "testuserj@domain.edu") /\
    Py.dict_get attrs "homeDirectory" = Some (AStr "/Users/testuserj").
Proof.
  assert (Hc : all_given (create_params "testuserj" "False" "15549" "15549"
               "John" "John The Testuser" "Testuser" "ADM" "D01234567"
               "44EFB5C72" "History" role_staff "initial password" "note")
               = true) by reflexivity.
  assert (Hcat : getUserType example_settings "testuserj" <> GST)
    by (vm_compute; discriminate).
  assert (Hdept : getUserType example_settings "testuserj" = EMP ->
                  Py.dict_get deptGroups "History" <> None)
    by (intros _; vm_compute; discriminate).
  assert (Hconn : run (ldapConnect example_settings empty_directory) []
                  = (Ret true, bind_calls example_settings))
    by reflexivity.
  assert (Hsearch :
    ldap_search empty_directory (bind_calls example_settings)
      (baseDN example_settings) SCOPE_SUBTREE ("cn=" ++ "testuserj") ["dn"]
    = Some []) by reflexivity.
  assert (Hadd : forall h ldif,
     ldap_ok empty_directory h
       (AddS (buildDN example_settings "testuserj") ldif) = true)
    by (intros; reflexivity).
  assert (Hmod : forall h mods,
     ldap_ok empty_directory h
       (ModifyS (buildDN example_settings "testuserj") mods) = true)
    by (intros; reflexivity).
  assert (Hmember : forall h,
     ldap_ok empty_directory h
       (ModifyS (general_group_dn example_settings "testuserj")
                [(MOD_ADD, "memberUid", "testuserj")]) = true)
    by (intros; reflexivity).
  assert (Hunbind : forall h, ldap_ok empty_directory h UnbindS = true)
    by (intros; reflexivity).
  repeat (split; [assumption|]).
  destruct (create_new_user example_settings insertion_order_runtime
              empty_directory [] _ "testuserj" "False" "15549" "15549" "John"
              "John The Testuser" "Testuser" "ADM" "D01234567" "44EFB5C72"
              "History" role_staff "initial password" "note"
              Hc Hcat Hdept Hconn Hsearch Hadd Hmod Hmember Hunbind)
    as (attrs & n & Hrun & Hn & _ & _ & Hmail & Hhome & _).
  exists attrs, n.
  split; [exact Hrun|]. split; [exact Hn|]. split; [exact Hmail|exact Hhome].
Defined.

(** X15.  When the directory refuses to add the entry, [create] returns
    the could-not-create error at once: no group is modified, the
    connection is not unbound and no storage is requested. *)
Theorem create_add_refused
    (cfg : Settings) (rt : Runtime) (w : World) (tr tr1 : Trace)
    (username loginDisabled uidNumber gidNumber givenName fullName sn
     employeeType dNumber x500UniqueIdentifier ou businessCategory
     userPassword description : string) :
  all_given (create_params username loginDisabled uidNumber gidNumber
               givenName fullName sn employeeType dNumber
               x500UniqueIdentifier ou businessCategory userPassword
               description) = true ->
  getUserType cfg username <> GST ->
  (getUserType cfg username = EMP -> Py.dict_get deptGroups ou <> None) ->
  run (ldapConnect cfg w) tr = (Ret true, tr1) ->
  ldap_search w tr1 (baseDN cfg) SCOPE_SUBTREE ("cn=" ++ username) ["dn"]
  = Some [] ->
  (forall h ldif, ldap_ok w h (AddS (buildDN cfg username) ldif) = false) ->
  exists attrs,
    run (create cfg rt w username loginDisabled uidNumber gidNumber givenName
           fullName sn employeeType dNumber x500UniqueIdentifier ou
           businessCategory userPassword description) tr
    = (Ret "ERROR: Could not create eDir user or update groups",
       (tr1 ++ [existence_search cfg username;
                AddS (buildDN cfg username) (addModlist rt attrs)])%list).
Proof.
  intros Hc Hcat Hdept Hconn Hsearch Hadd.
  destruct (create_attrs_derived cfg (home_server cfg username) username
              loginDisabled uidNumber gidNumber givenName fullName sn
              employeeType dNumber x500UniqueIdentifier ou businessCategory
              userPassword description) as (attrs & Hattrs & _).
  pose proof (findUser_absent cfg w username tr1 Hsearch) as Hfind.
  exists attrs.
  unfold run in *. unfold create. rewrite (all_given_first_missing rt _ Hc).
  unfold bind at 1. rewrite Hconn. cbn [negb].
  unfold bind at 1. rewrite Hfind. cbv beta iota.
  unfold create_new, bind at 1, try_except at 1, bind at 1.
  unfold create_entry, bind at 1.
  pose proof (create_groups_known cfg username ou
                (tr1 ++ [existence_search cfg username])%list Hcat Hdept)
    as Hg.
  unfold run in Hg. rewrite Hg. cbv beta iota zeta.
  unfold bind at 1. rewrite Hattrs. unfold ret at 1.
  unfold bind at 1, ldap_call at 1. rewrite Hadd.
  cbn [on_LDAPError ret]. now rewrite <- app_assoc.
Qed.

Lemma create_add_refused_witness :
  all_given (create_params "doe_j" "False" "15549" "15549" "John"
               "John Doe" "Doe" "STU" "D01234567" "44EFB5C72" "Biology"
               role_staff "initial password" "note") = true /\
  getUserType example_settings "doe_j" <> GST /\
  (getUserType example_settings "doe_j" = EMP ->
   Py.dict_get deptGroups "Biology" <> None) /\
  run (ldapConnect example_settings add_refused_directory) []
  = (Ret true, bind_calls example_settings) /\
  ldap_search add_refused_directory (bind_calls example_settings) "o=DA"
    SCOPE_SUBTREE "cn=doe_j" ["dn"] = Some [] /\
  (forall h ldif,
     ldap_ok add_refused_directory h (AddS "cn=doe_j,ou=Students,o=DA" ldif)
     = false) /\
  exists attrs,
    run (create example_settings insertion_order_runtime
           add_refused_directory "doe_j" "False" "15549" "15549" "John"
           "John Doe" "Doe" "STU" "D01234567" "44EFB5C72" "Biology"
           role_staff "initial password" "note") []
    = (Ret "ERROR: Could not create eDir user or update groups",
       (bind_calls example_settings
        ++ [existence_search example_settings "doe_j";
            AddS "cn=doe_j,ou=Students,o=DA" attrs])%list).
Proof.
  assert (Hc : all_given (create_params "doe_j" "False" "15549" "15549"
               "John" "John Doe" "Doe" "STU" "D01234567" "44EFB5C72"
               "Biology" role_staff "initial password" "note") = true)
    by reflexivity.
  assert (Hcat : getUserType example_settings "doe_j" <> GST)
    by (vm_compute; discriminate).
  assert (Hdept : getUserType example_settings "doe_j" = EMP ->
                  Py.dict_get deptGroups "Biology" <> None)
    by (vm_compute; discriminate).
  assert (Hconn : run (ldapConnect example_settings add_refused_directory) []
                  = (Ret true, bind_calls example_settings))
    by reflexivity.
  assert (Hsearch :
    ldap_search add_refused_directory (bind_calls example_settings)
      (baseDN example_settings) SCOPE_SUBTREE ("cn=" ++ "doe_j") ["dn"]
    = Some []) by reflexivity.
  assert (Hadd : forall h ldif,
     ldap_ok add_refused_directory h
       (AddS (buildDN example_settings "doe_j") ldif) = false)
    by (intros; reflexivity).
  repeat (split; [assumption|]).
  exact (create_add_refused example_settings insertion_order_runtime
           add_refused_directory [] _ "doe_j" "False" "15549" "15549" "John"
           "John Doe" "Doe" "STU" "D01234567" "44EFB5C72" "Biology"
           role_staff "initial password" "note"
           Hc Hcat Hdept Hconn Hsearch Hadd).
Defined.

(** X16.  Whatever the directory and the storage servers answer,
    [create] adds no entry but the user's own, and every modification it
    issues only adds attribute values; it never deletes, renames or
    replaces anything, and sends no mail. *)
Theorem create_only_adds
    (cfg : Settings) (rt : Runtime) (w : World) (tr : Trace)
    (username loginDisabled uidNumber gidNumber givenName fullName sn
     employeeType dNumber x500UniqueIdentifier ou businessCategory
     userPassword description : string) :
  exists evs,
    snd (run (create cfg rt w username loginDisabled uidNumber gidNumber
                givenName fullName sn employeeType dNumber
                x500UniqueIdentifier ou businessCategory userPassword
                description) tr) = (tr ++ evs)%list /\
    forallb (create_allowed cfg username) evs = true.
Proof.
  exact (create_emits cfg rt w username loginDisabled uidNumber gidNumber
           givenName fullName sn employeeType dNumber x500UniqueIdentifier
           ou businessCategory userPassword description tr).
Qed.

(* ================================================================== *)
(** ** Update *)

(** X17.  Whatever the directory and the mail server answer, [update]
    never adds or deletes an entry, renames no entry but the user's own
    (to the new name, within its container), and none of its
    modifications touches [userPassword]. *)
Theorem update_keeps_entries_and_password
    (cfg : Settings) (rt : Runtime) (w : World) (tr : Trace)
    (username newusername loginDisabled uidNumber gidNumber givenName
     fullName sn employeeType dNumber x500UniqueIdentifier ou
     businessCategory description : string) :
  exists evs,
    snd (run (update cfg rt w username newusername loginDisabled uidNumber
                gidNumber givenName fullName sn employeeType dNumber
                x500UniqueIdentifier ou businessCategory description) tr)
    = (tr ++ evs)%list /\
    forallb (update_allowed cfg username newusername) evs = true.
Proof.
  exact (update_emits cfg rt w username newusername loginDisabled uidNumber
           gidNumber givenName fullName sn employeeType dNumber
           x500UniqueIdentifier ou businessCategory description tr).
Qed.

Lemma UserType_eqb_refl (a : UserType) : UserType_eqb a a = true.
Proof. now destruct a. Qed.

(** X18.  The rename step of an Update between two names of one
    category, when the new name is free and the directory accepts the
    calls: one search for the new name, one rename of the entry, one
    addition of the new name to [memberUid] of the category group, one
    search of that group, one removal per listed occurrence of the old
    name, and then the notification (one to three SMTP calls, whatever
    the mail server does). *)
Theorem rename_within_category
    (cfg : Settings) (w : World) (username newusername found_dn : string)
    (attrs : list (string * list string)) (others : list Entry)
    (members : list string) (tr : Trace) :
  username <> newusername ->
  getUserType cfg username = getUserType cfg newusername ->
  ldap_search w tr (baseDN cfg) SCOPE_SUBTREE ("cn=" ++ newusername) ["dn"]
  = Some [] ->
  let dn := buildDN cfg username in
  let gn := general_group cfg (getUserType cfg username) in
  let gdn := general_group_dn cfg username in
  let rename := RenameS dn ("cn=" ++ newusername) None in
  let add := ModifyS gdn [(MOD_ADD, "memberUid", newusername)] in
  ldap_ok w (tr ++ [existence_search cfg newusername])%list rename = true ->
  (forall h mods, ldap_ok w h (ModifyS gdn mods) = true) ->
  ldap_search w (tr ++ [existence_search cfg newusername; rename; add])%list
    (baseDN cfg) SCOPE_SUBTREE ("cn=" ++ gn) ["memberUid"]
  = Some ((found_dn, attrs) :: others) ->
  Py.dict_get attrs "memberUid" = Some members ->
  exists n,
    1 <= n <= 3 /\
    run (update_rename cfg w username newusername) tr
    = (Ret (Continue tt),
       (tr
        ++ [existence_search cfg newusername; rename; add;
            SearchS (baseDN cfg) SCOPE_SUBTREE ("cn=" ++ gn) ["memberUid"]]
        ++ List.repeat (ModifyS gdn [(MOD_DELETE, "memberUid", username)])
                       (count_occ string_dec members username)
        ++ firstn n
             (mail_calls cfg (FROM cfg) (TO cfg)
                ("eDir user renamed: " ++ dn ++ " to " ++ newusername)
                rename_mail_text))%list).
Proof.
  intros Hname Htype Hnew dn gn gdn rename add Hren Hmod Hsearch Hattr.
  subst dn gn gdn rename add. unfold general_group_dn in *.
  pose proof (findUser_absent cfg w newusername tr Hnew) as Hfind.
  assert (Hassoc : forall (a b c : Event),
            (((tr ++ [a]) ++ [b]) ++ [c])%list = (tr ++ [a; b; c])%list)
    by (intros; now rewrite <- !app_assoc).
  rewrite <- Hassoc in Hsearch.
  destruct (delMemberUid_run cfg w _ _ username
              found_dn attrs others members _ Hsearch Hattr Hmod)
    as (Hgroup & _).
  match type of Hgroup with
  | _ = (_, ?t) => set (tr4 := t) in *
  end.
  destruct (sendMail_run cfg w (FROM cfg) (TO cfg)
              ("eDir user renamed: " ++ buildDN cfg username ++ " to "
               ++ newusername)
              rename_mail_text tr4) as (n & Hmail & Hn).
  exists n. split; [exact Hn|].
  unfold run in *. unfold update_rename.
  destruct (String.eqb_spec username newusername) as [|_]; [contradiction|].
  cbn [negb]. rewrite Htype, UserType_eqb_refl. cbn [negb].
  unfold bind at 1, try_except.
  unfold rename_entry, bind at 1. rewrite Hfind.
  unfold bind at 1, ldap_call at 1. rewrite Hren.
  cbv beta iota zeta.
  unfold bind at 1, ldap_call at 1. rewrite Hmod.
  unfold bind at 1. rewrite <- Htype. rewrite Hgroup.
  cbn [ret]. unfold bind. unfold rename_mail_text in Hmail.
  rewrite Hmail. unfold ret. f_equal.
  subst tr4. rewrite <- !app_assoc. reflexivity.
Qed.

Lemma rename_within_category_witness :
  "jdoe" <> "jdoe2" /\
  getUserType example_settings "jdoe" = getUserType example_settings "jdoe2" /\
  ldap_search jdoe_directory [] "o=DA" SCOPE_SUBTREE "cn=jdoe2" ["dn"]
  = Some [] /\
  ldap_ok jdoe_directory [existence_search example_settings "jdoe2"]
    (RenameS "cn=jdoe,ou=Employees,o=DA" "cn=jdoe2" None) = true /\
  (forall h mods,
     ldap_ok jdoe_directory h
       (ModifyS "cn=Emp_GeneralMac_Users,ou=Resources,o=DA" mods) = true) /\
  ldap_search jdoe_directory
    [ existence_search example_settings "jdoe2";
      RenameS "cn=jdoe,ou=Employees,o=DA" "cn=jdoe2" None;
      ModifyS "cn=Emp_GeneralMac_Users,ou=Resources,o=DA"
              [(MOD_ADD, "memberUid", "jdoe2")] ]
    "o=DA" SCOPE_SUBTREE "cn=Emp_GeneralMac_Users" ["memberUid"]
  = Some [("cn=Emp_GeneralMac_Users,ou=Resources,o=DA",
           [("memberUid", ["jdoe"])])] /\
  Py.dict_get [("memberUid", ["jdoe"])] "memberUid" = Some ["jdoe"] /\
  exists n,
    1 <= n <= 3 /\
    run (update_rename example_settings jdoe_directory "jdoe" "jdoe2") []
    = (Ret (Continue tt),
       ([ existence_search example_settings "jdoe2";
          RenameS "cn=jdoe,ou=Employees,o=DA" "cn=jdoe2" None;
          ModifyS "cn=Emp_GeneralMac_Users,ou=Resources,o=DA"
                  [(MOD_ADD, "memberUid", "jdoe2")];
          SearchS "o=DA" SCOPE_SUBTREE "cn=Emp_GeneralMac_Users"
                  ["memberUid"] ]
        ++ [ModifyS "cn=Emp_GeneralMac_Users,ou=Resources,o=DA"
                    [(MOD_DELETE, "memberUid", "jdoe")]]
        ++ firstn n
             (mail_calls example_settings "user@server.domain.edu"
                "user@domain.edu"
                "eDir user renamed: cn=jdoe,ou=Employees,o=DA to jdoe2"
                rename_mail_text))%list).
Proof.
  assert (Hname : "jdoe" <> "jdoe2") by discriminate.
  assert (Htype : getUserType example_settings "jdoe"
                  = getUserType example_settings "jdoe2") by reflexivity.
  assert (Hnew :
    ldap_search jdoe_directory [] (baseDN example_settings) SCOPE_SUBTREE
      ("cn=" ++ "jdoe2") ["dn"] = Some []) by reflexivity.
  assert (Hren :
    ldap_ok jdoe_directory
      ([] ++ [existence_search example_settings "jdoe2"])%list
      (RenameS (buildDN example_settings "jdoe") ("cn=" ++ "jdoe2") None)
    = true) by reflexivity.
  assert (Hmod : forall h mods,
     ldap_ok jdoe_directory h
       (ModifyS (general_group_dn example_settings "jdoe") mods) = true)
    by (intros; reflexivity).
  assert (Hsearch :
    ldap_search jdoe_directory
      ([] ++ [ existence_search example_settings "jdoe2";
               RenameS (buildDN example_settings "jdoe") ("cn=" ++ "jdoe2")
                       None;
               ModifyS (general_group_dn example_settings "jdoe")
                       [(MOD_ADD, "memberUid", "jdoe2")] ])%list
      (baseDN example_settings) SCOPE_SUBTREE
      ("cn=" ++ general_group example_settings
                  (getUserType example_settings "jdoe"))
      ["memberUid"]
    = Some [("cn=Emp_GeneralMac_Users,ou=Resources,o=DA",
             [("memberUid", ["jdoe"])])]) by (vm_compute; reflexivity).
  assert (Hattr : Py.dict_get [("memberUid", ["jdoe"])] "memberUid"
                  = Some ["jdoe"]) by reflexivity.
  pose proof (rename_within_category example_settings jdoe_directory
                "jdoe" "jdoe2" _ _ _ _ []
                Hname Htype Hnew Hren Hmod Hsearch Hattr) as Hrun.
  repeat (split; [assumption|]).
  exact Hrun.
Defined.

(** X19.  An Update that renames to a name the existence search already
    finds returns the name-taken error after that search: nothing is
    renamed or modified and no mail is sent. *)
Theorem rename_to_taken_name
    (cfg : Settings) (rt : Runtime) (w : World) (tr tr1 tr2 : Trace)
    (entry : Entry) (others : list Entry)
    (username newusername loginDisabled uidNumber gidNumber givenName
     fullName sn employeeType dNumber x500UniqueIdentifier ou
     businessCategory description : string) :
  all_given (update_params username newusername loginDisabled uidNumber
               gidNumber givenName fullName sn employeeType dNumber
               x500UniqueIdentifier ou businessCategory description)
  = true ->
  username <> newusername ->
  getUserType cfg username = getUserType cfg newusername ->
  run (ldapConnect cfg w) tr = (Ret true, tr1) ->
  run (findUser cfg w username) tr1 = (Ret true, tr2) ->
  ldap_search w tr2 (baseDN cfg) SCOPE_SUBTREE ("cn=" ++ newusername) ["dn"]
  = Some (entry :: others) ->
  run (update cfg rt w username newusername loginDisabled uidNumber
         gidNumber givenName fullName sn employeeType dNumber
         x500UniqueIdentifier ou businessCategory description) tr
  = (Ret "ERROR: username already taken!",
     (tr2 ++ [existence_search cfg newusername])%list).
Proof.
  intros Hu Hname Htype Hconn Hfind Hnew.
  pose proof (findUser_found cfg w newusername tr2 entry others Hnew) as Hf2.
  unfold run in *. unfold update. rewrite (all_given_first_missing rt _ Hu).
  unfold bind at 1. rewrite Hconn. cbn [negb].
  unfold bind at 1. rewrite Hfind. cbn [negb].
  unfold update_existing, bind at 1, update_rename.
  destruct (String.eqb_spec username newusername) as [|_]; [contradiction|].
  cbn [negb]. rewrite Htype, UserType_eqb_refl. cbn [negb].
  unfold bind at 1, try_except.
  unfold rename_entry, bind at 1. rewrite Hf2. reflexivity.
Qed.

Lemma rename_to_taken_name_witness :
  all_given (update_params "jdoe" "asmith" "False" "15549" "15549" "John"
               "John Doe" "Doe" "ADM" "D01234567" "44EFB5C72" "History"
               role_staff "note") = true /\
  "jdoe" <> "asmith" /\
  getUserType example_settings "jdoe" = getUserType example_settings "asmith" /\
  run (ldapConnect example_settings two_users_directory) []
  = (Ret true, bind_calls example_settings) /\
  run (findUser example_settings two_users_directory "jdoe")
      (bind_calls example_settings)
  = (Ret true,
     (bind_calls example_settings
      ++ [existence_search example_settings "jdoe"])%list) /\
  ldap_search two_users_directory
    (bind_calls example_settings
     ++ [existence_search example_settings "jdoe"])%list
    "o=DA" SCOPE_SUBTREE "cn=asmith" ["dn"]
  = Some [("cn=asmith,ou=Employees,o=DA", [])] /\
  run (update example_settings insertion_order_runtime two_users_directory
         "jdoe" "asmith" "False" "15549" "15549" "John" "John Doe" "Doe"
         "ADM" "D01234567" "44EFB5C72" "History" role_staff "note") []
  = (Ret "ERROR: username already taken!",
     (bind_calls example_settings
      ++ [existence_search example_settings "jdoe";
          existence_search example_settings "asmith"])%list).
Proof.
  assert (Hu : all_given (update_params "jdoe" "asmith" "False" "15549"
               "15549" "John" "John Doe" "Doe" "ADM" "D01234567" "44EFB5C72"
               "History" role_staff "note") = true) by reflexivity.
  assert (Hname : "jdoe" <> "asmith") by discriminate.
  assert (Htype : getUserType example_settings "jdoe"
                  = getUserType example_settings "asmith") by reflexivity.
  assert (Hconn : run (ldapConnect example_settings two_users_directory) []
                  = (Ret true, bind_calls example_settings))
    by reflexivity.
  assert (Hfind :
    run (findUser example_settings two_users_directory "jdoe")
        (bind_calls example_settings)
    = (Ret true,
       (bind_calls example_settings
        ++ [existence_search example_settings "jdoe"])%list))
    by reflexivity.
  assert (Hnew :
    ldap_search two_users_directory
      (bind_calls example_settings
       ++ [existence_search example_settings "jdoe"])%list
      (baseDN example_settings) SCOPE_SUBTREE ("cn=" ++ "asmith") ["dn"]
    = Some [("cn=asmith,ou=Employees,o=DA", [])])
    by (vm_compute; reflexivity).
  pose proof (rename_to_taken_name example_settings insertion_order_runtime
                two_users_directory [] _ _ _ _
                "jdoe" "asmith" "False" "15549" "15549" "John" "John Doe"
                "Doe" "ADM" "D01234567" "44EFB5C72" "History" role_staff
                "note" Hu Hname Htype Hconn Hfind Hnew) as Hrun.
  repeat (split; [assumption|]).
  exact Hrun.
Defined.

(** X20.  When the directory refuses the rename, the Update returns the
    could-not-rename error at once: no group is touched, no mail is sent
    and no attribute is updated. *)
Theorem rename_refused
    (cfg : Settings) (rt : Runtime) (w : World) (tr tr1 tr2 : Trace)
    (username newusername loginDisabled uidNumber gidNumber givenName
     fullName sn employeeType dNumber x500UniqueIdentifier ou
     businessCategory description : string) :
  all_given (update_params username newusername loginDisabled uidNumber
               gidNumber givenName fullName sn employeeType dNumber
               x500UniqueIdentifier ou businessCategory description)
  = true ->
  username <> newusername ->
  getUserType cfg username = getUserType cfg newusername ->
  run (ldapConnect cfg w) tr = (Ret true, tr1) ->
  run (findUser cfg w username) tr1 = (Ret true, tr2) ->
  ldap_search w tr2 (baseDN cfg) SCOPE_SUBTREE ("cn=" ++ newusername) ["dn"]
  = Some [] ->
  let rename := RenameS (buildDN cfg username) ("cn=" ++ newusername) None in
  ldap_ok w (tr2 ++ [existence_search cfg newusername])%list rename = false ->
  run (update cfg rt w username newusername loginDisabled uidNumber
         gidNumber givenName fullName sn employeeType dNumber
         x500UniqueIdentifier ou businessCategory description) tr
  = (Ret "ERROR: Could not rename eDir user",
     (tr2 ++ [existence_search cfg newusername; rename])%list).
Proof.
  intros Hu Hname Htype Hconn Hfind Hnew rename Hren.
  pose proof (findUser_absent cfg w newusername tr2 Hnew) as Hf2.
  unfold run in *. unfold update. rewrite (all_given_first_missing rt _ Hu).
  unfold bind at 1. rewrite Hconn. cbn [negb].
  unfold bind at 1. rewrite Hfind. cbn [negb].
  unfold update_existing, bind at 1, update_rename.
  destruct (String.eqb_spec username newusername) as [|_]; [contradiction|].
  cbn [negb]. rewrite Htype, UserType_eqb_refl. cbn [negb].
  unfold bind at 1, try_except.
  unfold rename_entry, bind at 1. rewrite Hf2.
  unfold bind at 1, ldap_call at 1. fold rename. rewrite Hren.
  cbv beta iota. now rewrite <- app_assoc.
Qed.

Lemma rename_refused_witness :
  all_given (update_params "jdoe" "jdoe2" "False" "15549" "15549" "John"
               "John Doe" "Doe" "ADM" "D01234567" "44EFB5C72" "History"
               role_staff "note") = true /\
  "jdoe" <> "jdoe2" /\
  getUserType example_settings "jdoe" = getUserType example_settings "jdoe2" /\
  run (ldapConnect example_settings rename_refused_directory) []
  = (Ret true, bind_calls example_settings) /\
  run (findUser example_settings rename_refused_directory "jdoe")
      (bind_calls example_settings)
  = (Ret true,
     (bind_calls example_settings
      ++ [existence_search example_settings "jdoe"])%list) /\
  ldap_search rename_refused_directory
    (bind_calls example_settings
     ++ [existence_search example_settings "jdoe"])%list
    "o=DA" SCOPE_SUBTREE "cn=jdoe2" ["dn"] = Some [] /\
  ldap_ok rename_refused_directory
    ((bind_calls example_settings
      ++ [existence_search example_settings "jdoe"])
     ++ [existence_search example_settings "jdoe2"])%list
    (RenameS "cn=jdoe,ou=Employees,o=DA" "cn=jdoe2" None) = false /\
  run (update example_settings insertion_order_runtime
         rename_refused_directory
         "jdoe" "jdoe2" "False" "15549" "15549" "John" "John Doe" "Doe"
         "ADM" "D01234567" "44EFB5C72" "History" role_staff "note") []
  = (Ret "ERROR: Could not rename eDir user",
     (bind_calls example_settings
      ++ [existence_search example_settings "jdoe";
          existence_search example_settings "jdoe2";
          RenameS "cn=jdoe,ou=Employees,o=DA" "cn=jdoe2" None])%list).
Proof.
  assert (Hu : all_given (update_params "jdoe" "jdoe2" "False" "15549"
               "15549" "John" "John Doe" "Doe" "ADM" "D01234567" "44EFB5C72"
               "History" role_staff "note") = true) by reflexivity.
  assert (Hname : "jdoe" <> "jdoe2") by discriminate.
  assert (Htype : getUserType example_settings "jdoe"
                  = getUserType example_settings "jdoe2") by reflexivity.
  assert (Hconn :
    run (ldapConnect example_settings rename_refused_directory) []
    = (Ret true, bind_calls example_settings)) by reflexivity.
  assert (Hfind :
    run (findUser example_settings rename_refused_directory "jdoe")
        (bind_calls example_settings)
    = (Ret true,
       (bind_calls example_settings
        ++ [existence_search example_settings "jdoe"])%list))
    by reflexivity.
  assert (Hnew :
    ldap_search rename_refused_directory
      (bind_calls example_settings
       ++ [existence_search example_settings "jdoe"])%list
      (baseDN example_settings) SCOPE_SUBTREE ("cn=" ++ "jdoe2") ["dn"]
    = Some []) by (vm_compute; reflexivity).
  assert (Hren :
    ldap_ok rename_refused_directory
      ((bind_calls example_settings
        ++ [existence_search example_settings "jdoe"])
       ++ [existence_search example_settings "jdoe2"])%list
      (RenameS (buildDN example_settings "jdoe") ("cn=" ++ "jdoe2") None)
    = false) by reflexivity.
  pose proof (rename_refused example_settings insertion_order_runtime
                rename_refused_directory [] _ _
                "jdoe" "jdoe2" "False" "15549" "15549" "John" "John Doe"
                "Doe" "ADM" "D01234567" "44EFB5C72" "History" role_staff
                "note" Hu Hname Htype Hconn Hfind Hnew Hren) as Hrun.
  repeat (split; [assumption|]).
  exact Hrun.
Defined.

(* ================================================================== *)
(** ** The batch loop *)

Section Results.






End Results.



Section BatchLoop.
Variable cfg : Settings.
Variable rt : Runtime.
Variable w : World.







End BatchLoop.


Section Records.
Variable cfg : Settings.
Variable rt : Runtime.
Variable w : World.

(** When a turn of the loop raises before any call, the batch ends with
    the header row alone. *)
Lemma main_ends_at_first_record (row : Row) (rest : list Row) (tr : Trace)
      (e : PyExn) :
  (forall tr0, run (process_row cfg rt w row) tr0 = (Raise e, tr0)) ->
  run (main cfg rt w (row :: rest)) tr
  = (Ret tt,
     (tr ++ [WriteRow (JStr "action") (JStr "username") "result"])%list).
Proof.
  intros Hrow. unfold run in *.
  unfold main, try_except, bind at 1, writerow at 1.
  cbn [for_each]. unfold bind at 1. rewrite Hrow. reflexivity.
Qed.

End Records.



(** X23.  A record without the [action] key, or a delete or archive
    record without the [username] key, raises [KeyError] out of the loop:
    when it is the first record of the batch the output holds the header
    row alone, no call is made, and the records after it are not
    processed. *)
Theorem record_without_key_ends_batch
    (cfg : Settings) (rt : Runtime) (w : World) (row : Row)
    (rest : list Row) (tr : Trace) :
  Py.dict_get row "action" = None \/
  (exists name,
     Py.dict_get row "action" = Some (JStr name) /\
     In name ["delete"; "archive"] /\
     Py.dict_get row "username" = None) ->
  run (main cfg rt w (row :: rest)) tr
  = (Ret tt,
     (tr ++ [WriteRow (JStr "action") (JStr "username") "result"])%list).
Proof.
  intros H. apply (main_ends_at_first_record cfg rt w row rest tr KeyError).
  intros tr0. unfold run, process_row, bind at 1, dispatch.
  destruct H as [Hnone|(name & Haction & Hin & Huser)].
  - unfold bind at 1, action_is, bind at 1, getitem. rewrite Hnone.
    reflexivity.
  - unfold action_is, str_field, bind, getitem. rewrite Haction, Huser.
    cbn [ret].
    cbn in Hin. destruct Hin as [<-|[<-|[]]]; reflexivity.
Qed.

Lemma record_without_key_ends_batch_witness :
  (Py.dict_get keyless_row "action" = None \/
   (exists name,
      Py.dict_get keyless_row "action" = Some (JStr name) /\
      In name ["delete"; "archive"] /\
      Py.dict_get keyless_row "username" = None)) /\
  run (main example_settings insertion_order_runtime jdoe_directory
         [keyless_row; batch_row "delete" "jdoe" "History"]) []
  = (Ret tt, [WriteRow (JStr "action") (JStr "username") "result"]).
Proof.
  assert (H : Py.dict_get keyless_row "action" = None \/
   (exists name,
      Py.dict_get keyless_row "action" = Some (JStr name) /\
      In name ["delete"; "archive"] /\
      Py.dict_get keyless_row "username" = None))
    by (left; reflexivity).
  split; [exact H|].
  exact (record_without_key_ends_batch example_settings
           insertion_order_runtime jdoe_directory keyless_row
           [batch_row "delete" "jdoe" "History"] [] H).
Defined.

(** X24.  A delete or archive record whose user name holds a character
    above 127 makes [str] raise [UnicodeEncodeError] before any call:
    when it is the first record of the batch the output holds the header
    row alone and the records after it are not processed. *)
Theorem non_ascii_username_ends_batch
    (cfg : Settings) (rt : Runtime) (w : World) (row : Row)
    (rest : list Row) (tr : Trace) (name username : string) :
  Py.dict_get row "action" = Some (JStr name) ->
  In name ["delete"; "archive"] ->
  Py.dict_get row "username" = Some (JStr username) ->
  Py.is_ascii username = false ->
  run (main cfg rt w (row :: rest)) tr
  = (Ret tt,
     (tr ++ [WriteRow (JStr "action") (JStr "username") "result"])%list).
Proof.
  intros Haction Hin Huser Hascii.
  apply (main_ends_at_first_record cfg rt w row rest tr UnicodeEncodeError).
  intros tr0. unfold run, process_row, bind at 1, dispatch.
  unfold action_is, str_field, bind, getitem. rewrite Haction, Huser.
  cbn [ret]. rewrite Hascii.
  cbn in Hin. destruct Hin as [<-|[<-|[]]]; reflexivity.
Qed.

Lemma non_ascii_username_ends_batch_witness :
  Py.dict_get accented_row "action" = Some (JStr "delete") /\
  In "delete" ["delete"; "archive"] /\
  Py.dict_get accented_row "username"
  = Some (JStr (String (Ascii.ascii_of_nat 233) "mile")) /\
  Py.is_ascii (String (Ascii.ascii_of_nat 233) "mile") = false /\
  run (main example_settings insertion_order_runtime jdoe_directory
         [accented_row; batch_row "delete" "jdoe" "History"]) []
  = (Ret tt, [WriteRow (JStr "action") (JStr "username") "result"]).
Proof.
  assert (Haction : Py.dict_get accented_row "action" = Some (JStr "delete"))
    by reflexivity.
  assert (Hin : In "delete" ["delete"; "archive"]) by (left; reflexivity).
  assert (Huser : Py.dict_get accented_row "username"
                  = Some (JStr (String (Ascii.ascii_of_nat 233) "mile")))
    by reflexivity.
  assert (Hascii :
    Py.is_ascii (String (Ascii.ascii_of_nat 233) "mile") = false)
    by reflexivity.
  repeat (split; [assumption|]).
  exact (non_ascii_username_ends_batch example_settings
           insertion_order_runtime jdoe_directory accented_row
           [batch_row "delete" "jdoe" "History"] [] _ _
           Haction Hin Huser Hascii).
Defined.

(* ================================================================== *)
(** ** Edges of the classifier and of the checks *)

(** X25.  With a non-empty guest pattern, a user name is classified as
    Guest only if it is the guest pattern followed by exactly four
    characters and the student pattern does not occur in it. *)
Theorem guest_names_shape (cfg : Settings) (username : string) :
  GSTPATTERN cfg <> "" ->
  getUserType cfg username = GST ->
  (exists suffix,
     username = GSTPATTERN cfg ++ suffix /\ String.length suffix = 4) /\
  ~ occurs_in (STUPATTERN cfg) username.
Proof.
  intros Hpat Ht. unfold getUserType in Ht.
  destruct (Py.str_in (STUPATTERN cfg) username) eqn:Hstu; [discriminate|].
  destruct (String.eqb_spec (GSTPATTERN cfg) (Py.slice username 0 (-4)))
    as [Heq|]; [|discriminate].
  split.
  - apply PyFacts.strip_last4_iff in Heq.
    destruct Heq as (suffix & Hs & Hlen).
    exists suffix. split; [exact Hs|].
    assert (Hl : String.length username
                 = String.length (GSTPATTERN cfg) + String.length suffix)
      by (rewrite Hs at 1; apply PyFacts.length_app).
    destruct (GSTPATTERN cfg) as [|c g] eqn:Hg; [contradiction|].
    cbn [String.length] in Hl. lia.
  - intros Hocc. apply PyFacts.str_in_iff in Hocc. congruence.
Qed.

Lemma guest_names_shape_witness :
  GSTPATTERN example_settings <> "" /\
  getUserType example_settings "gst0001" = GST /\
  (exists suffix,
     "gst0001" = GSTPATTERN example_settings ++ suffix /\
     String.length suffix = 4).
Proof.
  assert (Hpat : GSTPATTERN example_settings <> "") by discriminate.
  assert (Ht : getUserType example_settings "gst0001" = GST) by reflexivity.
  repeat (split; [assumption|]).
  exact (proj1 (guest_names_shape example_settings "gst0001" Hpat Ht)).
Defined.

(** X26.  With an empty student pattern, as in the settings file as
    shipped, every user name is classified as Student, so there are no
    guests and no employees. *)
Theorem empty_student_pattern_matches_everyone
    (cfg : Settings) (username : string) :
  STUPATTERN cfg = "" ->
  getUserType cfg username = STU /\
  buildDN cfg username = "cn=" ++ username ++ STUDENTOU cfg.
Proof.
  intros Hpat.
  assert (Ht : getUserType cfg username = STU).
  { unfold getUserType. rewrite Hpat.
    assert (H : Py.str_in "" username = true)
      by (apply PyFacts.str_in_iff; exists "", username; reflexivity).
    now rewrite H. }
  split; [exact Ht|]. unfold buildDN. now rewrite Ht.
Qed.

Lemma empty_student_pattern_matches_everyone_witness :
  STUPATTERN shipped_settings = "" /\
  getUserType shipped_settings "gst0001" = STU /\
  buildDN shipped_settings "gst0001" = "cn=gst0001".
Proof.
  assert (Hpat : STUPATTERN shipped_settings = "") by reflexivity.
  split; [exact Hpat|].
  exact (empty_student_pattern_matches_everyone shipped_settings "gst0001"
           Hpat).
Defined.

(** X27.  When the search for the disabled flag gives nothing to read
    (the search raises, it finds no entry, the first entry has no
    [loginDisabled] attribute, or the attribute has no value), Archive
    and Delete do not return a result: an exception other than
    [ldap.LDAPError] leaves the action, after the bind and the two
    searches and before any mutation. *)
Theorem unreadable_disabled_flag_raises
    (cfg : Settings) (w : World) (username : string) (tr tr1 tr2 : Trace) :
  username <> "" ->
  run (ldapConnect cfg w) tr = (Ret true, tr1) ->
  run (findUser cfg w username) tr1 = (Ret true, tr2) ->
  let reply :=
    ldap_search w tr2 (baseDN cfg) SCOPE_SUBTREE ("cn=" ++ username)
                ["loginDisabled"] in
  (reply = None \/ reply = Some [] \/
   exists dn attrs others,
     reply = Some ((dn, attrs) :: others) /\
     (Py.dict_get attrs "loginDisabled" = None \/
      Py.dict_get attrs "loginDisabled" = Some [])) ->
  exists e,
    e <> LDAPError /\
    In e [UnboundLocalError; IndexError; KeyError] /\
    let tr3 :=
      (tr2 ++ [SearchS (baseDN cfg) SCOPE_SUBTREE ("cn=" ++ username)
                       ["loginDisabled"]])%list in
    run (archive cfg w username) tr = (Raise e, tr3) /\
    run (delete cfg w username) tr = (Raise e, tr3).
Proof.
  intros Hname Hconn Hfind reply Hreply.
  assert (Hne : String.eqb username "" = false) by (now apply String.eqb_neq).
  assert (Hdis : exists e,
    e <> LDAPError /\ In e [UnboundLocalError; IndexError; KeyError] /\
    userDisabled cfg w username tr2
    = (Raise e,
       (tr2 ++ [SearchS (baseDN cfg) SCOPE_SUBTREE ("cn=" ++ username)
                        ["loginDisabled"]])%list)).
  { unfold userDisabled, try_except, bind at 1, bind at 1, search_s.
    fold reply.
    destruct Hreply as [->|[->|(dn & attrs & others & -> & Hattr)]].
    - exists UnboundLocalError. cbn. intuition discriminate.
    - exists IndexError. cbn. intuition discriminate.
    - destruct Hattr as [Hattr|Hattr].
      + exists KeyError. cbn [ret index0 snd]. unfold bind, getitem.
        cbn [ret snd]. rewrite Hattr. cbn. intuition discriminate.
      + exists IndexError. cbn [ret index0 snd]. unfold bind, getitem.
        cbn [ret snd]. rewrite Hattr. cbn. intuition discriminate. }
  destruct Hdis as (e & He & Hin & Hdis).
  exists e. split; [exact He|]. split; [exact Hin|].
  unfold run in *. split.
  - unfold archive. rewrite Hne.
    unfold bind at 1. rewrite Hconn. cbn [negb].
    unfold bind at 1. rewrite Hfind. cbn [negb].
    unfold archive_existing, bind at 1. now rewrite Hdis.
  - unfold delete. rewrite Hne.
    unfold bind at 1. rewrite Hconn. cbn [negb].
    unfold bind at 1. rewrite Hfind. cbn [negb].
    unfold delete_existing, bind at 1. now rewrite Hdis.
Qed.

Lemma unreadable_disabled_flag_raises_witness :
  "testuserj" <> "" /\
  run (ldapConnect example_settings printer_directory) []
  = (Ret true, bind_calls example_settings) /\
  run (findUser example_settings printer_directory "testuserj")
      (bind_calls example_settings)
  = (Ret true,
     (bind_calls example_settings
      ++ [existence_search example_settings "testuserj"])%list) /\
  ldap_search printer_directory
    (bind_calls example_settings
     ++ [existence_search example_settings "testuserj"])%list
    "o=DA" SCOPE_SUBTREE "cn=testuserj" ["loginDisabled"]
  = Some [("cn=testuserj,ou=Printers,ou=Resources,o=DA", [])] /\
  exists e,
    e <> LDAPError /\
    run (delete example_settings printer_directory "testuserj") []
    = (Raise e,
       (bind_calls example_settings
        ++ [existence_search example_settings "testuserj";
            SearchS "o=DA" SCOPE_SUBTREE "cn=testuserj"
                    ["loginDisabled"]])%list).
Proof.
  assert (Hname : "testuserj" <> "") by discriminate.
  assert (Hconn : run (ldapConnect example_settings printer_directory) []
                  = (Ret true, bind_calls example_settings))
    by reflexivity.
  assert (Hfind :
    run (findUser example_settings printer_directory "testuserj")
        (bind_calls example_settings)
    = (Ret true,
       (bind_calls example_settings
        ++ [existence_search example_settings "testuserj"])%list))
    by reflexivity.
  assert (Hsearch :
    ldap_search printer_directory
      (bind_calls example_settings
       ++ [existence_search example_settings "testuserj"])%list
      (baseDN example_settings) SCOPE_SUBTREE ("cn=" ++ "testuserj")
      ["loginDisabled"]
    = Some [("cn=testuserj,ou=Printers,ou=Resources,o=DA", [])])
    by (vm_compute; reflexivity).
  repeat (split; [assumption|]).
  destruct (unreadable_disabled_flag_raises example_settings
              printer_directory "testuserj" [] _ _ Hname Hconn Hfind)
    as (e & He & _ & _ & Hdelete).
  { right. right.
    exists "cn=testuserj,ou=Printers,ou=Resources,o=DA", [], [].
    split; [exact Hsearch | left; reflexivity]. }
  exists e. split; [exact He|exact Hdelete].
Defined.

(** X28.  When the existence search raises, none of the four actions
    returns a result: [UnboundLocalError] leaves the action right after
    the bind and that one search. *)
Theorem failed_existence_search_raises
    (cfg : Settings) (rt : Runtime) (w : World) (tr tr1 : Trace)
    (username newusername loginDisabled uidNumber gidNumber givenName
     fullName sn employeeType dNumber x500UniqueIdentifier ou
     businessCategory userPassword description : string) :
  all_given (create_params username loginDisabled uidNumber gidNumber
               givenName fullName sn employeeType dNumber
               x500UniqueIdentifier ou businessCategory userPassword
               description) = true ->
  all_given (update_params username newusername loginDisabled uidNumber
               gidNumber givenName fullName sn employeeType dNumber
               x500UniqueIdentifier ou businessCategory description)
  = true ->
  run (ldapConnect cfg w) tr = (Ret true, tr1) ->
  ldap_search w tr1 (baseDN cfg) SCOPE_SUBTREE ("cn=" ++ username) ["dn"]
  = None ->
  let tr2 := (tr1 ++ [existence_search cfg username])%list in
  run (create cfg rt w username loginDisabled uidNumber gidNumber givenName
         fullName sn employeeType dNumber x500UniqueIdentifier ou
         businessCategory userPassword description) tr
  = (Raise UnboundLocalError, tr2) /\
  run (update cfg rt w username newusername loginDisabled uidNumber
         gidNumber givenName fullName sn employeeType dNumber
         x500UniqueIdentifier ou businessCategory description) tr
  = (Raise UnboundLocalError, tr2) /\
  run (archive cfg w username) tr = (Raise UnboundLocalError, tr2) /\
  run (delete cfg w username) tr = (Raise UnboundLocalError, tr2).
Proof.
  intros Hc Hu Hconn Hsearch tr2.
  assert (Hname : String.eqb username "" = false).
  { eapply params_username_nonempty;
      [|exact (all_given_no_empty _ Hc)]. now left. }
  pose proof (findUser_search_fails cfg w username tr1 Hsearch) as Hfind.
  fold tr2 in Hfind.
  unfold run in *. repeat split.
  - unfold create. rewrite (all_given_first_missing rt _ Hc).
    unfold bind at 1. rewrite Hconn. cbn [negb].
    unfold bind at 1. now rewrite Hfind.
  - unfold update. rewrite (all_given_first_missing rt _ Hu).
    unfold bind at 1. rewrite Hconn. cbn [negb].
    unfold bind at 1. now rewrite Hfind.
  - unfold archive. rewrite Hname. unfold bind at 1. rewrite Hconn.
    cbn [negb]. unfold bind at 1. now rewrite Hfind.
  - unfold delete. rewrite Hname. unfold bind at 1. rewrite Hconn.
    cbn [negb]. unfold bind at 1. now rewrite Hfind.
Qed.

Lemma failed_existence_search_raises_witness :
  all_given (create_params "jdoe" "False" "15549" "15549" "John"
               "John Doe" "Doe" "ADM" "D01234567" "44EFB5C72" "History"
               role_staff "initial password" "note") = true /\
  all_given (update_params "jdoe" "jdoe" "False" "15549" "15549" "John"
               "John Doe" "Doe" "ADM" "D01234567" "44EFB5C72" "History"
               role_staff "note") = true /\
  run (ldapConnect example_settings search_down_directory) []
  = (Ret true, bind_calls example_settings) /\
  ldap_search search_down_directory (bind_calls example_settings) "o=DA"
    SCOPE_SUBTREE "cn=jdoe" ["dn"] = None /\
  run (archive example_settings search_down_directory "jdoe") []
  = (Raise UnboundLocalError,
     (bind_calls example_settings
      ++ [existence_search example_settings "jdoe"])%list).
Proof.
  assert (Hc : all_given (create_params "jdoe" "False" "15549" "15549" "John"
               "John Doe" "Doe" "ADM" "D01234567" "44EFB5C72" "History"
               role_staff "initial password" "note") = true)
    by reflexivity.
  assert (Hu : all_given (update_params "jdoe" "jdoe" "False" "15549"
               "15549" "John" "John Doe" "Doe" "ADM" "D01234567" "44EFB5C72"
               "History" role_staff "note") = true)
    by reflexivity.
  assert (Hconn : run (ldapConnect example_settings search_down_directory) []
                  = (Ret true, bind_calls example_settings))
    by reflexivity.
  assert (Hsearch :
    ldap_search search_down_directory (bind_calls example_settings)
      (baseDN example_settings) SCOPE_SUBTREE ("cn=" ++ "jdoe") ["dn"]
    = None) by reflexivity.
  pose proof (failed_existence_search_raises example_settings
                insertion_order_runtime search_down_directory [] _
                "jdoe" "jdoe" "False" "15549" "15549" "John" "John Doe"
                "Doe" "ADM" "D01234567" "44EFB5C72" "History" role_staff
                "initial password" "note" Hc Hu Hconn Hsearch)
    as (_ & _ & Harchive & _).
  repeat (split; [assumption|]).
  exact Harchive.
Defined.

Section PartialUpdate.
Variable cfg : Settings.
Variable w : World.

Lemma delete_markers_accepted (dn : string) (values : list string)
      (tr : Trace) :
  (forall h v, ldap_ok w h (delete_role_value dn v) = true) ->
  run (for_each values (fun value =>
         if Py.str_in (ARUBAPATTERN cfg) value
         then ldap_call w (ModifyS dn [(MOD_DELETE, "businessCategory", value)])
         else ret tt)) tr
  = (Ret tt,
     (tr ++ List.map (delete_role_value dn)
              (List.filter (Py.str_in (ARUBAPATTERN cfg)) values))%list).
Proof.
  intros Hok. revert tr.
  induction values as [|v values IH]; intros tr.
  - unfold run. simpl. unfold ret. now rewrite app_nil_r.
  - unfold run in *. cbn [for_each List.filter]. unfold bind at 1.
    destruct (Py.str_in (ARUBAPATTERN cfg) v).
    + unfold ldap_call at 1. fold (delete_role_value dn v).
      rewrite Hok. rewrite IH. cbn [List.map].
      now rewrite <- app_assoc.
    + unfold ret at 1. apply IH.
Qed.

End PartialUpdate.

(** X29.  An Update is not atomic.  When the directory accepts the
    deletions of the role marker values and then refuses the modification
    that replaces the profile attributes and adds the new role value, the
    action returns the could-not-update error with the markers already
    deleted: the deletions are not undone, the new value is not added and
    the connection is not unbound. *)
Theorem update_refused_after_markers_deleted
    (cfg : Settings) (rt : Runtime) (w : World) (tr tr1 tr2 tr3 : Trace)
    (found_dn : string) (attrs : list (string * list string))
    (others : list Entry) (values : list string)
    (username newusername loginDisabled uidNumber gidNumber givenName
     fullName sn employeeType dNumber x500UniqueIdentifier ou
     businessCategory description : string) :
  all_given (update_params username newusername loginDisabled uidNumber
               gidNumber givenName fullName sn employeeType dNumber
               x500UniqueIdentifier ou businessCategory description)
  = true ->
  run (ldapConnect cfg w) tr = (Ret true, tr1) ->
  run (findUser cfg w username) tr1 = (Ret true, tr2) ->
  run (update_rename cfg w username newusername) tr2
  = (Ret (Continue tt), tr3) ->
  ldap_search w tr3 (baseDN cfg) SCOPE_SUBTREE ("cn=" ++ newusername)
    ["businessCategory"] = Some ((found_dn, attrs) :: others) ->
  Py.dict_get attrs "businessCategory" = Some values ->
  let dn := buildDN cfg newusername in
  let replace :=
    ModifyS dn
      (update_mod_attrs cfg newusername loginDisabled uidNumber gidNumber
         givenName fullName sn employeeType dNumber x500UniqueIdentifier ou
         businessCategory description) in
  (forall h v, ldap_ok w h (delete_role_value dn v) = true) ->
  (forall h, ldap_ok w h replace = false) ->
  let markers := List.filter (Py.str_in (ARUBAPATTERN cfg)) values in
  let issued :=
    ([SearchS (baseDN cfg) SCOPE_SUBTREE ("cn=" ++ newusername)
              ["businessCategory"]]
     ++ List.map (delete_role_value dn) markers ++ [replace])%list in
  run (update cfg rt w username newusername loginDisabled uidNumber
         gidNumber givenName fullName sn employeeType dNumber
         x500UniqueIdentifier ou businessCategory description) tr
  = (Ret "ERROR: Could not update eDir user", (tr3 ++ issued)%list).
Proof.
  intros Hu Hconn Hfind Hren Hsearch Hattr dn replace Hdel Hrefused
         markers issued.
  unfold run in *. unfold update.
  rewrite (all_given_first_missing rt _ Hu).
  unfold bind at 1. rewrite Hconn. cbn [negb].
  unfold bind at 1. rewrite Hfind. cbn [negb].
  unfold update_existing, bind at 1. rewrite Hren.
  unfold update_attributes, bind at 1, try_except, bind at 1.
  unfold update_entry, bind at 1, search_s at 1. rewrite Hsearch.
  unfold bind at 1. cbn [index0 ret snd].
  unfold bind at 1, getitem. rewrite Hattr. cbn [ret].
  unfold bind at 1.
  pose proof (delete_markers_accepted cfg w dn values
                (tr3 ++ [SearchS (baseDN cfg) SCOPE_SUBTREE
                           ("cn=" ++ newusername) ["businessCategory"]])%list
                Hdel) as Hloop.
  unfold run in Hloop. fold dn. rewrite Hloop.
  unfold bind at 1, ldap_call at 1. fold replace. rewrite Hrefused.
  cbv beta iota. f_equal. unfold issued. fold markers.
  now rewrite <- !app_assoc.
Qed.

Lemma update_refused_after_markers_deleted_witness :
  all_given (update_params "jdoe" "jdoe" "False" "15549" "15549" "John"
               "John Doe" "Doe" "ADM" "D01234567" "44EFB5C72" "History"
               role_faculty "promoted") = true /\
  run (ldapConnect example_settings modify_refused_directory) []
  = (Ret true, bind_calls example_settings) /\
  run (findUser example_settings modify_refused_directory "jdoe")
      (bind_calls example_settings)
  = (Ret true,
     (bind_calls example_settings
      ++ [existence_search example_settings "jdoe"])%list) /\
  run (update_rename example_settings modify_refused_directory "jdoe" "jdoe")
      (bind_calls example_settings
       ++ [existence_search example_settings "jdoe"])%list
  = (Ret (Continue tt),
     (bind_calls example_settings
      ++ [existence_search example_settings "jdoe"])%list) /\
  ldap_search modify_refused_directory
    (bind_calls example_settings
     ++ [existence_search example_settings "jdoe"])%list
    "o=DA" SCOPE_SUBTREE "cn=jdoe" ["businessCategory"]
  = Some [("cn=jdoe,ou=Employees,o=DA",
           [("businessCategory", [role_staff; "unrelated=1"])])] /\
  Py.dict_get [("businessCategory", [role_staff; "unrelated=1"])]
              "businessCategory"
  = Some [role_staff; "unrelated=1"] /\
  (forall h v,
     ldap_ok modify_refused_directory h
       (delete_role_value "cn=jdoe,ou=Employees,o=DA" v) = true) /\
  (forall h,
     ldap_ok modify_refused_directory h
       (ModifyS "cn=jdoe,ou=Employees,o=DA"
          (update_mod_attrs example_settings "jdoe" "False" "15549" "15549"
             "John" "John Doe" "Doe" "ADM" "D01234567" "44EFB5C72"
             "History" role_faculty "promoted")) = false) /\
  run (update example_settings insertion_order_runtime
         modify_refused_directory
         "jdoe" "jdoe" "False" "15549" "15549" "John" "John Doe" "Doe"
         "ADM" "D01234567" "44EFB5C72" "History" role_faculty "promoted") []
  = (Ret "ERROR: Could not update eDir user",
     (bind_calls example_settings
      ++ [ existence_search example_settings "jdoe";
           SearchS "o=DA" SCOPE_SUBTREE "cn=jdoe" ["businessCategory"];
           ModifyS "cn=jdoe,ou=Employees,o=DA"
                   [(MOD_DELETE, "businessCategory", role_staff)];
           ModifyS "cn=jdoe,ou=Employees,o=DA"
             (update_mod_attrs example_settings "jdoe" "False" "15549" "15549"
                "John" "John Doe" "Doe" "ADM" "D01234567" "44EFB5C72"
                "History" role_faculty "promoted") ])%list).
Proof.
  assert (Hu : all_given (update_params "jdoe" "jdoe" "False" "15549"
               "15549" "John" "John Doe" "Doe" "ADM" "D01234567" "44EFB5C72"
               "History" role_faculty "promoted") = true) by reflexivity.
  assert (Hconn :
    run (ldapConnect example_settings modify_refused_directory) []
    = (Ret true, bind_calls example_settings)) by reflexivity.
  assert (Hfind :
    run (findUser example_settings modify_refused_directory "jdoe")
        (bind_calls example_settings)
    = (Ret true,
       (bind_calls example_settings
        ++ [existence_search example_settings "jdoe"])%list))
    by reflexivity.
  assert (Hren :
    run (update_rename example_settings modify_refused_directory
           "jdoe" "jdoe")
        (bind_calls example_settings
         ++ [existence_search example_settings "jdoe"])%list
    = (Ret (Continue tt),
       (bind_calls example_settings
        ++ [existence_search example_settings "jdoe"])%list))
    by reflexivity.
  assert (Hsearch :
    ldap_search modify_refused_directory
      (bind_calls example_settings
       ++ [existence_search example_settings "jdoe"])%list
      (baseDN example_settings) SCOPE_SUBTREE ("cn=" ++ "jdoe")
      ["businessCategory"]
    = Some [("cn=jdoe,ou=Employees,o=DA",
             [("businessCategory", [role_staff; "unrelated=1"])])])
    by (vm_compute; reflexivity).
  assert (Hattr :
    Py.dict_get [("businessCategory", [role_staff; "unrelated=1"])]
                "businessCategory"
    = Some [role_staff; "unrelated=1"]) by reflexivity.
  assert (Hdel : forall h v,
     ldap_ok modify_refused_directory h
       (delete_role_value (buildDN example_settings "jdoe") v) = true)
    by (intros; reflexivity).
  assert (Hrefused : forall h,
     ldap_ok modify_refused_directory h
       (ModifyS (buildDN example_settings "jdoe")
          (update_mod_attrs example_settings "jdoe" "False" "15549" "15549"
             "John" "John Doe" "Doe" "ADM" "D01234567" "44EFB5C72"
             "History" role_faculty "promoted")) = false)
    by (intros; reflexivity).
  pose proof (update_refused_after_markers_deleted example_settings
                insertion_order_runtime modify_refused_directory [] _ _ _
                _ _ _ _
                "jdoe" "jdoe" "False" "15549" "15549" "John" "John Doe"
                "Doe" "ADM" "D01234567" "44EFB5C72" "History" role_faculty
                "promoted" Hu Hconn Hfind Hren Hsearch Hattr Hdel Hrefused)
    as Hrun.
  repeat (split; [assumption|]).
  exact Hrun.
Defined.
